(** * S-57 attribute extraction: [depth.cpp] and [nobjnm.cpp]

    Two command-line programs walk a directory tree of S-57 cell files
    ([*.000]), build one SQL text per cell file out of per-layer
    [SELECT] fragments and hand it to [GDALVectorTranslate], which writes
    or appends to one cumulative CSV destination.

    The embedding follows the two sources function by function:
    - [StdMap]   : the [std::map<std::string, std::string>] of [depth.cpp];
    - [Gdal]     : the part of the GDAL/OGR interface the programs call;
    - [Sql]      : the statement shape the programs emit and what the
                   query engine answers for it;
    - [Ogr2ogr]  : how the option vector given to the export is read;
    - [Run]      : events, run state and the directory loop;
    - [Depth], [Nobjnm] : the two [main] functions;
    - [DepthPlan], [NobjnmPlan] : the statements behind the fragment texts;
    - [Trace], [Loop], [Program] : reading a trace, one turn of the
                   directory loop, the two programs side by side;
    - [Sample]   : datasets and runs for the worked cases;
    - [Reading], [Lifetime], [Zip] : further readings of a trace, the
                   loop bodies with the releases of their handles
                   ([gdal_dataset_deleter]), and [zip_single_file]. *)

From Stdlib Require Import List String Ascii ZArith Bool Arith Lia.
Import ListNotations.
Open Scope string_scope.

(** ** Text helpers *)

(** The double quote character (code 34), escaped in the C++ literals. *)
Definition dq : string := String (ascii_of_nat 34) EmptyString.

(** [boost::algorithm::join]. *)
Definition join (parts : list string) (sep : string) : string :=
  String.concat sep parts.

(** [s] ends with [suf]. *)
Definition ends_with (s suf : string) : Prop := exists p, s = p ++ suf.

(** [s] starts with [pre]. *)
Definition starts_with (s pre : string) : Prop := exists r, s = pre ++ r.

(** ** [std::map<std::string, std::string>]

    An ordered map: iteration visits the keys in ascending order of
    [std::less<std::string>], the lexicographic order on bytes.  It is
    kept as a strictly sorted association list. *)
Module StdMap.

Definition t := list (string * string).

(** Insertion of a pair; an existing key keeps its value, as for the
    initializer-list constructor. *)
Fixpoint insert (k v : string) (m : t) : t :=
  match m with
  | [] => [(k, v)]
  | (k', v') :: r =>
      match String.compare k k' with
      | Lt => (k, v) :: m
      | Eq => m
      | Gt => (k', v') :: insert k v r
      end
  end.

Definition of_list (l : list (string * string)) : t :=
  fold_left (fun m kv => insert (fst kv) (snd kv) m) l [].

(** [m.find(k)]: [None] stands for [m.end()]. *)
Fixpoint find (k : string) (m : t) : option string :=
  match m with
  | [] => None
  | (k', v') :: r => if k =? k' then Some v' else find k r
  end.

Definition keys (m : t) : list string := map fst m.

(** Each key is below the next one in the lexicographic order. *)
Fixpoint ascending (ks : list string) : bool :=
  match ks with
  | k :: ((k' :: _) as r) =>
      match String.compare k k' with
      | Lt => ascending r
      | _ => false
      end
  | _ => true
  end.

End StdMap.

(** ** The GDAL/OGR interface used by the programs

    An opened dataset answers [GetLayerByName]; a layer answers
    [GetFieldIndex] on its definition ([-1] when the field is not in the
    schema) and holds features; a feature has a geometry and field
    values, [None] being an unset (NULL) field. *)
Module Gdal.

Record OGRFeature := {
  geometry : string;
  GetField : string -> option string
}.

Record OGRLayer := {
  GetFieldIndex : string -> Z;
  features : list OGRFeature
}.

Record GDALDataset := {
  GetLayerByName : string -> option OGRLayer
}.

End Gdal.
Import Gdal.

(** ** The emitted SQL and its rows *)
Module Sql.

(** The attribute projection of a fragment. *)
Inductive attr_expr :=
| CastConst (lit : string)      (* CAST(lit AS REAL) AS DEPTH *)
| CastField (field : string)    (* CAST("field" AS REAL) AS DEPTH *)
| PlainField (field : string).  (* "field" *)

(** One [SELECT] of the shape both programs write. *)
Record select_stmt := {
  sel_level : option ascii;     (* '<c>' AS LEVEL, when present *)
  sel_tag : string;             (* '<tag>' AS LAYERS *)
  sel_attr : attr_expr;
  sel_from : string;            (* FROM "<layer>" *)
  sel_where : option string     (* WHERE "<f>" IS NOT NULL AND "<f>" != '' *)
}.

Definition select_head : string :=
  "SELECT ST_MakeValid(ST_SimplifyPreserveTopology(geometry, 0.00025)) AS WKT, ".

Definition where_text (f : string) : string :=
  " WHERE " ++ dq ++ f ++ dq ++ " IS NOT NULL AND " ++ dq ++ f ++ dq ++ " != ''".

Definition render_attr (a : attr_expr) : string :=
  match a with
  | CastConst lit => "CAST(" ++ lit ++ " AS REAL) AS DEPTH"
  | CastField f => "CAST(" ++ dq ++ f ++ dq ++ " AS REAL) AS DEPTH"
  | PlainField f => dq ++ f ++ dq
  end.

(** The text of a statement. *)
Definition render (q : select_stmt) : string :=
  select_head
  ++ match sel_level q with
     | Some c => "'" ++ String c "" ++ "' AS LEVEL, "
     | None => ""
     end
  ++ "'" ++ sel_tag q ++ "' AS LAYERS, "
  ++ render_attr (sel_attr q)
  ++ " FROM " ++ dq ++ sel_from q ++ dq
  ++ match sel_where q with
     | Some f => where_text f
     | None => ""
     end.

(** Geometry values: the two spatial functions stay symbolic. *)
Inductive geom :=
| Geometry (wkt : string)
| ST_SimplifyPreserveTopology (g : geom) (tolerance : string)
| ST_MakeValid (g : geom).

(** Attribute values of a result row. *)
Inductive value :=
| VNull
| VText (s : string)
| VLit (lit : string)
| VCastReal (v : value).

Record row := {
  WKT : geom;
  LEVEL : option ascii;
  LAYERS : string;
  attr_name : string;
  attr_value : value
}.

Definition field_value (ft : OGRFeature) (f : string) : value :=
  match GetField ft f with
  | Some s => VText s
  | None => VNull
  end.

Definition column_exists (l : OGRLayer) (f : string) : bool :=
  negb (GetFieldIndex l f =? -1)%Z.

(** The value of a double-quoted name, as SQLite reads it: the column
    of that name when the layer has one, and otherwise the name itself
    as a text literal (an unknown double-quoted name is not an error). *)
Definition quoted_name (l : OGRLayer) (ft : OGRFeature) (f : string) : value :=
  if column_exists l f then field_value ft f else VText f.

(** [WHERE "f" IS NOT NULL AND "f" != '']: a NULL fails the first
    conjunct, an empty text the second. *)
Definition where_holds (l : OGRLayer) (w : option string) (ft : OGRFeature) : bool :=
  match w with
  | None => true
  | Some f =>
      match quoted_name l ft f with
      | VNull => false
      | VText s => negb (s =? "")
      | _ => true
      end
  end.

Definition project (l : OGRLayer) (q : select_stmt) (ft : OGRFeature) : row :=
  {| WKT := ST_MakeValid (ST_SimplifyPreserveTopology (Geometry (geometry ft)) "0.00025");
     LEVEL := sel_level q;
     LAYERS := sel_tag q;
     attr_name := match sel_attr q with
                  | CastConst _ | CastField _ => "DEPTH"
                  | PlainField f => f
                  end;
     attr_value := match sel_attr q with
                   | CastConst lit => VCastReal (VLit lit)
                   | CastField f => VCastReal (quoted_name l ft f)
                   | PlainField f => quoted_name l ft f
                   end |}.


(** Rows of one statement; [None] when the table does not exist. *)
Definition exec_select (ds : GDALDataset) (q : select_stmt) : option (list row) :=
  match GetLayerByName ds (sel_from q) with
  | None => None
  | Some l => Some (map (project l q) (filter (where_holds l (sel_where q)) (features l)))
  end.

(** [UNION ALL]: every row of every fragment, in fragment order. *)
Fixpoint exec_union_all (ds : GDALDataset) (qs : list select_stmt) : option (list row) :=
  match qs with
  | [] => Some []
  | q :: r =>
      match exec_select ds q, exec_union_all ds r with
      | Some rows, Some rest => Some (rows ++ rest)%list
      | _, _ => None
      end
  end.

(** *** Reading the text

    The programs hand the engine a text, with the names streamed into
    it as they are.  [parse_query] reads a text of the shape the
    programs write: the fixed words must be there letter by letter, and
    a quoted token runs to the first quote that is not doubled, a
    doubled quote standing for one quote.  It answers [None] for any
    other text, about which nothing is said here. *)

Definition single_quote : ascii := "'"%char.
Definition double_quote : ascii := ascii_of_nat 34.

Fixpoint strip_prefix (p s : string) : option string :=
  match p with
  | EmptyString => Some s
  | String a p' =>
      match s with
      | String b s' => if Ascii.eqb a b then strip_prefix p' s' else None
      | EmptyString => None
      end
  end.

(** The rest of a quoted token after its opening quote: the content
    and what follows the closing quote. *)
Fixpoint scan_quoted (q : ascii) (s : string) : option (string * string) :=
  match s with
  | EmptyString => None
  | String c r =>
      if Ascii.eqb c q then
        match r with
        | String c' r' =>
            if Ascii.eqb c' q then
              match scan_quoted q r' with
              | Some (a, rest) => Some (String q a, rest)
              | None => None
              end
            else Some (EmptyString, r)
        | EmptyString => Some (EmptyString, EmptyString)
        end
      else
        match scan_quoted q r with
        | Some (a, rest) => Some (String c a, rest)
        | None => None
        end
  end.

Definition read_quoted (q : ascii) (s : string) : option (string * string) :=
  match s with
  | String c r => if Ascii.eqb c q then scan_quoted q r else None
  | EmptyString => None
  end.

(** ['<c>' AS LEVEL, '<tag>'] or ['<tag>']. *)
Definition parse_level_tag (s : string) : option (option ascii * string * string) :=
  match read_quoted single_quote s with
  | None => None
  | Some (a, s2) =>
      match strip_prefix " AS LEVEL, " s2 with
      | Some s3 =>
          match a with
          | String c EmptyString =>
              match read_quoted single_quote s3 with
              | Some (tag, s4) => Some (Some c, tag, s4)
              | None => None
              end
          | _ => None
          end
      | None => Some (None, a, s2)
      end
  end.

(** [CAST(-1 AS REAL) AS DEPTH], [CAST("<f>" AS REAL) AS DEPTH] or ["<f>"]. *)
Definition parse_attr (s : string) : option (attr_expr * string) :=
  match strip_prefix "CAST(-1 AS REAL) AS DEPTH" s with
  | Some s1 => Some (CastConst "-1", s1)
  | None =>
      match strip_prefix "CAST(" s with
      | Some s1 =>
          match read_quoted double_quote s1 with
          | Some (f, s2) =>
              match strip_prefix " AS REAL) AS DEPTH" s2 with
              | Some s3 => Some (CastField f, s3)
              | None => None
              end
          | None => None
          end
      | None =>
          match read_quoted double_quote s with
          | Some (f, s1) => Some (PlainField f, s1)
          | None => None
          end
      end
  end.

(** Nothing, or [ WHERE "<f>" IS NOT NULL AND "<f>" != '']. *)
Definition parse_where (s : string) : option (option string * string) :=
  match strip_prefix " WHERE " s with
  | None => Some (None, s)
  | Some s1 =>
      match read_quoted double_quote s1 with
      | None => None
      | Some (f1, s2) =>
          match strip_prefix " IS NOT NULL AND " s2 with
          | None => None
          | Some s3 =>
              match read_quoted double_quote s3 with
              | None => None
              | Some (f2, s4) =>
                  match strip_prefix " != ''" s4 with
                  | None => None
                  | Some s5 => if f1 =? f2 then Some (Some f1, s5) else None
                  end
              end
          end
      end
  end.

(** One statement at the head of a text, and the text after it. *)
Definition parse_select (s : string) : option (select_stmt * string) :=
  match strip_prefix select_head s with
  | None => None
  | Some s1 =>
      match parse_level_tag s1 with
      | None => None
      | Some (level, tag, s2) =>
          match strip_prefix " AS LAYERS, " s2 with
          | None => None
          | Some s3 =>
              match parse_attr s3 with
              | None => None
              | Some (attr, s4) =>
                  match strip_prefix " FROM " s4 with
                  | None => None
                  | Some s5 =>
                      match read_quoted double_quote s5 with
                      | None => None
                      | Some (from, s6) =>
                          match parse_where s6 with
                          | None => None
                          | Some (w, s7) =>
                              Some ({| sel_level := level; sel_tag := tag; sel_attr := attr;
                                       sel_from := from; sel_where := w |}, s7)
                          end
                      end
                  end
              end
          end
      end
  end.

(** Statements separated by [ UNION ALL ], to the end of the text.
    [fuel] bounds the number of statements. *)
Fixpoint parse_query_from (fuel : nat) (s : string) : option (list select_stmt) :=
  match fuel with
  | O => None
  | S n =>
      match parse_select s with
      | None => None
      | Some (q, rest) =>
          match rest with
          | EmptyString => Some [q]
          | _ =>
              match strip_prefix " UNION ALL " rest with
              | Some s' =>
                  match parse_query_from n s' with
                  | Some qs => Some (q :: qs)
                  | None => None
                  end
              | None => None
              end
          end
      end
  end.

(** A statement has at least one character: the length of the text
    is fuel enough. *)
Definition parse_query (s : string) : option (list select_stmt) :=
  parse_query_from (String.length s) s.

(** The rows the engine answers for a text of that shape. *)
Definition run (ds : GDALDataset) (text : string) : option (list row) :=
  match parse_query text with
  | Some qs => exec_union_all ds qs
  | None => None
  end.

(** [s] has no character [q]. *)
Fixpoint free_of (q : ascii) (s : string) : bool :=
  match s with
  | EmptyString => true
  | String c r => negb (Ascii.eqb c q) && free_of q r
  end.

(** A name that can stand between quotes of either kind as it is. *)
Definition plain_name (s : string) : bool :=
  free_of single_quote s && free_of double_quote s.

(** [s] does not start with the character [q]. *)
Definition not_starting (q : ascii) (s : string) : bool :=
  match s with
  | EmptyString => true
  | String c _ => negb (Ascii.eqb c q)
  end.

(** What may follow a statement: the end of the text or the next
    [UNION ALL]. *)
Definition closes (rest : string) : Prop :=
  rest = "" \/ exists r, rest = " UNION ALL " ++ r.

(** A statement whose names can be streamed between their quotes as
    they are, and whose constant is the one the programs write. *)
Definition plain_stmt (q : select_stmt) : bool :=
  match sel_level q with
  | Some c => negb (Ascii.eqb c single_quote)
  | None => true
  end
  && free_of single_quote (sel_tag q)
  && match sel_attr q with
     | CastConst lit => lit =? "-1"
     | CastField f | PlainField f => free_of double_quote f
     end
  && free_of double_quote (sel_from q)
  && match sel_where q with
     | Some f => free_of double_quote f
     | None => true
     end.

End Sql.

(** ** The option vector of [GDALVectorTranslate]

    The programs pass an [argv]-style vector.  [decode] reads it the way
    ogr2ogr does for the switches that occur: [-append] stands alone,
    every other switch takes the next element as its value. *)
Module Ogr2ogr.

Record VectorTranslateOptions := {
  vt_format : option string;    (* -f *)
  vt_dialect : option string;   (* -dialect *)
  vt_append : bool;             (* -append *)
  vt_sql : option string;       (* -sql *)
  vt_nln : option string;       (* -nln *)
  vt_lco : list string;         (* -lco, repeatable *)
  vt_dim : option string        (* -dim *)
}.

Definition no_options : VectorTranslateOptions :=
  {| vt_format := None; vt_dialect := None; vt_append := false; vt_sql := None;
     vt_nln := None; vt_lco := []; vt_dim := None |}.

Definition set_switch (sw v : string) (o : VectorTranslateOptions)
  : option VectorTranslateOptions :=
  if sw =? "-f" then
    Some {| vt_format := Some v; vt_dialect := vt_dialect o; vt_append := vt_append o;
            vt_sql := vt_sql o; vt_nln := vt_nln o; vt_lco := vt_lco o; vt_dim := vt_dim o |}
  else if sw =? "-dialect" then
    Some {| vt_format := vt_format o; vt_dialect := Some v; vt_append := vt_append o;
            vt_sql := vt_sql o; vt_nln := vt_nln o; vt_lco := vt_lco o; vt_dim := vt_dim o |}
  else if sw =? "-sql" then
    Some {| vt_format := vt_format o; vt_dialect := vt_dialect o; vt_append := vt_append o;
            vt_sql := Some v; vt_nln := vt_nln o; vt_lco := vt_lco o; vt_dim := vt_dim o |}
  else if sw =? "-nln" then
    Some {| vt_format := vt_format o; vt_dialect := vt_dialect o; vt_append := vt_append o;
            vt_sql := vt_sql o; vt_nln := Some v; vt_lco := vt_lco o; vt_dim := vt_dim o |}
  else if sw =? "-lco" then
    Some {| vt_format := vt_format o; vt_dialect := vt_dialect o; vt_append := vt_append o;
            vt_sql := vt_sql o; vt_nln := vt_nln o; vt_lco := (vt_lco o ++ [v])%list;
            vt_dim := vt_dim o |}
  else if sw =? "-dim" then
    Some {| vt_format := vt_format o; vt_dialect := vt_dialect o; vt_append := vt_append o;
            vt_sql := vt_sql o; vt_nln := vt_nln o; vt_lco := vt_lco o; vt_dim := Some v |}
  else None.

Definition set_append (o : VectorTranslateOptions) : VectorTranslateOptions :=
  {| vt_format := vt_format o; vt_dialect := vt_dialect o; vt_append := true;
     vt_sql := vt_sql o; vt_nln := vt_nln o; vt_lco := vt_lco o; vt_dim := vt_dim o |}.

Fixpoint decode_from (o : VectorTranslateOptions) (argv : list string)
  : option VectorTranslateOptions :=
  match argv with
  | [] => Some o
  | sw :: rest =>
      if sw =? "-append" then decode_from (set_append o) rest
      else match rest with
           | [] => None
           | v :: rest' =>
               match set_switch sw v o with
               | Some o' => decode_from o' rest'
               | None => None
               end
           end
  end.

Definition decode (argv : list string) : option VectorTranslateOptions :=
  decode_from no_options argv.

End Ogr2ogr.

(** ** Events, run state and the directory loop *)
Module Run.

Inductive stream := Cout | Cerr.

(** One constructor per message the programs print. *)
Inductive message :=
| MsgUsage
| ErrArgs
| MsgRemovedOld (dir : string)
| MsgProcessing (file : string)
| WarnCannotOpen (file : string)
| MsgFoundLand (layer : string)
| MsgFoundDepthLayer (layer field : string)
| MsgFoundLayer (layer field : string)
| MsgLayerLacksField (layer field : string)
| MsgExporting
| ErrOptionsNew
| ErrProcessing (file : string)
| MsgNoTargetLayer
| MsgNoLayerWithField (field : string)
| ErrFilesystem
| MsgAllDone.

(** What a run does to the outside, in program order. *)
Inductive event :=
| Log (s : stream) (m : message)
| AllRegister
| SetConfigOption (key val : string)
| RemoveAll (dir : string)
| OpenEx (file : string) (open_options : list string) (ok : bool)
| OptionsNew (argv : list string) (ok : bool)
| Translate (dest : string) (argv : list string) (ok : bool).

(** What [fs::remove_all] does to an existing directory: it removes
    it, or it throws [fs::filesystem_error] and leaves something, or
    nothing, of it. *)
Inductive removal (C : Type) :=
| Removed
| RemovalThrows (kept : option C).
Arguments Removed {C}.
Arguments RemovalThrows {C} kept.

(** The collaborators.  [Content] is whatever the destination holds;
    [GDALOpenEx] answers [None] for a null dataset;
    [GDALVectorTranslateOptionsNew] answers whether the options are
    non-null; [GDALVectorTranslate] answers whether the returned
    handle is non-null, and the destination it leaves;
    [fs_exists_throws] tells whether [fs::exists] throws on a path
    (when it does not, it answers whether the path is there);
    [fs_remove_all] is [fs::remove_all] on a directory that is there. *)
Record World := {
  Content : Type;
  GDALOpenEx : string -> list string -> option GDALDataset;
  GDALVectorTranslateOptionsNew : list string -> bool;
  GDALVectorTranslate :
    option Content -> string -> GDALDataset -> list string -> bool * option Content;
  fs_exists_throws : string -> bool;
  fs_remove_all : string -> Content -> removal Content
}.

(** The three views of [entry.path()] the loop reads. *)
Record dir_entry := {
  path_string : string;   (* entry.path().string() *)
  filename : string;      (* entry.path().filename().string() *)
  extension : string      (* entry.path().extension() *)
}.

(** What [fs::recursive_directory_iterator] yields, and whether the
    traversal then throws [fs::filesystem_error]: [entries] are the
    entries handed to the loop body before the traversal ends or
    throws. *)
Record Scan := {
  entries : list dir_entry;
  throws : bool
}.

(** Parsing of the command line: [po::store] may throw; otherwise the
    help switch is known and [po::notify] either throws for a missing
    required option ([None]) or the options are available. *)
Inductive cmdline (Opts : Type) :=
| StoreError
| Parsed (help : bool) (required : option Opts).
Arguments StoreError {Opts}.
Arguments Parsed {Opts} help required.

(** The mutable state of a run: the flag of [main] and the
    destination on disk ([None] when it does not exist). *)
Record RunState (W : World) := {
  isFirstWrite : bool;
  destination : option (Content W)
}.
Arguments isFirstWrite {W} r.
Arguments destination {W} r.

(** The result of a run: the value [main] returns ([None] when it
    does not return: an exception nothing catches ends the process),
    what it did, the destination it leaves, and the flag if the run got
    to declare it. *)
Record Outcome (W : World) := {
  exit_code : option Z;
  events : list event;
  destination_after : option (Content W);
  flag_at_exit : option bool
}.
Arguments exit_code {W} o.
Arguments events {W} o.
Arguments destination_after {W} o.
Arguments flag_at_exit {W} o.

Definition is_cell_file (entry : dir_entry) : bool := extension entry =? ".000".

(** The range-for over the directory iterator: the body runs on each
    entry in turn, on the state the previous one left. *)
Fixpoint for_each {W : World}
    (body : RunState W -> dir_entry -> RunState W * list event)
    (l : list dir_entry) (st : RunState W) : RunState W * list event :=
  match l with
  | [] => (st, [])
  | entry :: rest =>
      let (st1, ev1) := body st entry in
      let (st2, ev2) := for_each body rest st1 in
      (st2, (ev1 ++ ev2)%list)
  end.

(** [if (fs::exists(outputDir)) { ...; fs::remove_all(outputDir); }]

    The block stands before the [try] of [main]: an exception of
    [fs::exists] or of [fs::remove_all] is caught by nothing.
    [remaining] is the destination the block leaves, [said] what it
    did, [uncaught] whether an exception leaves it. *)
Record Preparation (W : World) := {
  remaining : option (Content W);
  said : list event;
  uncaught : bool
}.
Arguments remaining {W} p.
Arguments said {W} p.
Arguments uncaught {W} p.

Definition prepare_output {W : World} (outputDir : string) (fs0 : option (Content W))
  : Preparation W :=
  if fs_exists_throws W outputDir then
    {| remaining := fs0; said := []; uncaught := true |}
  else
    match fs0 with
    | Some c =>
        match fs_remove_all W outputDir c with
        | Removed =>
            {| remaining := None;
               said := [Log Cout (MsgRemovedOld outputDir); RemoveAll outputDir];
               uncaught := false |}
        | RemovalThrows kept =>
            {| remaining := kept;
               said := [Log Cout (MsgRemovedOld outputDir); RemoveAll outputDir];
               uncaught := true |}
        end
    | None => {| remaining := fs0; said := []; uncaught := false |}
    end.

End Run.
Import Run.

(** ** [depth.cpp] *)
Module Depth.

Record Options := {
  inputDir : string;
  outputDir : string;
  outputName : string
}.

(** [depth_map], in the order of its initializer list. *)
Definition depth_map : StdMap.t :=
  StdMap.of_list
    [ ("SOUNDG", "DEPTH");
      ("DEPARE", "DRVAL1");
      ("DRGARE", "DRVAL1");
      ("DEPCNT", "VALDCO");
      ("WRECKS", "VALSOU");
      ("OBSTRN", "VALSOU");
      ("UWTROC", "VALSOU") ].

(** [all_target_layers]: one [push_back] of the land layer, then one per
    pair of the map, in the map's iteration order. *)
Definition all_target_layers : list string :=
  fold_left (fun v pair => (v ++ [fst pair])%list) depth_map ["LNDARE"].

Definition papszOpenOptions : list string :=
  ["SPLIT_MULTIPOINT=ON"; "ADD_SOUNDG_DEPTH=ON"].

(** The fragment pushed for the land layer. *)
Definition land_sql (layerName : string) : string :=
  "SELECT ST_MakeValid(ST_SimplifyPreserveTopology(geometry, 0.00025)) AS WKT, '"
  ++ layerName ++ "' AS LAYERS, CAST(-1 AS REAL) AS DEPTH FROM " ++ dq
  ++ layerName ++ dq.

(** The fragment streamed for a layer of [depth_map]. *)
Definition depth_sql (layerName depthField : string) : string :=
  "SELECT ST_MakeValid(ST_SimplifyPreserveTopology(geometry, 0.00025)) AS WKT, '"
  ++ layerName ++ "' AS LAYERS, CAST(" ++ dq ++ depthField ++ dq
  ++ " AS REAL) AS DEPTH FROM " ++ dq ++ layerName ++ dq ++ " WHERE " ++ dq
  ++ depthField ++ dq ++ " IS NOT NULL AND " ++ dq ++ depthField ++ dq ++ " != ''".

(** One turn of the loop over [all_target_layers]: the messages so far
    and [sql_parts]. *)
Definition layer_step (poDS : GDALDataset) (acc : list event * list string)
    (layerName : string) : list event * list string :=
  match GetLayerByName poDS layerName with
  | Some _ =>
      if layerName =? "LNDARE" then
        ((fst acc ++ [Log Cout (MsgFoundLand layerName)])%list,
         (snd acc ++ [land_sql layerName])%list)
      else
        match StdMap.find layerName depth_map with
        | Some depthField =>
            ((fst acc ++ [Log Cout (MsgFoundDepthLayer layerName depthField)])%list,
             (snd acc ++ [depth_sql layerName depthField])%list)
        | None => acc
        end
  | None => acc
  end.

Definition build_sql_parts (poDS : GDALDataset) : list event * list string :=
  fold_left (layer_step poDS) all_target_layers ([], []).

Definition sql_parts (poDS : GDALDataset) : list string := snd (build_sql_parts poDS).

(** The vector [opts], without its terminating null. *)
Definition translate_argv (isFirstWrite : bool) (sqlQuery outputName : string)
  : list string :=
  (["-f"; "CSV"; "-dialect"; "SQLite"]
   ++ (if negb isFirstWrite then ["-append"] else [])
   ++ ["-sql"; sqlQuery; "-nln"; outputName; "-lco"; "GEOMETRY=AS_WKT"; "-dim"; "2"])%list.

(** The body of the loop over the directory entries. *)
Definition process_entry (W : World) (o : Options) (st : RunState W) (entry : dir_entry)
  : RunState W * list event :=
  if extension entry =? ".000" then
    let s57_file := path_string entry in
    match GDALOpenEx W s57_file papszOpenOptions with
    | None =>
        (st, [Log Cout (MsgProcessing s57_file);
              OpenEx s57_file papszOpenOptions false;
              Log Cerr (WarnCannotOpen s57_file)])
    | Some poDS =>
        let found := build_sql_parts poDS in
        let before := ([Log Cout (MsgProcessing s57_file);
                        OpenEx s57_file papszOpenOptions true] ++ fst found)%list in
        match snd found with
        | [] => (st, (before ++ [Log Cout MsgNoTargetLayer])%list)
        | _ :: _ =>
            let sqlQuery := join (snd found) " UNION ALL " in
            let opts := translate_argv (isFirstWrite st) sqlQuery (outputName o) in
            if GDALVectorTranslateOptionsNew W opts then
              let (ok, fs') :=
                GDALVectorTranslate W (destination st) (outputDir o) poDS opts in
              if ok then
                ({| isFirstWrite := if isFirstWrite st then false else isFirstWrite st;
                    destination := fs' |},
                 (before ++ [Log Cout MsgExporting; OptionsNew opts true;
                             Translate (outputDir o) opts true])%list)
              else
                ({| isFirstWrite := isFirstWrite st; destination := fs' |},
                 (before ++ [Log Cout MsgExporting; OptionsNew opts true;
                             Translate (outputDir o) opts false;
                             Log Cerr (ErrProcessing s57_file)])%list)
            else
              (st, (before ++ [Log Cout MsgExporting; OptionsNew opts false;
                               Log Cerr ErrOptionsNew])%list)
        end
    end
  else (st, []).

Definition main (W : World) (cl : cmdline Options) (scan : Scan)
    (fs0 : option (Content W)) : Outcome W :=
  match cl with
  | StoreError =>
      {| exit_code := Some 1%Z; events := [Log Cerr ErrArgs; Log Cerr MsgUsage];
         destination_after := fs0; flag_at_exit := None |}
  | Parsed true _ =>
      {| exit_code := Some 0%Z; events := [Log Cout MsgUsage];
         destination_after := fs0; flag_at_exit := None |}
  | Parsed false None =>
      {| exit_code := Some 1%Z; events := [Log Cerr ErrArgs; Log Cerr MsgUsage];
         destination_after := fs0; flag_at_exit := None |}
  | Parsed false (Some o) =>
      let init := [AllRegister; SetConfigOption "OGR_WKT_PRECISION" "8"] in
      let prepared := prepare_output (outputDir o) fs0 in
      if uncaught prepared then
        {| exit_code := None;
           events := (init ++ said prepared)%list;
           destination_after := remaining prepared;
           flag_at_exit := None |}
      else
        let (st, done) :=
          for_each (process_entry W o) (entries scan)
                   {| isFirstWrite := true; destination := remaining prepared |} in
        if throws scan then
          {| exit_code := Some 1%Z;
             events := (init ++ said prepared ++ done ++ [Log Cerr ErrFilesystem])%list;
             destination_after := destination st;
             flag_at_exit := Some (isFirstWrite st) |}
        else
          {| exit_code := Some 0%Z;
             events := (init ++ said prepared ++ done ++ [Log Cout MsgAllDone])%list;
             destination_after := destination st;
             flag_at_exit := Some (isFirstWrite st) |}
  end.

End Depth.

(** ** [nobjnm.cpp] *)
Module Nobjnm.

Record Options := {
  inputDir : string;
  outputDir : string;
  targetLayers : list string;
  filterField : string;
  outputName : string
}.

(** [char level = (filename.length() >= 3) ? filename[2] : '0';] *)
Definition level_of (filename : string) : ascii :=
  if (3 <=? String.length filename)%nat then
    match String.get 2 filename with
    | Some c => c
    | None => "0"%char
    end
  else "0"%char.

(** The fragment streamed for a layer that has the filter field. *)
Definition filter_sql (level : ascii) (layerName filterField : string) : string :=
  "SELECT ST_MakeValid(ST_SimplifyPreserveTopology(geometry, 0.00025)) AS WKT, '"
  ++ String level "" ++ "' AS LEVEL, '" ++ layerName ++ "' AS LAYERS, "
  ++ dq ++ filterField ++ dq ++ " FROM " ++ dq ++ layerName ++ dq ++ " WHERE " ++ dq
  ++ filterField ++ dq ++ " IS NOT NULL AND " ++ dq ++ filterField ++ dq ++ " != ''".

(** One turn of the loop over [targetLayers]. *)
Definition layer_step (poDS : GDALDataset) (level : ascii) (filterField : string)
    (acc : list event * list string) (layerName : string) : list event * list string :=
  match GetLayerByName poDS layerName with
  | Some poLayer =>
      if negb (GetFieldIndex poLayer filterField =? -1)%Z then
        ((fst acc ++ [Log Cout (MsgFoundLayer layerName filterField)])%list,
         (snd acc ++ [filter_sql level layerName filterField])%list)
      else
        ((fst acc ++ [Log Cout (MsgLayerLacksField layerName filterField)])%list,
         snd acc)
  | None => acc
  end.

Definition build_sql_parts (poDS : GDALDataset) (level : ascii)
    (targetLayers : list string) (filterField : string) : list event * list string :=
  fold_left (layer_step poDS level filterField) targetLayers ([], []).

Definition sql_parts (poDS : GDALDataset) (level : ascii)
    (targetLayers : list string) (filterField : string) : list string :=
  snd (build_sql_parts poDS level targetLayers filterField).

(** The vector [opts], without its terminating null. *)
Definition translate_argv (isFirstWrite : bool) (sqlQuery outputName : string)
  : list string :=
  (["-f"; "CSV"; "-dialect"; "SQLite"]
   ++ (if negb isFirstWrite then ["-append"] else [])
   ++ ["-sql"; sqlQuery; "-nln"; outputName; "-lco"; "GEOMETRY=AS_WKT"])%list.

(** The body of the loop over the directory entries.  The options are
    first created from a null vector, then again from [opts]; only the
    second result is tested. *)
Definition process_entry (W : World) (o : Options) (st : RunState W) (entry : dir_entry)
  : RunState W * list event :=
  if extension entry =? ".000" then
    let s57_file := path_string entry in
    let level := level_of (filename entry) in
    match GDALOpenEx W s57_file [] with
    | None =>
        (st, [Log Cout (MsgProcessing s57_file);
              OpenEx s57_file [] false;
              Log Cerr (WarnCannotOpen s57_file)])
    | Some poDS =>
        let found := build_sql_parts poDS level (targetLayers o) (filterField o) in
        let before := ([Log Cout (MsgProcessing s57_file);
                        OpenEx s57_file [] true] ++ fst found)%list in
        match snd found with
        | [] => (st, (before ++ [Log Cout (MsgNoLayerWithField (filterField o))])%list)
        | _ :: _ =>
            let sqlQuery := join (snd found) " UNION ALL " in
            let opts := translate_argv (isFirstWrite st) sqlQuery (outputName o) in
            let start := (before ++ [Log Cout MsgExporting;
                                     OptionsNew [] (GDALVectorTranslateOptionsNew W [])])%list in
            if GDALVectorTranslateOptionsNew W opts then
              let (ok, fs') :=
                GDALVectorTranslate W (destination st) (outputDir o) poDS opts in
              if ok then
                ({| isFirstWrite := if isFirstWrite st then false else isFirstWrite st;
                    destination := fs' |},
                 (start ++ [OptionsNew opts true;
                            Translate (outputDir o) opts true])%list)
              else
                ({| isFirstWrite := isFirstWrite st; destination := fs' |},
                 (start ++ [OptionsNew opts true;
                            Translate (outputDir o) opts false;
                            Log Cerr (ErrProcessing s57_file)])%list)
            else
              (st, (start ++ [OptionsNew opts false; Log Cerr ErrOptionsNew])%list)
        end
    end
  else (st, []).

Definition main (W : World) (cl : cmdline Options) (scan : Scan)
    (fs0 : option (Content W)) : Outcome W :=
  match cl with
  | StoreError =>
      {| exit_code := Some 1%Z; events := [Log Cerr ErrArgs; Log Cerr MsgUsage];
         destination_after := fs0; flag_at_exit := None |}
  | Parsed true _ =>
      {| exit_code := Some 0%Z; events := [Log Cout MsgUsage];
         destination_after := fs0; flag_at_exit := None |}
  | Parsed false None =>
      {| exit_code := Some 1%Z; events := [Log Cerr ErrArgs; Log Cerr MsgUsage];
         destination_after := fs0; flag_at_exit := None |}
  | Parsed false (Some o) =>
      let init := [AllRegister; SetConfigOption "OGR_WKT_PRECISION" "8"] in
      let prepared := prepare_output (outputDir o) fs0 in
      if uncaught prepared then
        {| exit_code := None;
           events := (init ++ said prepared)%list;
           destination_after := remaining prepared;
           flag_at_exit := None |}
      else
        let (st, done) :=
          for_each (process_entry W o) (entries scan)
                   {| isFirstWrite := true; destination := remaining prepared |} in
        if throws scan then
          {| exit_code := Some 1%Z;
             events := (init ++ said prepared ++ done ++ [Log Cerr ErrFilesystem])%list;
             destination_after := destination st;
             flag_at_exit := Some (isFirstWrite st) |}
        else
          {| exit_code := Some 0%Z;
             events := (init ++ said prepared ++ done ++ [Log Cout MsgAllDone])%list;
             destination_after := destination st;
             flag_at_exit := Some (isFirstWrite st) |}
  end.

End Nobjnm.
Import Sql Ogr2ogr.

(** ** The statements behind the fragments

    Each fragment text is the text of one statement of [Sql]; the plans
    below list, for an opened dataset, the statements whose texts the
    layer loops push (see [DepthPlan.render_plan] and
    [NobjnmPlan.render_plan]). *)
Module DepthPlan.

Definition land_stmt (layerName : string) : select_stmt :=
  {| sel_level := None; sel_tag := layerName; sel_attr := CastConst "-1";
     sel_from := layerName; sel_where := None |}.

Definition depth_stmt (layerName depthField : string) : select_stmt :=
  {| sel_level := None; sel_tag := layerName; sel_attr := CastField depthField;
     sel_from := layerName; sel_where := Some depthField |}.

Definition stmts_of (poDS : GDALDataset) (layerName : string) : list select_stmt :=
  match GetLayerByName poDS layerName with
  | Some _ =>
      if layerName =? "LNDARE" then [land_stmt layerName]
      else match StdMap.find layerName Depth.depth_map with
           | Some depthField => [depth_stmt layerName depthField]
           | None => []
           end
  | None => []
  end.

Definition plan (poDS : GDALDataset) : list select_stmt :=
  flat_map (stmts_of poDS) Depth.all_target_layers.

(** The messages of one turn of the layer loop of [depth.cpp]. *)
Definition notes (poDS : GDALDataset) (layerName : string) : list event :=
  match GetLayerByName poDS layerName with
  | Some _ =>
      if layerName =? "LNDARE" then [Log Cout (MsgFoundLand layerName)]
      else match StdMap.find layerName Depth.depth_map with
           | Some depthField => [Log Cout (MsgFoundDepthLayer layerName depthField)]
           | None => []
           end
  | None => []
  end.

Definition present (poDS : GDALDataset) (layerName : string) : bool :=
  match GetLayerByName poDS layerName with
  | Some _ => true
  | None => false
  end.

End DepthPlan.

Module NobjnmPlan.

Definition filter_stmt (level : ascii) (layerName filterField : string) : select_stmt :=
  {| sel_level := Some level; sel_tag := layerName; sel_attr := PlainField filterField;
     sel_from := layerName; sel_where := Some filterField |}.

Definition stmts_of (poDS : GDALDataset) (level : ascii) (filterField layerName : string)
  : list select_stmt :=
  match GetLayerByName poDS layerName with
  | Some poLayer =>
      if negb (GetFieldIndex poLayer filterField =? -1)%Z
      then [filter_stmt level layerName filterField]
      else []
  | None => []
  end.

Definition plan (poDS : GDALDataset) (level : ascii) (targetLayers : list string)
    (filterField : string) : list select_stmt :=
  flat_map (stmts_of poDS level filterField) targetLayers.

(** The messages of one turn of the layer loop of [nobjnm.cpp]. *)
Definition notes (poDS : GDALDataset) (filterField layerName : string) : list event :=
  match GetLayerByName poDS layerName with
  | Some poLayer =>
      if negb (GetFieldIndex poLayer filterField =? -1)%Z
      then [Log Cout (MsgFoundLayer layerName filterField)]
      else [Log Cout (MsgLayerLacksField layerName filterField)]
  | None => []
  end.

(** The layer exists and its definition has the field. *)
Definition has_field (poDS : GDALDataset) (filterField layerName : string) : bool :=
  match GetLayerByName poDS layerName with
  | Some poLayer => negb (GetFieldIndex poLayer filterField =? -1)%Z
  | None => false
  end.

End NobjnmPlan.

(** ** Reading a trace *)
Module Trace.

(** The export calls of a trace: destination, option vector, success. *)
Definition translate_calls (tr : list event) : list (string * list string * bool) :=
  flat_map (fun e => match e with
                     | Translate d argv ok => [(d, argv, ok)]
                     | _ => []
                     end) tr.

Definition succeeded (call : string * list string * bool) : bool := snd call.

(** Some export of the trace succeeded. *)
Definition some_export_succeeded (tr : list event) : bool :=
  existsb succeeded (translate_calls tr).

(** The files announced as being processed, in order. *)
Definition processing_lines (tr : list event) : list string :=
  flat_map (fun e => match e with
                     | Log Cout (MsgProcessing f) => [f]
                     | _ => []
                     end) tr.

(** The way a cell file leaves the loop body. *)
Inductive terminal :=
| SkippedOpenFailure
| SkippedEmpty
| OptionsFailed
| ExportFailed
| Exported.

(** The terminal states a trace shows: the warning of a failed open,
    the line of an empty plan, the two error lines, and a successful
    export call (which prints nothing). *)
Definition terminals (tr : list event) : list terminal :=
  flat_map (fun e => match e with
                     | Log Cerr (WarnCannotOpen _) => [SkippedOpenFailure]
                     | Log Cout MsgNoTargetLayer => [SkippedEmpty]
                     | Log Cout (MsgNoLayerWithField _) => [SkippedEmpty]
                     | Log Cerr ErrOptionsNew => [OptionsFailed]
                     | Log Cerr (ErrProcessing _) => [ExportFailed]
                     | Translate _ _ true => [Exported]
                     | _ => []
                     end) tr.

Definition is_exported (t : terminal) : bool :=
  match t with Exported => true | _ => false end.
Definition is_skipped (t : terminal) : bool :=
  match t with SkippedOpenFailure | SkippedEmpty => true | _ => false end.
Definition is_failed (t : terminal) : bool :=
  match t with OptionsFailed | ExportFailed => true | _ => false end.

(** Counts of processed, skipped and failed files, read off a trace. *)
Definition tally (tr : list event) : nat * nat * nat :=
  (List.length (filter is_exported (terminals tr)),
   List.length (filter is_skipped (terminals tr)),
   List.length (filter is_failed (terminals tr))).

(** The calls that touch files: removal of the destination, opening
    of a cell file, export. *)
Definition touches_files (e : event) : bool :=
  match e with
  | RemoveAll _ | OpenEx _ _ _ | Translate _ _ _ => true
  | _ => false
  end.

(** The messages of the layer loops. *)
Definition is_layer_note (e : event) : bool :=
  match e with
  | Log Cout (MsgFoundLand _) | Log Cout (MsgFoundDepthLayer _ _)
  | Log Cout (MsgFoundLayer _ _) | Log Cout (MsgLayerLacksField _ _) => true
  | _ => false
  end.

End Trace.
Import Trace.


(** ** What one turn of the directory loop does

    [step_spec] collects what both loop bodies have in common: a cell
    file is announced once and leaves in one terminal state; either no
    export is called and the state is untouched, or one export is called
    on the configured destination with the option vector built from the
    flag, the query of that entry and the output name, and the flag
    falls exactly when that export succeeds. *)
Module Loop.

Definition step_spec {W : World}
    (body : RunState W -> dir_entry -> RunState W * list event)
    (outDir outName : string)
    (argv_of : bool -> string -> string -> list string)
    (query_of : dir_entry -> string -> Prop)
    (st : RunState W) (entry : dir_entry) : Prop :=
  processing_lines (snd (body st entry))
  = (if is_cell_file entry then [path_string entry] else [])
  /\ List.length (terminals (snd (body st entry)))
     = (if is_cell_file entry then 1%nat else 0%nat)
  /\ ((translate_calls (snd (body st entry)) = [] /\ fst (body st entry) = st)
      \/ (exists q ok,
            query_of entry q
            /\ translate_calls (snd (body st entry))
               = [(outDir, argv_of (isFirstWrite st) q outName, ok)]
            /\ isFirstWrite (fst (body st entry))
               = (if ok then false else isFirstWrite st))).

(** The query [depth.cpp] builds for an entry: the file opens and the
    query joins its fragments. *)
Definition depth_query (W : World) (entry : dir_entry) (q : string) : Prop :=
  exists poDS,
    GDALOpenEx W (path_string entry) Depth.papszOpenOptions = Some poDS
    /\ Depth.sql_parts poDS <> []
    /\ q = join (Depth.sql_parts poDS) " UNION ALL ".

(** The query [nobjnm.cpp] builds for an entry, with the level taken
    from the entry's file name. *)
Definition nobjnm_query (W : World) (o : Nobjnm.Options) (entry : dir_entry) (q : string)
  : Prop :=
  exists poDS,
    GDALOpenEx W (path_string entry) [] = Some poDS
    /\ Nobjnm.sql_parts poDS (Nobjnm.level_of (filename entry))
         (Nobjnm.targetLayers o) (Nobjnm.filterField o) <> []
    /\ q = join (Nobjnm.sql_parts poDS (Nobjnm.level_of (filename entry))
                  (Nobjnm.targetLayers o) (Nobjnm.filterField o)) " UNION ALL ".

End Loop.
Import Loop.

(** ** The two programs side by side *)
Module Program.

(** An invocation of one of the two programs, by its command line. *)
Inductive invocation :=
| DepthCmd (cl : cmdline Depth.Options)
| NobjnmCmd (cl : cmdline Nobjnm.Options).

Definition execute (W : World) (inv : invocation) (scan : Scan)
    (fs0 : option (Content W)) : Outcome W :=
  match inv with
  | DepthCmd cl => Depth.main W cl scan fs0
  | NobjnmCmd cl => Nobjnm.main W cl scan fs0
  end.

(** How the command line is received. *)
Inductive reception := Help | Rejected | Accepted.

Definition receive {Opts : Type} (cl : cmdline Opts) : reception :=
  match cl with
  | StoreError => Rejected
  | Parsed true _ => Help
  | Parsed false None => Rejected
  | Parsed false (Some _) => Accepted
  end.

Definition reception_of (inv : invocation) : reception :=
  match inv with
  | DepthCmd cl => receive cl
  | NobjnmCmd cl => receive cl
  end.

(** The output directory and output name of an accepted invocation. *)
Definition output_of (inv : invocation) : option (string * string) :=
  match inv with
  | DepthCmd (Parsed false (Some o)) => Some (Depth.outputDir o, Depth.outputName o)
  | NobjnmCmd (Parsed false (Some o)) => Some (Nobjnm.outputDir o, Nobjnm.outputName o)
  | _ => None
  end.

(** The query an accepted invocation builds for a scanned entry. *)
Definition query_of (W : World) (inv : invocation) (entry : dir_entry) (q : string)
  : Prop :=
  match inv with
  | DepthCmd (Parsed false (Some o)) => depth_query W entry q
  | NobjnmCmd (Parsed false (Some o)) => nobjnm_query W o entry q
  | _ => False
  end.

(** The loop an accepted invocation runs, from the state it starts in. *)
Definition loop_of (W : World) (inv : invocation) (scan : Scan) : RunState W * list event :=
  match inv with
  | DepthCmd (Parsed false (Some o)) =>
      for_each (Depth.process_entry W o) (entries scan)
               {| isFirstWrite := true; destination := None |}
  | NobjnmCmd (Parsed false (Some o)) =>
      for_each (Nobjnm.process_entry W o) (entries scan)
               {| isFirstWrite := true; destination := None |}
  | _ => ({| isFirstWrite := true; destination := None |}, [])
  end.

(** The check for the destination and its removal end without an
    exception. *)
Definition clears (W : World) (dir : string) (fs0 : option (Content W)) : bool :=
  negb (fs_exists_throws W dir)
  && match fs0 with
     | Some c =>
         match fs_remove_all W dir c with
         | Removed => true
         | RemovalThrows _ => false
         end
     | None => true
     end.

(** The run gets to the loop over the directory: its command line is
    accepted and the destination is cleared. *)
Definition reaches_loop (W : World) (inv : invocation) (fs0 : option (Content W)) : bool :=
  match output_of inv with
  | Some (dir, _) => clears W dir fs0
  | None => false
  end.

(** The dimension switch each program passes. *)
Definition dim_of (inv : invocation) : option string :=
  match inv with
  | DepthCmd _ => Some "2"
  | NobjnmCmd _ => None
  end.

End Program.
Import Program.

(** ** Sample data for the worked runs *)
Module Sample.

Definition feature (g : string) (fields : list (string * option string)) : OGRFeature :=
  {| geometry := g;
     GetField := fun f =>
       match find (fun kv => fst kv =? f) fields with
       | Some kv => snd kv
       | None => None
       end |}.

Fixpoint index_of (f : string) (names : list string) (i : Z) : Z :=
  match names with
  | [] => (-1)%Z
  | n :: r => if n =? f then i else index_of f r (i + 1)%Z
  end.

Definition layer (names : list string) (fts : list OGRFeature) : OGRLayer :=
  {| GetFieldIndex := fun f => index_of f names 0%Z; features := fts |}.

Definition dataset (layers : list (string * OGRLayer)) : GDALDataset :=
  {| GetLayerByName := fun n =>
       match find (fun kv => fst kv =? n) layers with
       | Some kv => Some (snd kv)
       | None => None
       end |}.

(** A cell with a land layer only. *)
Definition land_only : GDALDataset :=
  dataset [("LNDARE", layer ["OBJNAM"] [feature "POLYGON ((0 0,0 1,1 1,0 0))" [("OBJNAM", Some "Isle")]])].

(** A cell with a depth area of three features, one without [DRVAL1]. *)
Definition depare_three : GDALDataset :=
  dataset [("DEPARE", layer ["DRVAL1"; "DRVAL2"]
              [feature "POLYGON ((0 0,0 2,2 2,0 0))" [("DRVAL1", Some "5.0")];
               feature "POLYGON ((1 1,1 3,3 3,1 1))" [("DRVAL1", None)];
               feature "POLYGON ((2 2,2 4,4 4,2 2))" [("DRVAL1", Some "10.0")]])].

(** A cell whose depth area has no [DRVAL1] in its definition. *)
Definition depare_no_field : GDALDataset :=
  dataset [("DEPARE", layer ["DRVAL2"] [feature "POLYGON ((0 0,0 2,2 2,0 0))" []])].

(** A cell with a sounding layer and a wreck layer. *)
Definition soundg_wrecks : GDALDataset :=
  dataset [("WRECKS", layer ["VALSOU"] [feature "POINT (1 1)" [("VALSOU", Some "12")]]);
           ("SOUNDG", layer ["DEPTH"] [feature "POINT (2 2)" [("DEPTH", Some "7.5")]])].

(** A cell with named and unnamed objects. *)
Definition named : GDALDataset :=
  dataset [("SEAARE", layer ["NOBJNM"]
              [feature "POLYGON ((0 0,0 1,1 1,0 0))" [("NOBJNM", Some "Bohai")];
               feature "POLYGON ((0 0,0 2,2 2,0 0))" [("NOBJNM", Some "")];
               feature "POLYGON ((0 0,0 3,3 3,0 0))" [("NOBJNM", None)]]);
           ("BRIDGE", layer ["OBJNAM"] [feature "LINESTRING (0 0,1 1)" []])].

(** The destination keeps the option vectors written to it.  Files
    under [/bad/] do not open; an export whose output name is [fail]
    is refused. *)
Definition open_file (file : string) : option GDALDataset :=
  if file =? "/in/US5XX01M.000" then Some land_only
  else if file =? "/in/C1513170.000" then Some depare_three
  else if file =? "/in/C1100103.000" then Some soundg_wrecks
  else if file =? "/in/C1313100.000" then Some named
  else if file =? "/in/EMPTY.000" then Some (dataset [])
  else if file =? "/in/C1NOFLD1.000" then Some depare_no_field
  else None.

Definition world : World :=
  {| Content := list (list string);
     GDALOpenEx := fun file _ => open_file file;
     GDALVectorTranslateOptionsNew := fun _ => true;
     GDALVectorTranslate := fun fs _ _ argv =>
       match decode argv with
       | Some v =>
           if match vt_nln v with Some n => n =? "fail" | None => true end
           then (false, fs)
           else (true, Some (match fs with Some c => c ++ [argv] | None => [argv] end)%list)
       | None => (false, fs)
       end;
     fs_exists_throws := fun _ => false;
     fs_remove_all := fun _ _ => Removed |}.

(** The same world, with a destination that cannot be removed: the
    removal throws and leaves it as it was. *)
Definition stuck_world : World :=
  {| Content := list (list string);
     GDALOpenEx := fun file _ => open_file file;
     GDALVectorTranslateOptionsNew := fun _ => true;
     GDALVectorTranslate := GDALVectorTranslate world;
     fs_exists_throws := fun _ => false;
     fs_remove_all := fun _ c => RemovalThrows (Some c) |}.

Definition cell (dir name : string) : dir_entry :=
  {| path_string := dir ++ name; filename := name; extension := ".000" |}.

Definition depth_options : Depth.Options :=
  {| Depth.inputDir := "/in"; Depth.outputDir := "/out"; Depth.outputName := "depth" |}.

Definition nobjnm_options : Nobjnm.Options :=
  {| Nobjnm.inputDir := "/in"; Nobjnm.outputDir := "/out";
     Nobjnm.targetLayers := ["LNDARE"; "DEPARE"; "SEAARE"; "HRBFAC"; "BRIDGE"];
     Nobjnm.filterField := "NOBJNM"; Nobjnm.outputName := "nobjnm" |}.

Definition three_cells : Scan :=
  {| entries := [cell "/bad/" "XX.000"; cell "/in/" "US5XX01M.000";
                 {| path_string := "/in/README.txt"; filename := "README.txt";
                    extension := ".txt" |};
                 cell "/in/" "EMPTY.000"; cell "/in/" "C1513170.000"];
     throws := false |}.

(** The depth program on [three_cells], the destination existing. *)
Definition depth_run : Outcome world :=
  Program.execute world (Program.DepthCmd (Parsed false (Some depth_options)))
                  three_cells (Some []).

(** The option vector of its second export. *)
Definition second_argv : list string :=
  Depth.translate_argv false (Depth.depth_sql "DEPARE" "DRVAL1") "depth".

(** The name program on one cell of named objects. *)
Definition nobjnm_run : Outcome world :=
  Program.execute world (Program.NobjnmCmd (Parsed false (Some nobjnm_options)))
                  {| entries := [cell "/in/" "C1313100.000"]; throws := false |} None.

Definition nobjnm_argv : list string :=
  Nobjnm.translate_argv true (Nobjnm.filter_sql "3" "SEAARE" "NOBJNM") "nobjnm".

Definition no_cells : Scan := {| entries := []; throws := false |}.

End Sample.

(** ** More readings of a trace *)
Module Reading.

(** The files given to [GDALOpenEx], with the open options, in order. *)
Definition opens (tr : list event) : list (string * list string) :=
  flat_map (fun e => match e with
                     | OpenEx f oo _ => [(f, oo)]
                     | _ => []
                     end) tr.

(** The open options each program passes. *)
Definition open_options_of (inv : invocation) : list string :=
  match inv with
  | DepthCmd _ => Depth.papszOpenOptions
  | NobjnmCmd _ => []
  end.

(** The directories removed in a trace. *)
Definition removals (tr : list event) : list string :=
  flat_map (fun e => match e with
                     | RemoveAll dir => [dir]
                     | _ => []
                     end) tr.


(** The scan a run sees when only its cell files are kept. *)
Definition cells_only (scan : Scan) : Scan :=
  {| entries := filter is_cell_file (entries scan); throws := throws scan |}.

(** The closing line of an accepted run. *)
Definition closing (scan : Scan) : event :=
  if throws scan then Log Cerr ErrFilesystem else Log Cout MsgAllDone.

End Reading.
Import Reading.

(** ** Handles and their release

    The loop bodies once more, with the releases the C++ performs: the
    [unique_ptr] of the dataset runs [gdal_dataset_deleter] when the
    iteration ends (also through [continue]), a non-null destination
    handle is closed right after the export, and the options are freed
    after it.  A dataset is named by the file it was opened from, an
    options object by the vector it was made from.  [erase] forgets the
    releases; what is left is the trace of [Depth.process_entry] and
    [Nobjnm.process_entry] (lemmas [depth_erase] and [nobjnm_erase]). *)
Module Lifetime.

Inductive action :=
| Did (e : event)
| DatasetClosed (file : string)       (* GDALClose(ds) in gdal_dataset_deleter *)
| DestinationClosed (dest : string)   (* GDALClose(hDstDS) *)
| OptionsFreed (argv : list string).  (* GDALVectorTranslateOptionsFree(psOptions) *)

(** [void gdal_dataset_deleter(GDALDataset* ds) { if (ds) GDALClose(ds); }] *)
Definition gdal_dataset_deleter (ds : option string) : list action :=
  match ds with
  | Some file => [DatasetClosed file]
  | None => []
  end.

Definition erase (tr : list action) : list event :=
  flat_map (fun a => match a with
                     | Did e => [e]
                     | _ => []
                     end) tr.

(** The body of the loop of [depth.cpp]. *)
Definition depth_process_entry (W : World) (o : Depth.Options) (st : RunState W)
    (entry : dir_entry) : RunState W * list action :=
  if extension entry =? ".000" then
    let s57_file := path_string entry in
    match GDALOpenEx W s57_file Depth.papszOpenOptions with
    | None =>
        (st, ([Did (Log Cout (MsgProcessing s57_file));
               Did (OpenEx s57_file Depth.papszOpenOptions false);
               Did (Log Cerr (WarnCannotOpen s57_file))]
              ++ gdal_dataset_deleter None)%list)
    | Some poDS =>
        let found := Depth.build_sql_parts poDS in
        let before := ([Did (Log Cout (MsgProcessing s57_file));
                        Did (OpenEx s57_file Depth.papszOpenOptions true)]
                       ++ map Did (fst found))%list in
        match snd found with
        | [] =>
            (st, (before ++ [Did (Log Cout MsgNoTargetLayer)]
                  ++ gdal_dataset_deleter (Some s57_file))%list)
        | _ :: _ =>
            let sqlQuery := join (snd found) " UNION ALL " in
            let opts := Depth.translate_argv (isFirstWrite st) sqlQuery (Depth.outputName o) in
            if GDALVectorTranslateOptionsNew W opts then
              let (ok, fs') :=
                GDALVectorTranslate W (destination st) (Depth.outputDir o) poDS opts in
              if ok then
                ({| isFirstWrite := if isFirstWrite st then false else isFirstWrite st;
                    destination := fs' |},
                 (before ++ [Did (Log Cout MsgExporting); Did (OptionsNew opts true);
                             Did (Translate (Depth.outputDir o) opts true);
                             DestinationClosed (Depth.outputDir o);
                             OptionsFreed opts]
                  ++ gdal_dataset_deleter (Some s57_file))%list)
              else
                ({| isFirstWrite := isFirstWrite st; destination := fs' |},
                 (before ++ [Did (Log Cout MsgExporting); Did (OptionsNew opts true);
                             Did (Translate (Depth.outputDir o) opts false);
                             Did (Log Cerr (ErrProcessing s57_file));
                             OptionsFreed opts]
                  ++ gdal_dataset_deleter (Some s57_file))%list)
            else
              (st, (before ++ [Did (Log Cout MsgExporting); Did (OptionsNew opts false);
                               Did (Log Cerr ErrOptionsNew)]
                    ++ gdal_dataset_deleter (Some s57_file))%list)
        end
    end
  else (st, []).

(** The body of the loop of [nobjnm.cpp]: [psOptions] is assigned twice
    and freed once. *)
Definition nobjnm_process_entry (W : World) (o : Nobjnm.Options) (st : RunState W)
    (entry : dir_entry) : RunState W * list action :=
  if extension entry =? ".000" then
    let s57_file := path_string entry in
    let level := Nobjnm.level_of (filename entry) in
    match GDALOpenEx W s57_file [] with
    | None =>
        (st, ([Did (Log Cout (MsgProcessing s57_file));
               Did (OpenEx s57_file [] false);
               Did (Log Cerr (WarnCannotOpen s57_file))]
              ++ gdal_dataset_deleter None)%list)
    | Some poDS =>
        let found :=
          Nobjnm.build_sql_parts poDS level (Nobjnm.targetLayers o) (Nobjnm.filterField o) in
        let before := ([Did (Log Cout (MsgProcessing s57_file));
                        Did (OpenEx s57_file [] true)]
                       ++ map Did (fst found))%list in
        match snd found with
        | [] =>
            (st, (before ++ [Did (Log Cout (MsgNoLayerWithField (Nobjnm.filterField o)))]
                  ++ gdal_dataset_deleter (Some s57_file))%list)
        | _ :: _ =>
            let sqlQuery := join (snd found) " UNION ALL " in
            let opts :=
              Nobjnm.translate_argv (isFirstWrite st) sqlQuery (Nobjnm.outputName o) in
            let start := (before
                          ++ [Did (Log Cout MsgExporting);
                              Did (OptionsNew [] (GDALVectorTranslateOptionsNew W []))])%list in
            if GDALVectorTranslateOptionsNew W opts then
              let (ok, fs') :=
                GDALVectorTranslate W (destination st) (Nobjnm.outputDir o) poDS opts in
              if ok then
                ({| isFirstWrite := if isFirstWrite st then false else isFirstWrite st;
                    destination := fs' |},
                 (start ++ [Did (OptionsNew opts true);
                            Did (Translate (Nobjnm.outputDir o) opts true);
                            DestinationClosed (Nobjnm.outputDir o);
                            OptionsFreed opts]
                  ++ gdal_dataset_deleter (Some s57_file))%list)
              else
                ({| isFirstWrite := isFirstWrite st; destination := fs' |},
                 (start ++ [Did (OptionsNew opts true);
                            Did (Translate (Nobjnm.outputDir o) opts false);
                            Did (Log Cerr (ErrProcessing s57_file));
                            OptionsFreed opts]
                  ++ gdal_dataset_deleter (Some s57_file))%list)
            else
              (st, (start ++ [Did (OptionsNew opts false); Did (Log Cerr ErrOptionsNew)]
                    ++ gdal_dataset_deleter (Some s57_file))%list)
        end
    end
  else (st, []).

(** The range-for over the directory iterator, on actions. *)
Fixpoint for_each_entry {W : World}
    (body : RunState W -> dir_entry -> RunState W * list action)
    (l : list dir_entry) (st : RunState W) : RunState W * list action :=
  match l with
  | [] => (st, [])
  | entry :: rest =>
      let (st1, a1) := body st entry in
      let (st2, a2) := for_each_entry body rest st1 in
      (st2, (a1 ++ a2)%list)
  end.

(** *** What is held at a point of a trace *)

Record held := {
  dataset_open : option string;          (* the dataset opened and not closed *)
  options_live : list (list string);     (* the options made and not freed *)
  destination_open : option string       (* the destination handle not closed *)
}.

Definition nothing_held : held :=
  {| dataset_open := None; options_live := []; destination_open := None |}.

Fixpoint argv_eqb (a b : list string) : bool :=
  match a, b with
  | [], [] => true
  | x :: a', y :: b' => (x =? y) && argv_eqb a' b'
  | _, _ => false
  end.

(** Take one object made from [argv] out of the live ones. *)
Fixpoint free_one (argv : list string) (live : list (list string))
  : option (list (list string)) :=
  match live with
  | [] => None
  | x :: r =>
      if argv_eqb argv x then Some r
      else match free_one argv r with
           | Some r' => Some (x :: r')
           | None => None
           end
  end.

(** One action against what is held; [None] when the action misuses a
    handle: a second dataset opened while one is open, an export without
    an open dataset, without live options made from its vector or with a
    destination handle still open, a close or free of what is not held. *)
Definition use (h : held) (a : action) : option held :=
  match a with
  | Did (OpenEx f _ true) =>
      match dataset_open h with
      | None => Some {| dataset_open := Some f; options_live := options_live h;
                        destination_open := destination_open h |}
      | Some _ => None
      end
  | DatasetClosed f =>
      match dataset_open h with
      | Some f' =>
          if f =? f'
          then Some {| dataset_open := None; options_live := options_live h;
                       destination_open := destination_open h |}
          else None
      | None => None
      end
  | Did (OptionsNew argv true) =>
      Some {| dataset_open := dataset_open h; options_live := argv :: options_live h;
              destination_open := destination_open h |}
  | OptionsFreed argv =>
      match free_one argv (options_live h) with
      | Some live => Some {| dataset_open := dataset_open h; options_live := live;
                             destination_open := destination_open h |}
      | None => None
      end
  | Did (Translate d argv ok) =>
      match dataset_open h, destination_open h with
      | Some _, None =>
          if existsb (argv_eqb argv) (options_live h)
          then Some {| dataset_open := dataset_open h; options_live := options_live h;
                       destination_open := if ok then Some d else None |}
          else None
      | _, _ => None
      end
  | DestinationClosed d =>
      match destination_open h with
      | Some d' =>
          if d =? d'
          then Some {| dataset_open := dataset_open h; options_live := options_live h;
                       destination_open := None |}
          else None
      | None => None
      end
  | Did _ => Some h
  end.

Fixpoint use_all (h : held) (tr : list action) : option held :=
  match tr with
  | [] => Some h
  | a :: r =>
      match use h a with
      | Some h' => use_all h' r
      | None => None
      end
  end.

(** The export attempts of a trace: the lines that announce one. *)
Definition export_attempts (tr : list action) : nat :=
  List.length (filter (fun a => match a with
                                | Did (Log Cout MsgExporting) => true
                                | _ => false
                                end) tr).

(** The options made from the null vector (non-null ones). *)
Definition null_options_made (tr : list action) : nat :=
  List.length (filter (fun a => match a with
                                | Did (OptionsNew [] true) => true
                                | _ => false
                                end) tr).

(** [k] more objects made from the null vector are held. *)
Definition with_null_options (k : nat) (h : held) : held :=
  {| dataset_open := dataset_open h;
     options_live := (repeat [] k ++ options_live h)%list;
     destination_open := destination_open h |}.

(** The options freed in a trace, by the vector they were made from. *)
Definition freed (tr : list action) : list (list string) :=
  flat_map (fun a => match a with
                     | OptionsFreed argv => [argv]
                     | _ => []
                     end) tr.

End Lifetime.

(** ** [zip_single_file] of [nobjnm.cpp] *)
Module Zip.

(** The compression levels of miniz, by name. *)
Inductive compression := MZ_DEFAULT_COMPRESSION.

Inductive zip_message :=
| ErrOpenSource (source_filepath : string)
| ErrReadSource (source_filepath : string)
| ErrMiniz
| MsgCompressed (source_filepath zip_filepath : string).

Inductive zip_event :=
| Say (s : stream) (m : zip_message)
| AddMemToArchive (zip_filepath filename_in_zip buffer : string) (buffer_size : nat)
    (comment : string) (comment_size : nat) (level : compression) (status : bool).

(** What the function finds when it opens the source at its end and
    makes a buffer of the size [tellg] gives. *)
Inductive source_state :=
| NotOpen                        (* !file.is_open() *)
| NoBuffer                       (* std::vector<char> buffer(size) throws: tellg gave -1,
                                    or a size no buffer can have *)
| ReadFails                      (* !file.read(buffer.data(), size) *)
| Readable (buffer : string).    (* the whole file is in the buffer *)

(** The files and miniz. *)
Record Disk := {
  ifstream_open : string -> source_state;
  mz_zip_add_mem_to_archive_file_in_place :
    string -> string -> string -> nat -> string -> nat -> compression -> bool
}.

(** The value returned ([None] when the function does not return:
    nothing in it catches the exception of the buffer) and what it did. *)
Definition zip_single_file (D : Disk) (source_filepath zip_filepath filename_in_zip : string)
  : option bool * list zip_event :=
  match ifstream_open D source_filepath with
  | NotOpen => (Some false, [Say Cerr (ErrOpenSource source_filepath)])
  | NoBuffer => (None, [])
  | ReadFails => (Some false, [Say Cerr (ErrReadSource source_filepath)])
  | Readable buffer =>
      let status :=
        mz_zip_add_mem_to_archive_file_in_place D zip_filepath filename_in_zip
          buffer (String.length buffer) "File comment" 0 MZ_DEFAULT_COMPRESSION in
      if status then
        (Some true,
         [AddMemToArchive zip_filepath filename_in_zip buffer (String.length buffer)
            "File comment" 0 MZ_DEFAULT_COMPRESSION true;
          Say Cout (MsgCompressed source_filepath zip_filepath)])
      else
        (Some false,
         [AddMemToArchive zip_filepath filename_in_zip buffer (String.length buffer)
            "File comment" 0 MZ_DEFAULT_COMPRESSION false;
          Say Cerr ErrMiniz])
  end.

(** The calls to miniz of a trace: archive, entry name, data. *)
Definition archive_calls (tr : list zip_event) : list (string * string * string) :=
  flat_map (fun e => match e with
                     | AddMemToArchive z n b _ _ _ _ _ => [(z, n, b)]
                     | _ => []
                     end) tr.

(** A disk with one readable file and one directory, and a miniz that
    refuses archives under [/ro/]. *)
Definition sample_disk : Disk :=
  {| ifstream_open := fun f =>
       if f =? "/out/nobjnm.csv" then Readable "WKT,LEVEL,LAYERS,NOBJNM"
       else if f =? "/out" then NoBuffer
       else NotOpen;
     mz_zip_add_mem_to_archive_file_in_place := fun z _ _ _ _ _ _ =>
       negb (String.prefix "/ro/" z) |}.

(** The error lines of a trace. *)
Definition error_lines (tr : list zip_event) : list zip_message :=
  flat_map (fun e => match e with
                     | Say Cerr m => [m]
                     | _ => []
                     end) tr.

End Zip.

(** * Properties *)

(** ** Text *)

Lemma string_app_assoc (a b c : string) : (a ++ b) ++ c = a ++ b ++ c.
Proof.
  induction a as [|ch a IH]; simpl.
  - reflexivity.
  - now rewrite IH.
Qed.

Lemma string_app_nil_r (a : string) : a ++ "" = a.
Proof.
  induction a as [|ch a IH]; simpl; [reflexivity | now rewrite IH].
Qed.

Ltac string_normalize :=
  cbn [append dq ascii_of_nat ascii_of_pos];
  repeat rewrite string_app_assoc;
  cbn [append];
  repeat rewrite string_app_nil_r.

(** ** A loop of [push_back]s is a [flat_map] *)
Section PushBackLoop.
Context {A B C : Type}.
Variable step : list B * list C -> A -> list B * list C.
Variable notes : A -> list B.
Variable parts : A -> list C.
Hypothesis step_appends :
  forall acc x, step acc x = ((fst acc ++ notes x)%list, (snd acc ++ parts x)%list).

Lemma push_back_loop (l : list A) (acc : list B * list C) :
  fold_left step l acc
  = ((fst acc ++ flat_map notes l)%list, (snd acc ++ flat_map parts l)%list).
Proof.
  revert acc; induction l as [|x l IH]; intros acc; simpl.
  - rewrite !app_nil_r. now destruct acc.
  - rewrite IH, step_appends; simpl. now rewrite !app_assoc.
Qed.
End PushBackLoop.

Lemma flat_map_map {A B C : Type} (f : B -> C) (g : A -> list B) (l : list A) :
  flat_map (fun x => map f (g x)) l = map f (flat_map g l).
Proof.
  induction l as [|x l IH]; simpl; [reflexivity|].
  now rewrite map_app, IH.
Qed.

(** ** The plans of [depth.cpp] *)

Lemma depth_render_land (layerName : string) :
  render (DepthPlan.land_stmt layerName) = Depth.land_sql layerName.
Proof.
  unfold render, Depth.land_sql, DepthPlan.land_stmt, select_head, render_attr; simpl.
  string_normalize. reflexivity.
Qed.

Lemma depth_render_depth (layerName depthField : string) :
  render (DepthPlan.depth_stmt layerName depthField) = Depth.depth_sql layerName depthField.
Proof.
  unfold render, Depth.depth_sql, DepthPlan.depth_stmt, select_head, render_attr, where_text;
    simpl.
  string_normalize. reflexivity.
Qed.

Lemma depth_layer_step (poDS : GDALDataset) acc layerName :
  Depth.layer_step poDS acc layerName
  = ((fst acc ++ DepthPlan.notes poDS layerName)%list,
     (snd acc ++ map render (DepthPlan.stmts_of poDS layerName))%list).
Proof.
  unfold Depth.layer_step, DepthPlan.notes, DepthPlan.stmts_of.
  destruct (GetLayerByName poDS layerName).
  - destruct (layerName =? "LNDARE").
    + simpl. now rewrite depth_render_land.
    + destruct (StdMap.find layerName Depth.depth_map); simpl.
      * now rewrite depth_render_depth.
      * rewrite !app_nil_r. now destruct acc.
  - simpl. rewrite !app_nil_r. now destruct acc.
Qed.

Lemma depth_build_sql_parts (poDS : GDALDataset) :
  Depth.build_sql_parts poDS
  = (flat_map (DepthPlan.notes poDS) Depth.all_target_layers,
     map render (DepthPlan.plan poDS)).
Proof.
  unfold Depth.build_sql_parts, DepthPlan.plan.
  rewrite (push_back_loop _ (DepthPlan.notes poDS)
             (fun L => map render (DepthPlan.stmts_of poDS L)) (depth_layer_step poDS)).
  cbn [fst snd app]. now rewrite flat_map_map.
Qed.

(** The texts pushed by the layer loop are the texts of the plan. *)
Lemma depth_render_plan (poDS : GDALDataset) :
  Depth.sql_parts poDS = map render (DepthPlan.plan poDS).
Proof.
  unfold Depth.sql_parts. now rewrite depth_build_sql_parts.
Qed.

Lemma depth_all_target_layers :
  Depth.all_target_layers
  = ["LNDARE"; "DEPARE"; "DEPCNT"; "DRGARE"; "OBSTRN"; "SOUNDG"; "UWTROC"; "WRECKS"].
Proof. reflexivity. Qed.

(** Every target layer is the land layer or a key of [depth_map]. *)
Lemma depth_targets_known :
  Forall (fun L => (L =? "LNDARE") = true \/ StdMap.find L Depth.depth_map <> None)
         Depth.all_target_layers.
Proof.
  rewrite depth_all_target_layers.
  repeat (apply Forall_cons; [first [left; reflexivity | right; discriminate]|]).
  apply Forall_nil.
Qed.

Lemma depth_plan_layers_gen (poDS : GDALDataset) (l : list string) :
  Forall (fun L => (L =? "LNDARE") = true \/ StdMap.find L Depth.depth_map <> None) l ->
  map sel_from (flat_map (DepthPlan.stmts_of poDS) l) = filter (DepthPlan.present poDS) l.
Proof.
  induction 1 as [|L l HL _ IH]; simpl; [reflexivity|].
  rewrite map_app, IH. unfold DepthPlan.stmts_of, DepthPlan.present.
  destruct (GetLayerByName poDS L); [|reflexivity].
  destruct (L =? "LNDARE"); [reflexivity|].
  destruct HL as [HL|HL]; [discriminate|].
  destruct (StdMap.find L Depth.depth_map); [reflexivity | contradiction].
Qed.

Lemma depth_plan_layers (poDS : GDALDataset) :
  map sel_from (DepthPlan.plan poDS) = filter (DepthPlan.present poDS) Depth.all_target_layers.
Proof. apply depth_plan_layers_gen, depth_targets_known. Qed.

(** ** The plans of [nobjnm.cpp] *)

Lemma nobjnm_render_filter (level : ascii) (layerName filterField : string) :
  render (NobjnmPlan.filter_stmt level layerName filterField)
  = Nobjnm.filter_sql level layerName filterField.
Proof.
  unfold render, Nobjnm.filter_sql, NobjnmPlan.filter_stmt, select_head, render_attr,
    where_text; simpl.
  string_normalize. reflexivity.
Qed.

Lemma nobjnm_layer_step (poDS : GDALDataset) level filterField acc layerName :
  Nobjnm.layer_step poDS level filterField acc layerName
  = ((fst acc ++ NobjnmPlan.notes poDS filterField layerName)%list,
     (snd acc ++ map render (NobjnmPlan.stmts_of poDS level filterField layerName))%list).
Proof.
  unfold Nobjnm.layer_step, NobjnmPlan.notes, NobjnmPlan.stmts_of.
  destruct (GetLayerByName poDS layerName) as [poLayer|].
  - destruct (negb (GetFieldIndex poLayer filterField =? -1)%Z); simpl.
    + now rewrite nobjnm_render_filter.
    + now rewrite app_nil_r.
  - simpl. rewrite !app_nil_r. now destruct acc.
Qed.

Lemma nobjnm_build_sql_parts (poDS : GDALDataset) level targetLayers filterField :
  Nobjnm.build_sql_parts poDS level targetLayers filterField
  = (flat_map (NobjnmPlan.notes poDS filterField) targetLayers,
     map render (NobjnmPlan.plan poDS level targetLayers filterField)).
Proof.
  unfold Nobjnm.build_sql_parts, NobjnmPlan.plan.
  rewrite (push_back_loop _ (NobjnmPlan.notes poDS filterField)
             (fun L => map render (NobjnmPlan.stmts_of poDS level filterField L))
             (nobjnm_layer_step poDS level filterField)).
  cbn [fst snd app]. now rewrite flat_map_map.
Qed.

Lemma nobjnm_render_plan (poDS : GDALDataset) level targetLayers filterField :
  Nobjnm.sql_parts poDS level targetLayers filterField
  = map render (NobjnmPlan.plan poDS level targetLayers filterField).
Proof.
  unfold Nobjnm.sql_parts. now rewrite nobjnm_build_sql_parts.
Qed.

Lemma nobjnm_plan_layers (poDS : GDALDataset) level targetLayers filterField :
  map sel_from (NobjnmPlan.plan poDS level targetLayers filterField)
  = filter (NobjnmPlan.has_field poDS filterField) targetLayers.
Proof.
  unfold NobjnmPlan.plan.
  induction targetLayers as [|L l IH]; simpl; [reflexivity|].
  rewrite map_app, IH. unfold NobjnmPlan.stmts_of, NobjnmPlan.has_field.
  destruct (GetLayerByName poDS L) as [poLayer|]; [|reflexivity].
  destruct (negb (GetFieldIndex poLayer filterField =? -1)%Z); reflexivity.
Qed.

(** ** Traces *)

Lemma translate_calls_app (a b : list event) :
  translate_calls (a ++ b) = (translate_calls a ++ translate_calls b)%list.
Proof. apply flat_map_app. Qed.

Lemma processing_lines_app (a b : list event) :
  processing_lines (a ++ b) = (processing_lines a ++ processing_lines b)%list.
Proof. apply flat_map_app. Qed.

Lemma terminals_app (a b : list event) :
  terminals (a ++ b) = (terminals a ++ terminals b)%list.
Proof. apply flat_map_app. Qed.

(** The messages of the layer loops are no export calls, no
    announcements and no terminal marks. *)
Lemma layer_notes_silent (tr : list event) :
  forallb is_layer_note tr = true ->
  translate_calls tr = [] /\ processing_lines tr = [] /\ terminals tr = []
  /\ filter touches_files tr = [].
Proof.
  induction tr as [|e tr IH]; simpl; [auto|].
  intros H; apply andb_prop in H as [He Htr].
  destruct (IH Htr) as (H1 & H2 & H3 & H4).
  unfold translate_calls, processing_lines, terminals in *; simpl.
  rewrite H1, H2, H3, H4.
  destruct e as [s m| | | | | |]; try discriminate.
  destruct s; try discriminate; destruct m; try discriminate; auto.
Qed.

Lemma depth_notes_are_notes (poDS : GDALDataset) (l : list string) :
  forallb is_layer_note (flat_map (DepthPlan.notes poDS) l) = true.
Proof.
  induction l as [|L l IH]; simpl; [reflexivity|].
  rewrite forallb_app, IH, andb_true_r. unfold DepthPlan.notes.
  destruct (GetLayerByName poDS L); [|reflexivity].
  destruct (L =? "LNDARE"); [reflexivity|].
  destruct (StdMap.find L Depth.depth_map); reflexivity.
Qed.

Lemma nobjnm_notes_are_notes (poDS : GDALDataset) (f : string) (l : list string) :
  forallb is_layer_note (flat_map (NobjnmPlan.notes poDS f) l) = true.
Proof.
  induction l as [|L l IH]; simpl; [reflexivity|].
  rewrite forallb_app, IH, andb_true_r. unfold NobjnmPlan.notes.
  destruct (GetLayerByName poDS L) as [poLayer|]; [|reflexivity].
  destruct (negb (GetFieldIndex poLayer f =? -1)%Z); reflexivity.
Qed.

(** ** One turn of the directory loop *)

Ltac silence H :=
  destruct (layer_notes_silent _ H) as (?Hc & ?Hp & ?Ht & ?Hf).

Lemma depth_process_entry_spec (W : World) (o : Depth.Options) (st : RunState W)
    (entry : dir_entry) :
  step_spec (Depth.process_entry W o) (Depth.outputDir o) (Depth.outputName o)
            Depth.translate_argv (depth_query W) st entry.
Proof.
  unfold step_spec, Depth.process_entry, is_cell_file, depth_query.
  destruct (extension entry =? ".000"); [|simpl; auto].
  destruct (GDALOpenEx W (path_string entry) Depth.papszOpenOptions) as [poDS|] eqn:Hopen;
    [|simpl; auto].
  pose proof (depth_notes_are_notes poDS Depth.all_target_layers) as Hnotes.
  silence Hnotes.
  assert (Hparts : snd (Depth.build_sql_parts poDS) = Depth.sql_parts poDS) by reflexivity.
  rewrite Hparts. rewrite depth_build_sql_parts in *. cbn [fst snd] in *.
  destruct (Depth.sql_parts poDS) as [|p ps] eqn:Hsql.
  - cbn [fst snd]. rewrite !processing_lines_app, !terminals_app, !translate_calls_app.
    rewrite Hc, Hp, Ht. simpl. auto.
  - set (q := join (p :: ps) " UNION ALL ").
    set (opts := Depth.translate_argv (isFirstWrite st) q (Depth.outputName o)).
    destruct (GDALVectorTranslateOptionsNew W opts).
    + destruct (GDALVectorTranslate W (destination st) (Depth.outputDir o) poDS opts)
        as [ok fs'].
      destruct ok; cbn [fst snd];
        rewrite !processing_lines_app, !terminals_app, !translate_calls_app;
        rewrite Hc, Hp, Ht; simpl; (split; [reflexivity|]); (split; [reflexivity|]);
        right.
      * exists q, true. split; [exists poDS; rewrite Hsql; split; [reflexivity|split; [discriminate|reflexivity]]|].
        split; [reflexivity|]. now destruct (isFirstWrite st).
      * exists q, false. split; [exists poDS; rewrite Hsql; split; [reflexivity|split; [discriminate|reflexivity]]|].
        split; reflexivity.
    + cbn [fst snd]. rewrite !processing_lines_app, !terminals_app, !translate_calls_app.
      rewrite Hc, Hp, Ht. simpl. auto.
Qed.

Lemma nobjnm_process_entry_spec (W : World) (o : Nobjnm.Options) (st : RunState W)
    (entry : dir_entry) :
  step_spec (Nobjnm.process_entry W o) (Nobjnm.outputDir o) (Nobjnm.outputName o)
            Nobjnm.translate_argv (nobjnm_query W o) st entry.
Proof.
  unfold step_spec, Nobjnm.process_entry, is_cell_file, nobjnm_query.
  destruct (extension entry =? ".000"); [|simpl; auto].
  destruct (GDALOpenEx W (path_string entry) []) as [poDS|] eqn:Hopen; [|simpl; auto].
  set (level := Nobjnm.level_of (filename entry)).
  pose proof (nobjnm_notes_are_notes poDS (Nobjnm.filterField o) (Nobjnm.targetLayers o))
    as Hnotes.
  silence Hnotes.
  assert (Hparts : snd (Nobjnm.build_sql_parts poDS level (Nobjnm.targetLayers o)
                          (Nobjnm.filterField o))
                   = Nobjnm.sql_parts poDS level (Nobjnm.targetLayers o)
                       (Nobjnm.filterField o)) by reflexivity.
  rewrite Hparts. rewrite nobjnm_build_sql_parts in *. cbn [fst snd] in *.
  destruct (Nobjnm.sql_parts poDS level (Nobjnm.targetLayers o) (Nobjnm.filterField o))
    as [|p ps] eqn:Hsql.
  - cbn [fst snd]. rewrite !processing_lines_app, !terminals_app, !translate_calls_app.
    rewrite Hc, Hp, Ht. simpl. auto.
  - set (q := join (p :: ps) " UNION ALL ").
    set (opts := Nobjnm.translate_argv (isFirstWrite st) q (Nobjnm.outputName o)).
    destruct (GDALVectorTranslateOptionsNew W opts).
    + destruct (GDALVectorTranslate W (destination st) (Nobjnm.outputDir o) poDS opts)
        as [ok fs'].
      destruct ok; cbn [fst snd];
        rewrite !processing_lines_app, !terminals_app, !translate_calls_app;
        rewrite Hc, Hp, Ht; simpl; (split; [reflexivity|]); (split; [reflexivity|]);
        right.
      * exists q, true. split; [exists poDS; rewrite Hsql; split; [reflexivity|split; [discriminate|reflexivity]]|].
        split; [reflexivity|]. now destruct (isFirstWrite st).
      * exists q, false. split; [exists poDS; rewrite Hsql; split; [reflexivity|split; [discriminate|reflexivity]]|].
        split; reflexivity.
    + cbn [fst snd]. rewrite !processing_lines_app, !terminals_app, !translate_calls_app.
      rewrite Hc, Hp, Ht. simpl. auto.
Qed.

(** ** The directory loop *)
Section DirectoryLoop.
Context {W : World}.
Variable body : RunState W -> dir_entry -> RunState W * list event.
Variables outDir outName : string.
Variable argv_of : bool -> string -> string -> list string.
Variable query_of : dir_entry -> string -> Prop.
Hypothesis body_spec :
  forall st entry, step_spec body outDir outName argv_of query_of st entry.

Lemma for_each_cons (entry : dir_entry) (l : list dir_entry) (st : RunState W) :
  for_each body (entry :: l) st
  = (fst (for_each body l (fst (body st entry))),
     (snd (body st entry) ++ snd (for_each body l (fst (body st entry))))%list).
Proof.
  simpl. destruct (body st entry) as [st1 ev1]. simpl.
  now destruct (for_each body l st1).
Qed.

(** Every cell file of the scan is announced, in scan order, whatever
    happened to the files before it. *)
Lemma for_each_processing (l : list dir_entry) (st : RunState W) :
  processing_lines (snd (for_each body l st)) = map path_string (filter is_cell_file l).
Proof.
  revert st; induction l as [|entry l IH]; intros st; [reflexivity|].
  rewrite for_each_cons. cbn [snd filter].
  rewrite processing_lines_app, IH.
  destruct (body_spec st entry) as (Hp & _). rewrite Hp.
  now destruct (is_cell_file entry).
Qed.

(** Every cell file of the scan leaves in exactly one terminal state. *)
Lemma for_each_terminals (l : list dir_entry) (st : RunState W) :
  List.length (terminals (snd (for_each body l st)))
  = List.length (filter is_cell_file l).
Proof.
  revert st; induction l as [|entry l IH]; intros st; [reflexivity|].
  rewrite for_each_cons. cbn [snd filter].
  rewrite terminals_app, length_app, IH.
  destruct (body_spec st entry) as (_ & Ht & _). rewrite Ht.
  now destruct (is_cell_file entry).
Qed.

(** The flag is true exactly as long as no export has succeeded. *)
Lemma for_each_flag (l : list dir_entry) (st : RunState W) :
  isFirstWrite (fst (for_each body l st))
  = isFirstWrite st
    && negb (existsb succeeded (translate_calls (snd (for_each body l st)))).
Proof.
  revert st; induction l as [|entry l IH]; intros st.
  - simpl. now rewrite andb_true_r.
  - rewrite for_each_cons. cbn [fst snd].
    rewrite translate_calls_app, existsb_app, IH.
    destruct (body_spec st entry) as (_ & _ & [[Hc Hst] | (q & ok & _ & Hc & Hf)]).
    + now rewrite Hc, Hst.
    + rewrite Hc, Hf. simpl. unfold succeeded at 2. simpl.
      destruct ok; simpl; [now rewrite andb_false_r | reflexivity].
Qed.

(** Without an export call the state is the one the loop started in. *)
Lemma for_each_untouched (l : list dir_entry) (st : RunState W) :
  translate_calls (snd (for_each body l st)) = [] -> fst (for_each body l st) = st.
Proof.
  revert st; induction l as [|entry l IH]; intros st; [reflexivity|].
  rewrite for_each_cons. cbn [fst snd]. rewrite translate_calls_app.
  intros H; apply app_eq_nil in H as [H1 H2].
  destruct (body_spec st entry) as (_ & _ & [[Hc Hst] | (q & ok & _ & Hc & _)]).
  + rewrite (IH _ H2). exact Hst.
  + rewrite Hc in H1. discriminate.
Qed.

(** Each export call goes to the configured destination, with the
    option vector of the flag as the earlier calls left it. *)
Lemma for_each_calls (l : list dir_entry) (st : RunState W) pre d argv ok post :
  translate_calls (snd (for_each body l st)) = (pre ++ (d, argv, ok) :: post)%list ->
  d = outDir
  /\ exists entry q,
       In entry l /\ query_of entry q
       /\ argv = argv_of (isFirstWrite st && negb (existsb succeeded pre)) q outName.
Proof.
  revert st pre; induction l as [|entry l IH]; intros st pre.
  - simpl. intros H. now destruct pre.
  - rewrite for_each_cons. cbn [snd]. rewrite translate_calls_app.
    destruct (body_spec st entry) as (_ & _ & [[Hc Hst] | (q & ok1 & Hq & Hc & Hf)]).
    + rewrite Hc, Hst. simpl. intros H.
      destruct (IH _ _ H) as (Hd & e & q & Hin & Hq & Ha).
      split; [exact Hd|]. exists e, q. auto.
    + rewrite Hc. simpl. intros H.
      destruct pre as [|c pre].
      * simpl in H. inversion H; subst.
        split; [reflexivity|]. exists entry, q.
        rewrite andb_true_r. auto.
      * simpl in H. inversion H as [[Hc1 Hrest]]. subst c.
        destruct (IH _ _ Hrest) as (Hd & e & q' & Hin & Hq' & Ha).
        split; [exact Hd|]. exists e, q'.
        split; [now right|]. split; [exact Hq'|].
        rewrite Ha, Hf. simpl. unfold succeeded at 2. simpl.
        destruct ok1; simpl; [now rewrite andb_false_r | reflexivity].
Qed.

End DirectoryLoop.

(** ** Whole runs *)

Lemma prepare_output_uncaught (W : World) (dir : string) (fs0 : option (Content W)) :
  uncaught (prepare_output dir fs0) = negb (clears W dir fs0).
Proof.
  unfold prepare_output, clears.
  destruct (fs_exists_throws W dir); [reflexivity|].
  destruct fs0 as [c|]; [|reflexivity].
  destruct (fs_remove_all W dir c); reflexivity.
Qed.

Lemma prepare_output_clears (W : World) (dir : string) (fs0 : option (Content W)) :
  clears W dir fs0 = true ->
  remaining (prepare_output dir fs0) = None
  /\ said (prepare_output dir fs0)
     = match fs0 with
       | Some _ => [Log Cout (MsgRemovedOld dir); RemoveAll dir]
       | None => []
       end.
Proof.
  unfold prepare_output, clears.
  destruct (fs_exists_throws W dir); [discriminate|].
  destruct fs0 as [c|]; [|split; reflexivity].
  destruct (fs_remove_all W dir c); [split; reflexivity | discriminate].
Qed.

Lemma depth_main_run (W : World) (o : Depth.Options) (scan : Scan)
    (fs0 : option (Content W)) :
  Depth.main W (Parsed false (Some o)) scan fs0
  = let r := for_each (Depth.process_entry W o) (entries scan)
               {| isFirstWrite := true; destination := None |} in
    if clears W (Depth.outputDir o) fs0 then
      {| exit_code := Some (if throws scan then 1%Z else 0%Z);
         events := ([AllRegister; SetConfigOption "OGR_WKT_PRECISION" "8"]
                    ++ said (prepare_output (W := W) (Depth.outputDir o) fs0)
                    ++ snd r
                    ++ [if throws scan then Log Cerr ErrFilesystem
                        else Log Cout MsgAllDone])%list;
         destination_after := destination (fst r);
         flag_at_exit := Some (isFirstWrite (fst r)) |}
    else
      {| exit_code := None;
         events := ([AllRegister; SetConfigOption "OGR_WKT_PRECISION" "8"]
                    ++ said (prepare_output (W := W) (Depth.outputDir o) fs0))%list;
         destination_after := remaining (prepare_output (W := W) (Depth.outputDir o) fs0);
         flag_at_exit := None |}.
Proof.
  unfold Depth.main. cbv zeta. rewrite prepare_output_uncaught.
  destruct (clears W (Depth.outputDir o) fs0) eqn:Hc; [|reflexivity].
  cbn [negb]. destruct (prepare_output_clears W _ _ Hc) as [-> _].
  destruct (for_each (Depth.process_entry W o) (entries scan) _).
  destruct (throws scan); reflexivity.
Qed.

Lemma nobjnm_main_run (W : World) (o : Nobjnm.Options) (scan : Scan)
    (fs0 : option (Content W)) :
  Nobjnm.main W (Parsed false (Some o)) scan fs0
  = let r := for_each (Nobjnm.process_entry W o) (entries scan)
               {| isFirstWrite := true; destination := None |} in
    if clears W (Nobjnm.outputDir o) fs0 then
      {| exit_code := Some (if throws scan then 1%Z else 0%Z);
         events := ([AllRegister; SetConfigOption "OGR_WKT_PRECISION" "8"]
                    ++ said (prepare_output (W := W) (Nobjnm.outputDir o) fs0)
                    ++ snd r
                    ++ [if throws scan then Log Cerr ErrFilesystem
                        else Log Cout MsgAllDone])%list;
         destination_after := destination (fst r);
         flag_at_exit := Some (isFirstWrite (fst r)) |}
    else
      {| exit_code := None;
         events := ([AllRegister; SetConfigOption "OGR_WKT_PRECISION" "8"]
                    ++ said (prepare_output (W := W) (Nobjnm.outputDir o) fs0))%list;
         destination_after := remaining (prepare_output (W := W) (Nobjnm.outputDir o) fs0);
         flag_at_exit := None |}.
Proof.
  unfold Nobjnm.main. cbv zeta. rewrite prepare_output_uncaught.
  destruct (clears W (Nobjnm.outputDir o) fs0) eqn:Hc; [|reflexivity].
  cbn [negb]. destruct (prepare_output_clears W _ _ Hc) as [-> _].
  destruct (for_each (Nobjnm.process_entry W o) (entries scan) _).
  destruct (throws scan); reflexivity.
Qed.

(** The shape of every accepted run that clears its destination:
    registration, removal of an existing destination, the loop, the
    closing line. *)
Lemma execute_accepted (W : World) (inv : invocation) (scan : Scan)
    (fs0 : option (Content W)) (dir name : string) :
  output_of inv = Some (dir, name) ->
  clears W dir fs0 = true ->
  execute W inv scan fs0
  = {| exit_code := Some (if throws scan then 1%Z else 0%Z);
       events := ([AllRegister; SetConfigOption "OGR_WKT_PRECISION" "8"]
                  ++ said (prepare_output (W := W) dir fs0)
                  ++ snd (loop_of W inv scan)
                  ++ [if throws scan then Log Cerr ErrFilesystem else Log Cout MsgAllDone])%list;
       destination_after := destination (fst (loop_of W inv scan));
       flag_at_exit := Some (isFirstWrite (fst (loop_of W inv scan))) |}.
Proof.
  destruct inv as [[|[|] [o|]]|[|[|] [o|]]]; try discriminate;
    intros H Hc; inversion H; subst; cbn [execute loop_of].
  - rewrite depth_main_run. cbv zeta. now rewrite Hc.
  - rewrite nobjnm_main_run. cbv zeta. now rewrite Hc.
Qed.

(** The shape of an accepted run whose check for the destination or
    removal throws: it ends there. *)
Lemma execute_uncaught (W : World) (inv : invocation) (scan : Scan)
    (fs0 : option (Content W)) (dir name : string) :
  output_of inv = Some (dir, name) ->
  clears W dir fs0 = false ->
  execute W inv scan fs0
  = {| exit_code := None;
       events := ([AllRegister; SetConfigOption "OGR_WKT_PRECISION" "8"]
                  ++ said (prepare_output (W := W) dir fs0))%list;
       destination_after := remaining (prepare_output (W := W) dir fs0);
       flag_at_exit := None |}.
Proof.
  destruct inv as [[|[|] [o|]]|[|[|] [o|]]]; try discriminate;
    intros H Hc; inversion H; subst; cbn [execute].
  - rewrite depth_main_run. cbv zeta. now rewrite Hc.
  - rewrite nobjnm_main_run. cbv zeta. now rewrite Hc.
Qed.

Lemma output_of_accepted (inv : invocation) :
  reception_of inv = Accepted <-> exists dir name, output_of inv = Some (dir, name).
Proof.
  destruct inv as [[|[|] [o|]]|[|[|] [o|]]]; simpl; split;
    try discriminate; try (intros (? & ? & ?); discriminate); eauto.
Qed.

Lemma reaches_loop_accepted (W : World) (inv : invocation) (fs0 : option (Content W)) :
  reaches_loop W inv fs0 = true ->
  exists dir name, output_of inv = Some (dir, name) /\ clears W dir fs0 = true.
Proof.
  unfold reaches_loop. destruct (output_of inv) as [[dir name]|]; [|discriminate].
  intros Hc. now exists dir, name.
Qed.

Lemma execute_not_accepted (W : World) (inv : invocation) (scan : Scan)
    (fs0 : option (Content W)) :
  reception_of inv <> Accepted ->
  exit_code (execute W inv scan fs0)
  = Some (match reception_of inv with Rejected => 1%Z | _ => 0%Z end)
  /\ filter touches_files (events (execute W inv scan fs0)) = []
  /\ translate_calls (events (execute W inv scan fs0)) = []
  /\ destination_after (execute W inv scan fs0) = fs0
  /\ flag_at_exit (execute W inv scan fs0) = None.
Proof.
  destruct inv as [[|[|] [o|]]|[|[|] [o|]]]; simpl; intros H;
    try (now exfalso; apply H); repeat split; reflexivity.
Qed.

(** A run that does not get to the loop calls no export, opens no file
    and declares no flag. *)
Lemma execute_short (W : World) (inv : invocation) (scan : Scan)
    (fs0 : option (Content W)) :
  reaches_loop W inv fs0 = false ->
  translate_calls (events (execute W inv scan fs0)) = []
  /\ processing_lines (events (execute W inv scan fs0)) = []
  /\ terminals (events (execute W inv scan fs0)) = []
  /\ flag_at_exit (execute W inv scan fs0) = None.
Proof.
  unfold reaches_loop. intros Hr.
  destruct (output_of inv) as [[dir name]|] eqn:Ho.
  - rewrite (execute_uncaught W inv scan fs0 dir name Ho Hr). cbn [events flag_at_exit].
    unfold prepare_output.
    destruct (fs_exists_throws W dir); [repeat split; reflexivity|].
    destruct fs0 as [c|]; [|repeat split; reflexivity].
    destruct (fs_remove_all W dir c); repeat split; reflexivity.
  - destruct inv as [[|[|] [o|]]|[|[|] [o|]]]; try discriminate; repeat split; reflexivity.
Qed.

Lemma loop_of_spec (W : World) (inv : invocation) (dir name : string) :
  output_of inv = Some (dir, name) ->
  exists body argv_of,
    (forall scan, loop_of W inv scan
                  = for_each body (entries scan) {| isFirstWrite := true; destination := None |})
    /\ (forall st entry, step_spec body dir name argv_of (query_of W inv) st entry)
    /\ (forall b q n,
          decode (argv_of b q n)
          = Some {| vt_format := Some "CSV"; vt_dialect := Some "SQLite";
                    vt_append := negb b; vt_sql := Some q; vt_nln := Some n;
                    vt_lco := ["GEOMETRY=AS_WKT"]; vt_dim := dim_of inv |}).
Proof.
  destruct inv as [[|[|] [o|]]|[|[|] [o|]]]; try discriminate; intros H; inversion H; subst.
  - exists (Depth.process_entry W o), Depth.translate_argv.
    split; [reflexivity|]. split; [apply depth_process_entry_spec|].
    intros [|] q n; reflexivity.
  - exists (Nobjnm.process_entry W o), Nobjnm.translate_argv.
    split; [reflexivity|]. split; [apply nobjnm_process_entry_spec|].
    intros [|] q n; reflexivity.
Qed.

Lemma translate_calls_events (W : World) (inv : invocation) (scan : Scan)
    (fs0 : option (Content W)) :
  translate_calls (events (execute W inv scan fs0))
  = if reaches_loop W inv fs0 then translate_calls (snd (loop_of W inv scan)) else [].
Proof.
  destruct (reaches_loop W inv fs0) eqn:Hr.
  - destruct (reaches_loop_accepted W inv fs0 Hr) as (dir & name & Ho & Hc).
    rewrite (execute_accepted W inv scan fs0 dir name Ho Hc). cbn [events].
    rewrite !translate_calls_app.
    destruct (prepare_output_clears W dir fs0 Hc) as [_ ->].
    destruct fs0; destruct (throws scan); simpl; now rewrite app_nil_r.
  - apply (execute_short W inv scan fs0 Hr).
Qed.

Lemma translate_calls_split (pre post : list event) d argv ok :
  translate_calls (pre ++ Translate d argv ok :: post)
  = (translate_calls pre ++ (d, argv, ok) :: translate_calls post)%list.
Proof. now rewrite translate_calls_app. Qed.

(** An export call of a run: where it goes and what its option vector
    says.  All the claims about export calls rest on this lemma. *)
Lemma export_call (W : World) (inv : invocation) (scan : Scan) (fs0 : option (Content W))
    pre d argv ok post :
  events (execute W inv scan fs0) = (pre ++ Translate d argv ok :: post)%list ->
  exists dir name entry q,
    output_of inv = Some (dir, name)
    /\ d = dir
    /\ In entry (entries scan)
    /\ query_of W inv entry q
    /\ decode argv
       = Some {| vt_format := Some "CSV"; vt_dialect := Some "SQLite";
                 vt_append := some_export_succeeded pre; vt_sql := Some q;
                 vt_nln := Some name; vt_lco := ["GEOMETRY=AS_WKT"];
                 vt_dim := dim_of inv |}.
Proof.
  intros Hev.
  pose proof (translate_calls_events W inv scan fs0) as Hc.
  rewrite Hev, translate_calls_split in Hc. symmetry in Hc.
  destruct (reaches_loop W inv fs0) eqn:Hr.
  - destruct (reaches_loop_accepted W inv fs0 Hr) as (dir & name & Ho & _).
    destruct (loop_of_spec W inv dir name Ho) as (body & argv_of & Hloop & Hstep & Hdec).
    rewrite Hloop in Hc.
    destruct (for_each_calls body dir name argv_of (query_of W inv) Hstep _ _ _ _ _ _ _ Hc)
      as (Hd & entry & q & Hin & Hq & Ha).
    exists dir, name, entry, q. repeat split; auto.
    rewrite Ha, Hdec. cbn [isFirstWrite andb]. now rewrite negb_involutive.
  - exfalso. now destruct (translate_calls pre).
Qed.

(** ** Worked runs *)

Example level_of_examples :
  Nobjnm.level_of "C1313100.000" = "3"%char
  /\ Nobjnm.level_of "abc" = "c"%char
  /\ Nobjnm.level_of "ab" = "0"%char
  /\ Nobjnm.level_of "" = "0"%char.
Proof. repeat split; reflexivity. Qed.

Example filter_sql_example :
  Nobjnm.filter_sql "3" "SEAARE" "NOBJNM"
  = "SELECT ST_MakeValid(ST_SimplifyPreserveTopology(geometry, 0.00025)) AS WKT, '3' AS LEVEL, 'SEAARE' AS LAYERS, "
    ++ dq ++ "NOBJNM" ++ dq ++ " FROM " ++ dq ++ "SEAARE" ++ dq ++ " WHERE " ++ dq
    ++ "NOBJNM" ++ dq ++ " IS NOT NULL AND " ++ dq ++ "NOBJNM" ++ dq ++ " != ''".
Proof. reflexivity. Qed.

(** Soundings and wrecks come out in the order of the map, not in the
    order the dataset lists them. *)
Example soundg_before_wrecks :
  Depth.sql_parts Sample.soundg_wrecks
  = [Depth.depth_sql "SOUNDG" "DEPTH"; Depth.depth_sql "WRECKS" "VALSOU"]
  /\ join (Depth.sql_parts Sample.soundg_wrecks) " UNION ALL "
     = Depth.depth_sql "SOUNDG" "DEPTH" ++ " UNION ALL " ++ Depth.depth_sql "WRECKS" "VALSOU".
Proof. split; reflexivity. Qed.

(** Three depth areas, one without DRVAL1: two rows. *)
Example depare_three_rows :
  option_map (@List.length row)
    (exec_union_all Sample.depare_three (DepthPlan.plan Sample.depare_three))
  = Some 2%nat.
Proof. reflexivity. Qed.

(** Of the three named sea areas one has an empty name and one none. *)
Example named_rows :
  option_map (map attr_value)
    (exec_union_all Sample.named
       (NobjnmPlan.plan Sample.named "3" (Nobjnm.targetLayers Sample.nobjnm_options) "NOBJNM"))
  = Some [VText "Bohai"].
Proof. reflexivity. Qed.

(** A run whose exports are all refused: the flag stays true, no call
    appends, and the exit code is still 0. *)
Example refused_exports_keep_flag :
  let out :=
    execute Sample.world
      (DepthCmd (Parsed false
                   (Some {| Depth.inputDir := "/in"; Depth.outputDir := "/out";
                            Depth.outputName := "fail" |})))
      Sample.three_cells None in
  flag_at_exit out = Some true
  /\ map (fun c => (option_map vt_append (decode (snd (fst c))), snd c))
         (translate_calls (events out))
     = [(Some false, false); (Some false, false)]
  /\ terminals (events out) = [SkippedOpenFailure; ExportFailed; SkippedEmpty; ExportFailed]
  /\ destination_after out = None
  /\ exit_code out = Some 0%Z.
Proof. repeat split; reflexivity. Qed.

(** A traversal that throws after two entries: they were processed, the
    exit code is 1. *)
Example traversal_failure :
  let out :=
    execute Sample.world (DepthCmd (Parsed false (Some Sample.depth_options)))
      {| entries := [Sample.cell "/in/" "US5XX01M.000"; Sample.cell "/bad/" "XX.000"];
         throws := true |} None in
  exit_code out = Some 1%Z
  /\ terminals (events out) = [Exported; SkippedOpenFailure]
  /\ last (events out) AllRegister = Log Cerr ErrFilesystem.
Proof. repeat split; reflexivity. Qed.

(** ** Statements and their rows *)


Lemma render_ends_with_where (q : select_stmt) (f : string) :
  sel_where q = Some f -> ends_with (render q) (where_text f).
Proof.
  intros Hw. unfold ends_with, render. rewrite Hw.
  exists (select_head
          ++ match sel_level q with
             | Some c => "'" ++ String c "" ++ "' AS LEVEL, "
             | None => ""
             end
          ++ "'" ++ sel_tag q ++ "' AS LAYERS, "
          ++ render_attr (sel_attr q) ++ " FROM " ++ dq ++ sel_from q ++ dq).
  now rewrite !string_app_assoc.
Qed.

Lemma exec_select_rows (ds : GDALDataset) (q : select_stmt) (rows : list row) :
  exec_select ds q = Some rows ->
  exists l,
    GetLayerByName ds (sel_from q) = Some l
    /\ rows = map (project l q) (filter (where_holds l (sel_where q)) (features l)).
Proof.
  unfold exec_select. destruct (GetLayerByName ds (sel_from q)) as [l|]; [|discriminate].
  intros H; inversion H. exists l. auto.
Qed.

(** A row of a filtered statement comes from a feature of the layer; when
    the layer has the column, the feature has the field set and not
    empty. *)
Lemma filtered_rows (ds : GDALDataset) (q : select_stmt) (f : string) (rows : list row)
    (r : row) :
  sel_where q = Some f -> exec_select ds q = Some rows -> In r rows ->
  exists l ft,
    GetLayerByName ds (sel_from q) = Some l /\ In ft (features l) /\ r = project l q ft
    /\ (column_exists l f = true -> exists s, GetField ft f = Some s /\ s <> "").
Proof.
  intros Hw Hex Hin.
  destruct (exec_select_rows ds q rows Hex) as (l & Hl & Hrows).
  subst rows. apply in_map_iff in Hin as (ft & Hr & Hft).
  apply filter_In in Hft as [Hft Hkeep].
  exists l, ft. repeat split; auto.
  intros Hcol. rewrite Hw in Hkeep. unfold where_holds, quoted_name, field_value in Hkeep.
  rewrite Hcol in Hkeep.
  destruct (GetField ft f) as [s|] eqn:Hs; [|discriminate].
  exists s. split; [reflexivity|]. intros ->. discriminate.
Qed.

(** A row of a union comes from one of its statements. *)
Lemma union_all_rows (ds : GDALDataset) (qs : list select_stmt) (rows : list row) (r : row) :
  exec_union_all ds qs = Some rows -> In r rows ->
  exists q rows', In q qs /\ exec_select ds q = Some rows' /\ In r rows'.
Proof.
  revert rows; induction qs as [|q qs IH]; simpl; intros rows Hex Hr.
  - inversion Hex; subst. contradiction.
  - destruct (exec_select ds q) as [rows1|] eqn:H1; [|discriminate].
    destruct (exec_union_all ds qs) as [rows2|]; [|discriminate].
    inversion Hex; subst. apply in_app_or in Hr as [Hr|Hr].
    + exists q, rows1. auto.
    + destruct (IH rows2 eq_refl Hr) as (q' & rows' & Hq' & Hex' & Hr').
      exists q', rows'. auto.
Qed.

Lemma depth_plan_stmt (poDS : GDALDataset) (q : select_stmt) :
  In q (DepthPlan.plan poDS) ->
  (q = DepthPlan.land_stmt "LNDARE" /\ GetLayerByName poDS "LNDARE" <> None)
  \/ exists L f, In L Depth.all_target_layers /\ StdMap.find L Depth.depth_map = Some f
                 /\ GetLayerByName poDS L <> None /\ q = DepthPlan.depth_stmt L f.
Proof.
  unfold DepthPlan.plan. intros Hin. apply in_flat_map in Hin as (L & HL & Hq).
  unfold DepthPlan.stmts_of in Hq.
  destruct (GetLayerByName poDS L) eqn:Hl; [|contradiction].
  destruct (L =? "LNDARE") eqn:HLn.
  - apply String.eqb_eq in HLn. subst L. destruct Hq as [<-|[]].
    left. split; [reflexivity | congruence].
  - destruct (StdMap.find L Depth.depth_map) as [f|] eqn:Hf; [|contradiction].
    destruct Hq as [<-|[]]. right. exists L, f. repeat split; auto. congruence.
Qed.

Lemma nobjnm_plan_stmt (poDS : GDALDataset) level targetLayers filterField (q : select_stmt) :
  In q (NobjnmPlan.plan poDS level targetLayers filterField) ->
  exists L l, In L targetLayers /\ GetLayerByName poDS L = Some l
              /\ GetFieldIndex l filterField <> (-1)%Z
              /\ q = NobjnmPlan.filter_stmt level L filterField.
Proof.
  unfold NobjnmPlan.plan. intros Hin. apply in_flat_map in Hin as (L & HL & Hq).
  unfold NobjnmPlan.stmts_of in Hq.
  destruct (GetLayerByName poDS L) as [l|] eqn:Hl; [|contradiction].
  destruct (GetFieldIndex l filterField =? -1)%Z eqn:Hidx; simpl in Hq; [contradiction|].
  destruct Hq as [<-|[]]. exists L, l. repeat split; auto.
  now apply Z.eqb_neq.
Qed.

(** ** Reading the text back *)

Lemma string_length_app (a b : string) :
  String.length (a ++ b) = (String.length a + String.length b)%nat.
Proof. induction a as [|c a IH]; simpl; [reflexivity | now rewrite IH]. Qed.

Lemma strip_prefix_app (p s : string) : strip_prefix p (p ++ s) = Some s.
Proof.
  induction p as [|c p IH]; simpl; [reflexivity|].
  now rewrite Ascii.eqb_refl.
Qed.

(** A quoted token whose content has no quote is read back as it was
    written. *)
Lemma scan_quoted_plain (q : ascii) (a rest : string) :
  free_of q a = true -> not_starting q rest = true ->
  scan_quoted q (a ++ String q rest) = Some (a, rest).
Proof.
  intros Ha Hrest. induction a as [|c a IH]; simpl.
  - rewrite Ascii.eqb_refl. destruct rest as [|c' r']; [reflexivity|].
    simpl in Hrest. apply negb_true_iff in Hrest. now rewrite Hrest.
  - simpl in Ha. apply andb_true_iff in Ha as [Hc Ha].
    apply negb_true_iff in Hc. rewrite Hc, (IH Ha). reflexivity.
Qed.

Lemma read_quoted_plain (q : ascii) (a rest : string) :
  free_of q a = true -> not_starting q rest = true ->
  read_quoted q (String q (a ++ String q rest)) = Some (a, rest).
Proof.
  intros Ha Hrest. unfold read_quoted. rewrite Ascii.eqb_refl.
  now apply scan_quoted_plain.
Qed.

Lemma parse_level_tag_render (level : option ascii) (tag rest : string) :
  match level with Some c => negb (Ascii.eqb c single_quote) | None => true end = true ->
  free_of single_quote tag = true ->
  parse_level_tag
    (match level with
     | Some c => "'" ++ String c "" ++ "' AS LEVEL, "
     | None => ""
     end ++ "'" ++ tag ++ "' AS LAYERS, " ++ rest)
  = Some (level, tag, " AS LAYERS, " ++ rest).
Proof.
  intros Hlevel Htag. unfold parse_level_tag.
  assert (Hread : read_quoted single_quote ("'" ++ tag ++ "' AS LAYERS, " ++ rest)
                  = Some (tag, " AS LAYERS, " ++ rest)).
  { exact (read_quoted_plain single_quote tag (" AS LAYERS, " ++ rest) Htag eq_refl). }
  destruct level as [c|].
  - change (("'" ++ String c "" ++ "' AS LEVEL, ") ++ "'" ++ tag ++ "' AS LAYERS, " ++ rest)
      with (String single_quote
              (String c "" ++ String single_quote
                 (" AS LEVEL, " ++ "'" ++ tag ++ "' AS LAYERS, " ++ rest))).
    rewrite read_quoted_plain; [|simpl; now rewrite Hlevel | reflexivity].
    rewrite strip_prefix_app, Hread. reflexivity.
  - change ("" ++ "'" ++ tag ++ "' AS LAYERS, " ++ rest)
      with ("'" ++ tag ++ "' AS LAYERS, " ++ rest).
    rewrite Hread. reflexivity.
Qed.

Lemma parse_attr_render (a : attr_expr) (rest : string) :
  match a with
  | CastConst lit => lit =? "-1"
  | CastField f | PlainField f => free_of double_quote f
  end = true ->
  not_starting double_quote rest = true ->
  parse_attr (render_attr a ++ rest) = Some (a, rest).
Proof.
  intros Ha Hrest. unfold parse_attr. destruct a as [lit|f|f]; cbn [render_attr].
  - apply String.eqb_eq in Ha. subst lit.
    change (("CAST(" ++ "-1" ++ " AS REAL) AS DEPTH") ++ rest)
      with ("CAST(-1 AS REAL) AS DEPTH" ++ rest).
    now rewrite strip_prefix_app.
  - rewrite !string_app_assoc.
    replace (strip_prefix "CAST(-1 AS REAL) AS DEPTH"
               ("CAST(" ++ dq ++ f ++ dq ++ " AS REAL) AS DEPTH" ++ rest))
      with (@None string) by reflexivity.
    rewrite strip_prefix_app.
    change (dq ++ f ++ dq ++ " AS REAL) AS DEPTH" ++ rest)
      with (String double_quote (f ++ String double_quote (" AS REAL) AS DEPTH" ++ rest))).
    rewrite read_quoted_plain; [|exact Ha | reflexivity].
    now rewrite strip_prefix_app.
  - rewrite !string_app_assoc.
    replace (strip_prefix "CAST(-1 AS REAL) AS DEPTH" (dq ++ f ++ dq ++ rest))
      with (@None string) by reflexivity.
    replace (strip_prefix "CAST(" (dq ++ f ++ dq ++ rest))
      with (@None string) by reflexivity.
    change (dq ++ f ++ dq ++ rest)
      with (String double_quote (f ++ String double_quote rest)).
    now rewrite read_quoted_plain.
Qed.

Lemma parse_where_render (w : option string) (rest : string) :
  match w with Some f => free_of double_quote f | None => true end = true ->
  closes rest ->
  parse_where (match w with Some f => where_text f | None => "" end ++ rest)
  = Some (w, rest).
Proof.
  intros Hw Hrest. unfold parse_where. destruct w as [f|].
  - unfold where_text. rewrite !string_app_assoc. rewrite strip_prefix_app.
    change (dq ++ f ++ dq ++ " IS NOT NULL AND " ++ dq ++ f ++ dq ++ " != ''" ++ rest)
      with (String double_quote
              (f ++ String double_quote
                 (" IS NOT NULL AND " ++ dq ++ f ++ dq ++ " != ''" ++ rest))).
    rewrite read_quoted_plain; [|exact Hw | reflexivity].
    rewrite strip_prefix_app.
    change (dq ++ f ++ dq ++ " != ''" ++ rest)
      with (String double_quote (f ++ String double_quote (" != ''" ++ rest))).
    rewrite read_quoted_plain; [|exact Hw | reflexivity].
    now rewrite strip_prefix_app, String.eqb_refl.
  - destruct Hrest as [->|[r ->]]; reflexivity.
Qed.

Lemma closes_not_starting (rest : string) :
  closes rest -> not_starting double_quote rest = true.
Proof. intros [->|[r ->]]; reflexivity. Qed.

(** A statement written with plain names is read back from its text. *)
Lemma parse_select_render (q : select_stmt) (rest : string) :
  plain_stmt q = true -> closes rest ->
  parse_select (render q ++ rest) = Some (q, rest).
Proof.
  destruct q as [level tag attr from w]. unfold plain_stmt. cbn [sel_level sel_tag sel_attr sel_from sel_where].
  intros Hq Hrest.
  apply andb_true_iff in Hq as [Hq Hw]. apply andb_true_iff in Hq as [Hq Hfrom].
  apply andb_true_iff in Hq as [Hq Hattr]. apply andb_true_iff in Hq as [Hlevel Htag].
  unfold parse_select, render. cbn [sel_level sel_tag sel_attr sel_from sel_where].
  rewrite !string_app_assoc. rewrite strip_prefix_app.
  rewrite parse_level_tag_render by assumption.
  rewrite strip_prefix_app.
  rewrite parse_attr_render; [|exact Hattr | reflexivity].
  rewrite strip_prefix_app.
  assert (Hstart : not_starting double_quote
                     (match w with Some f => where_text f | None => "" end ++ rest) = true).
  { destruct w; [reflexivity|]. now apply closes_not_starting. }
  change (dq ++ from ++ dq ++ match w with Some f => where_text f | None => "" end ++ rest)
    with (String double_quote
            (from ++ String double_quote
               (match w with Some f => where_text f | None => "" end ++ rest))).
  rewrite read_quoted_plain by assumption.
  rewrite parse_where_render by assumption.
  reflexivity.
Qed.

Lemma render_length (q : select_stmt) : (1 <= String.length (render q))%nat.
Proof.
  unfold render. rewrite string_length_app.
  pose proof (eq_refl : (1 <=? String.length select_head)%nat = true) as H.
  apply Nat.leb_le in H. apply (Nat.le_trans _ _ _ H), Nat.le_add_r.
Qed.

Lemma join_cons (p p' : string) (ps : list string) (sep : string) :
  join (p :: p' :: ps) sep = p ++ sep ++ join (p' :: ps) sep.
Proof. reflexivity. Qed.

Lemma join_render_length (qs : list select_stmt) :
  (List.length qs <= String.length (join (map render qs) " UNION ALL "))%nat.
Proof.
  induction qs as [|q qs IH]; [simpl; lia|].
  destruct qs as [|q' qs].
  - cbn [map join String.concat List.length]. apply render_length.
  - change (map render (q :: q' :: qs)) with (render q :: render q' :: map render qs).
    rewrite join_cons, !string_length_app.
    change (render q' :: map render qs) with (map render (q' :: qs)).
    pose proof (render_length q). cbn [List.length] in *. lia.
Qed.

Lemma parse_query_from_render (qs : list select_stmt) (fuel : nat) :
  qs <> [] -> forallb plain_stmt qs = true -> (List.length qs <= fuel)%nat ->
  parse_query_from fuel (join (map render qs) " UNION ALL ") = Some qs.
Proof.
  revert fuel. induction qs as [|q qs IH]; intros fuel Hne Hplain Hfuel; [contradiction|].
  destruct qs as [|q' qs].
  - destruct fuel as [|n]; [simpl in Hfuel; lia|].
    cbn [map join String.concat]. cbn [forallb] in Hplain.
    apply andb_true_iff in Hplain as [Hq _].
    cbn [parse_query_from]. rewrite <- (string_app_nil_r (render q)).
    rewrite parse_select_render; [reflexivity | exact Hq | now left].
  - destruct fuel as [|n]; [simpl in Hfuel; lia|].
    change (map render (q :: q' :: qs)) with (render q :: render q' :: map render qs).
    rewrite join_cons.
    change (forallb plain_stmt (q :: q' :: qs))
      with (plain_stmt q && forallb plain_stmt (q' :: qs)) in Hplain.
    apply andb_true_iff in Hplain as [Hq Hrest].
    cbn [parse_query_from].
    rewrite parse_select_render; [|exact Hq | right; eexists; reflexivity].
    change (" UNION ALL " ++ join (render q' :: map render qs) " UNION ALL ")
      with (String " " ("UNION ALL " ++ join (map render (q' :: qs)) " UNION ALL ")).
    cbv iota.
    change (String " " ("UNION ALL " ++ join (map render (q' :: qs)) " UNION ALL "))
      with (" UNION ALL " ++ join (map render (q' :: qs)) " UNION ALL ").
    rewrite strip_prefix_app.
    rewrite IH; [reflexivity | discriminate | exact Hrest |].
    cbn [List.length] in *. lia.
Qed.

(** The text of a plan of plain statements is read back as the plan. *)
Lemma parse_query_render (qs : list select_stmt) :
  qs <> [] -> forallb plain_stmt qs = true ->
  parse_query (join (map render qs) " UNION ALL ") = Some qs.
Proof.
  intros Hne Hplain. unfold parse_query.
  apply parse_query_from_render; auto. apply join_render_length.
Qed.

(** ** C10: fragment order *)

(** C10.  The fragment order is fixed by the variant.  In [depth.cpp]
    the target layers are LNDARE followed by the keys of [depth_map] in
    ascending lexicographic order (DEPARE, DEPCNT, DRGARE, OBSTRN, SOUNDG,
    UWTROC, WRECKS), and the fragments are those of the present layers
    in that order; in [nobjnm.cpp] the fragments follow the order of the
    given layer list (the layers that exist and have the field).  The
    query handed to each export is the fragments of the entry joined with
    [" UNION ALL "]. *)
Theorem C10_fragment_order :
  Depth.all_target_layers
  = ["LNDARE"; "DEPARE"; "DEPCNT"; "DRGARE"; "OBSTRN"; "SOUNDG"; "UWTROC"; "WRECKS"]
  /\ StdMap.keys Depth.depth_map
     = ["DEPARE"; "DEPCNT"; "DRGARE"; "OBSTRN"; "SOUNDG"; "UWTROC"; "WRECKS"]
  /\ StdMap.ascending (StdMap.keys Depth.depth_map) = true
  /\ (forall poDS,
        Depth.sql_parts poDS = map render (DepthPlan.plan poDS)
        /\ map sel_from (DepthPlan.plan poDS)
           = filter (DepthPlan.present poDS)
               ["LNDARE"; "DEPARE"; "DEPCNT"; "DRGARE"; "OBSTRN"; "SOUNDG"; "UWTROC";
                "WRECKS"])
  /\ (forall poDS level targetLayers filterField,
        Nobjnm.sql_parts poDS level targetLayers filterField
        = map render (NobjnmPlan.plan poDS level targetLayers filterField)
        /\ map sel_from (NobjnmPlan.plan poDS level targetLayers filterField)
           = filter (NobjnmPlan.has_field poDS filterField) targetLayers)
  /\ (forall p, join [p] " UNION ALL " = p)
  /\ (forall p p' ps,
        join (p :: p' :: ps) " UNION ALL " = p ++ " UNION ALL " ++ join (p' :: ps) " UNION ALL ")
  /\ (forall (W : World) inv scan fs0 pre d argv ok post,
        events (execute W inv scan fs0) = (pre ++ Translate d argv ok :: post)%list ->
        exists entry q v,
          In entry (entries scan) /\ query_of W inv entry q
          /\ decode argv = Some v /\ vt_sql v = Some q).
Proof.
  split; [reflexivity|]. split; [reflexivity|]. split; [reflexivity|].
  split.
  { intros poDS. split; [apply depth_render_plan|].
    rewrite depth_plan_layers. reflexivity. }
  split.
  { intros. split; [apply nobjnm_render_plan | apply nobjnm_plan_layers]. }
  split; [reflexivity|]. split; [reflexivity|].
  intros W inv scan fs0 pre d argv ok post Hev.
  destruct (export_call W inv scan fs0 pre d argv ok post Hev)
    as (dir & name & entry & q & _ & _ & Hin & Hq & Hdec).
  exists entry, q. eexists. split; [exact Hin|]. split; [exact Hq|].
  split; [exact Hdec | reflexivity].
Qed.

(** The second export of the sample depth run carries the one fragment
    of its cell. *)
Lemma C10_fragment_order_witness :
  events Sample.depth_run
  = (firstn 21 (events Sample.depth_run)
     ++ Translate "/out" Sample.second_argv true :: skipn 22 (events Sample.depth_run))%list
  /\ exists entry q v,
       In entry (entries Sample.three_cells)
       /\ query_of Sample.world (DepthCmd (Parsed false (Some Sample.depth_options))) entry q
       /\ decode Sample.second_argv = Some v /\ vt_sql v = Some q.
Proof.
  split; [reflexivity|].
  destruct C10_fragment_order as (_ & _ & _ & _ & _ & _ & _ & H).
  apply (H Sample.world (DepthCmd (Parsed false (Some Sample.depth_options)))
           Sample.three_cells (Some []) (firstn 21 (events Sample.depth_run))
           "/out" Sample.second_argv true (skipn 22 (events Sample.depth_run))).
  reflexivity.
Defined.

(** ** C8: the level code *)

(** C8.  In [nobjnm.cpp] the level is one character taken from the file
    name of the entry: its third character when the name has at least
    three characters, the character 0 otherwise.  It is computed once per
    entry and every fragment built for that entry selects it as the
    constant column LEVEL, so every row of those fragments carries it. *)
Theorem C8_level_code :
  (forall filename,
      (3 <= String.length filename)%nat ->
      String.get 2 filename = Some (Nobjnm.level_of filename))
  /\ (forall filename,
        (String.length filename < 3)%nat -> Nobjnm.level_of filename = "0"%char)
  /\ (forall level layerName filterField,
        starts_with (Nobjnm.filter_sql level layerName filterField)
          (select_head ++ "'" ++ String level "" ++ "' AS LEVEL, "))
  /\ (forall (W : World) o scan fs0 pre d argv ok post,
        events (execute W (NobjnmCmd (Parsed false (Some o))) scan fs0)
        = (pre ++ Translate d argv ok :: post)%list ->
        exists entry poDS v,
          In entry (entries scan)
          /\ GDALOpenEx W (path_string entry) [] = Some poDS
          /\ decode argv = Some v
          /\ vt_sql v
             = Some (join (map render
                             (NobjnmPlan.plan poDS (Nobjnm.level_of (filename entry))
                                (Nobjnm.targetLayers o) (Nobjnm.filterField o)))
                          " UNION ALL ")
          /\ forall q,
               In q (NobjnmPlan.plan poDS (Nobjnm.level_of (filename entry))
                       (Nobjnm.targetLayers o) (Nobjnm.filterField o)) ->
               sel_level q = Some (Nobjnm.level_of (filename entry))
               /\ forall rows r,
                    exec_select poDS q = Some rows -> In r rows ->
                    LEVEL r = Some (Nobjnm.level_of (filename entry))).
Proof.
  split.
  { intros filename Hlen. unfold Nobjnm.level_of.
    destruct filename as [|a [|b [|c rest]]]; simpl in Hlen; try lia. reflexivity. }
  split.
  { intros filename Hlen. unfold Nobjnm.level_of.
    destruct (Nat.leb_spec 3 (String.length filename)); [lia | reflexivity]. }
  split.
  { intros. unfold starts_with, Nobjnm.filter_sql, select_head. eexists.
    string_normalize. reflexivity. }
  intros W o scan fs0 pre d argv ok post Hev.
  destruct (export_call W _ scan fs0 pre d argv ok post Hev)
    as (dir & name & entry & q & _ & _ & Hin & (poDS & Hopen & _ & Hq) & Hdec).
  exists entry, poDS. eexists. split; [exact Hin|]. split; [exact Hopen|].
  split; [exact Hdec|]. cbn [vt_sql]. rewrite Hq, nobjnm_render_plan.
  split; [reflexivity|].
  intros q0 Hq0.
  destruct (nobjnm_plan_stmt _ _ _ _ _ Hq0) as (L & l & _ & _ & _ & ->).
  split; [reflexivity|].
  intros rows r Hex Hr.
  destruct (exec_select_rows _ _ _ Hex) as (l' & _ & ->).
  apply in_map_iff in Hr as (ft & <- & _). reflexivity.
Qed.

(** The one export of the sample name run: the cell is C1313100.000, its
    level is the character 3. *)
Lemma C8_level_code_witness :
  String.get 2 "C1313100.000" = Some (Nobjnm.level_of "C1313100.000")
  /\ Nobjnm.level_of "C1313100.000" = "3"%char
  /\ exists entry poDS v,
       In entry [Sample.cell "/in/" "C1313100.000"]
       /\ GDALOpenEx Sample.world (path_string entry) [] = Some poDS
       /\ decode Sample.nobjnm_argv = Some v
       /\ vt_sql v
          = Some (join (map render
                          (NobjnmPlan.plan poDS (Nobjnm.level_of (filename entry))
                             (Nobjnm.targetLayers Sample.nobjnm_options)
                             (Nobjnm.filterField Sample.nobjnm_options)))
                       " UNION ALL ")
       /\ forall q,
            In q (NobjnmPlan.plan poDS (Nobjnm.level_of (filename entry))
                    (Nobjnm.targetLayers Sample.nobjnm_options)
                    (Nobjnm.filterField Sample.nobjnm_options)) ->
            sel_level q = Some (Nobjnm.level_of (filename entry))
            /\ forall rows r,
                 exec_select poDS q = Some rows -> In r rows ->
                 LEVEL r = Some (Nobjnm.level_of (filename entry)).
Proof.
  destruct C8_level_code as (Hthird & _ & _ & Hrun).
  split; [apply Hthird; simpl; lia|].
  split; [reflexivity|].
  apply (Hrun Sample.world Sample.nobjnm_options
           {| entries := [Sample.cell "/in/" "C1313100.000"]; throws := false |} None
           (firstn 9 (events Sample.nobjnm_run)) "/out" Sample.nobjnm_argv true
           (skipn 10 (events Sample.nobjnm_run))).
  reflexivity.
Defined.

(** ** C2: rows with a null or empty field are left out *)

Lemma find_key (k v : string) (m : StdMap.t) :
  StdMap.find k m = Some v -> In k (StdMap.keys m).
Proof.
  induction m as [|[k' v'] m IH]; simpl; [discriminate|].
  destruct (k =? k') eqn:E.
  - apply String.eqb_eq in E. now left.
  - intros H. right. now apply IH.
Qed.

Lemma depth_map_target (L f : string) :
  StdMap.find L Depth.depth_map = Some f ->
  In L Depth.all_target_layers /\ (L =? "LNDARE") = false.
Proof.
  intros Hf. split.
  - rewrite depth_all_target_layers. right. exact (find_key L f _ Hf).
  - destruct (L =? "LNDARE") eqn:E; [|reflexivity].
    apply String.eqb_eq in E. subst L. discriminate Hf.
Qed.

Lemma depth_plan_plain (poDS : GDALDataset) :
  forallb plain_stmt (DepthPlan.plan poDS) = true.
Proof.
  apply forallb_forall. intros q Hq.
  destruct (depth_plan_stmt _ _ Hq) as [[-> _] | (L & f & HL & Hf & _ & ->)];
    [reflexivity|].
  rewrite depth_all_target_layers in HL.
  repeat (destruct HL as [<-|HL]; [vm_compute in Hf; inversion Hf; reflexivity|]).
  contradiction.
Qed.

Lemma nobjnm_plan_plain (poDS : GDALDataset) (level : ascii) (targetLayers : list string)
    (filterField : string) :
  level <> single_quote ->
  forallb plain_name targetLayers = true ->
  free_of double_quote filterField = true ->
  forallb plain_stmt (NobjnmPlan.plan poDS level targetLayers filterField) = true.
Proof.
  intros Hlevel Hlayers Hfield. apply forallb_forall. intros q Hq.
  destruct (nobjnm_plan_stmt _ _ _ _ _ Hq) as (L & l & HL & _ & _ & ->).
  pose proof (proj1 (forallb_forall _ _) Hlayers L HL) as Hplain.
  unfold plain_name in Hplain. apply andb_true_iff in Hplain as [Hs Hd].
  unfold plain_stmt. cbn [NobjnmPlan.filter_stmt sel_level sel_tag sel_attr sel_from sel_where].
  apply Ascii.eqb_neq in Hlevel. now rewrite Hlevel, Hs, Hd, Hfield.
Qed.

(** The engine answers every plan whose tables exist. *)
Lemma exec_union_all_some (ds : GDALDataset) (qs : list select_stmt) :
  (forall q, In q qs -> GetLayerByName ds (sel_from q) <> None) ->
  exists rows, exec_union_all ds qs = Some rows.
Proof.
  induction qs as [|q qs IH]; intros Hall; [now exists []|].
  cbn [exec_union_all]. unfold exec_select at 1.
  destruct (GetLayerByName ds (sel_from q)) as [l|] eqn:Hl.
  - destruct IH as [rest ->]; [intros; apply Hall; now right|]. eauto.
  - exfalso. apply (Hall q); [now left | exact Hl].
Qed.

(** The text [depth.cpp] hands to the engine is read as its plan, and
    the plan is answered. *)
Lemma depth_text_rows (poDS : GDALDataset) :
  Depth.sql_parts poDS <> [] ->
  exists rows,
    Sql.run poDS (join (Depth.sql_parts poDS) " UNION ALL ") = Some rows
    /\ exec_union_all poDS (DepthPlan.plan poDS) = Some rows.
Proof.
  intros Hne. unfold Sql.run. rewrite depth_render_plan in *.
  rewrite parse_query_render.
  - destruct (exec_union_all_some poDS (DepthPlan.plan poDS)) as [rows Hrows]; [|eauto].
    intros q Hq.
    destruct (depth_plan_stmt _ _ Hq) as [[-> H] | (L & f & _ & _ & H & ->)]; exact H.
  - intros Hnil. rewrite Hnil in Hne. now apply Hne.
  - apply depth_plan_plain.
Qed.

(** The same for [nobjnm.cpp], when the names of the command line and
    the level can stand between their quotes as they are. *)
Lemma nobjnm_text_rows (poDS : GDALDataset) (level : ascii) (targetLayers : list string)
    (filterField : string) :
  level <> single_quote ->
  forallb plain_name targetLayers = true ->
  free_of double_quote filterField = true ->
  Nobjnm.sql_parts poDS level targetLayers filterField <> [] ->
  exists rows,
    Sql.run poDS (join (Nobjnm.sql_parts poDS level targetLayers filterField) " UNION ALL ")
    = Some rows
    /\ exec_union_all poDS (NobjnmPlan.plan poDS level targetLayers filterField) = Some rows.
Proof.
  intros Hlevel Hlayers Hfield Hne. unfold Sql.run. rewrite nobjnm_render_plan in *.
  rewrite parse_query_render.
  - destruct (exec_union_all_some poDS
                (NobjnmPlan.plan poDS level targetLayers filterField)) as [rows Hrows];
      [|eauto].
    intros q Hq.
    destruct (nobjnm_plan_stmt _ _ _ _ _ Hq) as (L & l & _ & Hl & _ & ->).
    cbn [NobjnmPlan.filter_stmt sel_from]. congruence.
  - intros Hnil. rewrite Hnil in Hne. now apply Hne.
  - now apply nobjnm_plan_plain.
Qed.

(** Where a row of the depth plan comes from. *)
Lemma depth_plan_rows (poDS : GDALDataset) (rows : list row) (r : row) :
  exec_union_all poDS (DepthPlan.plan poDS) = Some rows -> In r rows ->
  (LAYERS r = "LNDARE" /\ attr_value r = VCastReal (VLit "-1"))
  \/ exists L f l ft,
       StdMap.find L Depth.depth_map = Some f
       /\ GetLayerByName poDS L = Some l /\ In ft (features l) /\ LAYERS r = L
       /\ ((column_exists l f = true
            /\ exists s, GetField ft f = Some s /\ s <> ""
                         /\ attr_value r = VCastReal (VText s))
           \/ (column_exists l f = false /\ attr_value r = VCastReal (VText f))).
Proof.
  intros Hex Hr.
  destruct (union_all_rows _ _ _ _ Hex Hr) as (q & rows' & Hq & Hex' & Hr').
  destruct (depth_plan_stmt _ _ Hq) as [[-> _] | (L & f & _ & Hf & _ & ->)].
  - left. destruct (exec_select_rows _ _ _ Hex') as (l & _ & ->).
    apply in_map_iff in Hr' as (ft & <- & _). split; reflexivity.
  - right.
    destruct (filtered_rows poDS (DepthPlan.depth_stmt L f) f rows' r eq_refl Hex' Hr')
      as (l & ft & Hl & Hft & -> & Hset).
    exists L, f, l, ft. repeat split; auto.
    cbn [project attr_value DepthPlan.depth_stmt sel_attr]. unfold quoted_name, field_value.
    destruct (column_exists l f) eqn:Hcol.
    + left. split; [reflexivity|]. destruct (Hset eq_refl) as (s & Hs & Hne).
      exists s. rewrite Hs. auto.
    + right. split; reflexivity.
Qed.

(** Where a row of the plan of [nobjnm.cpp] comes from. *)
Lemma nobjnm_plan_rows (poDS : GDALDataset) (level : ascii) (targetLayers : list string)
    (filterField : string) (rows : list row) (r : row) :
  exec_union_all poDS (NobjnmPlan.plan poDS level targetLayers filterField) = Some rows ->
  In r rows ->
  exists L l ft s,
    In L targetLayers /\ GetLayerByName poDS L = Some l /\ In ft (features l)
    /\ GetField ft filterField = Some s /\ s <> ""
    /\ LAYERS r = L /\ attr_name r = filterField /\ attr_value r = VText s.
Proof.
  intros Hex Hr.
  destruct (union_all_rows _ _ _ _ Hex Hr) as (q & rows' & Hq & Hex' & Hr').
  destruct (nobjnm_plan_stmt _ _ _ _ _ Hq) as (L & l0 & HL & Hl0 & Hidx & ->).
  destruct (filtered_rows poDS (NobjnmPlan.filter_stmt level L filterField) filterField rows' r
              eq_refl Hex' Hr')
    as (l & ft & Hl & Hft & -> & Hset).
  cbn [NobjnmPlan.filter_stmt sel_from] in Hl.
  assert (l0 = l) by congruence. subst l0.
  assert (Hcol : column_exists l filterField = true).
  { unfold column_exists. apply Z.eqb_neq in Hidx. now rewrite Hidx. }
  destruct (Hset Hcol) as (s & Hs & Hne).
  exists L, l, ft, s. repeat split; auto.
  cbn [project attr_value NobjnmPlan.filter_stmt sel_attr]. unfold quoted_name, field_value.
  now rewrite Hcol, Hs.
Qed.

(** C2, as the claim states it, fails on [depth.cpp]: the program does
    not look at the layer definition, and the filter is written on a
    double-quoted name.  For the sample cell whose depth area has no
    DRVAL1 the fragment is built and exported all the same; the engine
    reads the unknown quoted name as the text DRVAL1, which is neither
    NULL nor empty, so the one feature of the layer yields a row although
    its source field is not set. *)
Lemma C2_counterexample :
  translate_calls
    (events (execute Sample.world (DepthCmd (Parsed false (Some Sample.depth_options)))
               {| entries := [Sample.cell "/in/" "C1NOFLD1.000"]; throws := false |} None))
  = [("/out", Depth.translate_argv true (Depth.depth_sql "DEPARE" "DRVAL1") "depth", true)]
  /\ GDALOpenEx Sample.world "/in/C1NOFLD1.000" Depth.papszOpenOptions
     = Some Sample.depare_no_field
  /\ join (Depth.sql_parts Sample.depare_no_field) " UNION ALL "
     = Depth.depth_sql "DEPARE" "DRVAL1"
  /\ Sql.run Sample.depare_no_field (Depth.depth_sql "DEPARE" "DRVAL1")
     = Some [ {| WKT := ST_MakeValid
                          (ST_SimplifyPreserveTopology
                             (Geometry "POLYGON ((0 0,0 2,2 2,0 0))") "0.00025");
                 LEVEL := None;
                 LAYERS := "DEPARE";
                 attr_name := "DEPTH";
                 attr_value := VCastReal (VText "DRVAL1") |} ]
  /\ option_map (fun l => map (fun ft => GetField ft "DRVAL1") (features l))
       (GetLayerByName Sample.depare_no_field "DEPARE")
     = Some [None].
Proof. repeat split; reflexivity. Qed.

(** C2, amended.  Every fragment built for a field of a layer ends with
    the filter WHERE f IS NOT NULL AND f != '' on that field, the name
    between double quotes, and the fragments of a cell are no others:
    in [depth.cpp] the land fragment and one fragment per present layer
    of [depth_map], in [nobjnm.cpp] one fragment per listed layer that
    the dataset has with the field.  For every export call the query is
    the join of these fragments, the engine answers it, and:
    in [nobjnm.cpp], where the field was checked (and the layer names,
    the field name and the level have no quote character of their own),
    every row comes from a feature whose field is set and is not the
    empty text; in [depth.cpp] a row of a field fragment comes from such
    a feature when the layer has the column, and from any feature of the
    layer, with the field name itself cast to REAL as its depth, when
    the layer lacks it. *)
Theorem C2_null_and_empty_filtered :
  (forall f,
      where_text f
      = " WHERE " ++ dq ++ f ++ dq ++ " IS NOT NULL AND " ++ dq ++ f ++ dq ++ " != ''")
  /\ (forall layerName depthField,
        ends_with (Depth.depth_sql layerName depthField) (where_text depthField))
  /\ (forall level layerName filterField,
        ends_with (Nobjnm.filter_sql level layerName filterField) (where_text filterField))
  /\ (forall poDS p,
        In p (Depth.sql_parts poDS)
        <-> (p = Depth.land_sql "LNDARE" /\ GetLayerByName poDS "LNDARE" <> None)
            \/ exists L f,
                 StdMap.find L Depth.depth_map = Some f
                 /\ GetLayerByName poDS L <> None /\ p = Depth.depth_sql L f)
  /\ (forall poDS level targetLayers filterField p,
        In p (Nobjnm.sql_parts poDS level targetLayers filterField)
        <-> exists L l,
              In L targetLayers /\ GetLayerByName poDS L = Some l
              /\ GetFieldIndex l filterField <> (-1)%Z
              /\ p = Nobjnm.filter_sql level L filterField)
  /\ (forall (W : World) o scan fs0 pre d argv ok post,
        events (execute W (DepthCmd (Parsed false (Some o))) scan fs0)
        = (pre ++ Translate d argv ok :: post)%list ->
        exists entry poDS v rows,
          In entry (entries scan)
          /\ GDALOpenEx W (path_string entry) Depth.papszOpenOptions = Some poDS
          /\ decode argv = Some v
          /\ vt_sql v = Some (join (Depth.sql_parts poDS) " UNION ALL ")
          /\ Sql.run poDS (join (Depth.sql_parts poDS) " UNION ALL ") = Some rows
          /\ forall r,
               In r rows ->
               (LAYERS r = "LNDARE" /\ attr_value r = VCastReal (VLit "-1"))
               \/ exists L f l ft,
                    StdMap.find L Depth.depth_map = Some f
                    /\ GetLayerByName poDS L = Some l /\ In ft (features l)
                    /\ LAYERS r = L
                    /\ ((column_exists l f = true
                         /\ exists s, GetField ft f = Some s /\ s <> ""
                                      /\ attr_value r = VCastReal (VText s))
                        \/ (column_exists l f = false
                            /\ attr_value r = VCastReal (VText f))))
  /\ (forall (W : World) o scan fs0 pre d argv ok post,
        forallb plain_name (Nobjnm.targetLayers o) = true ->
        free_of double_quote (Nobjnm.filterField o) = true ->
        (forall entry, In entry (entries scan) ->
                       Nobjnm.level_of (filename entry) <> single_quote) ->
        events (execute W (NobjnmCmd (Parsed false (Some o))) scan fs0)
        = (pre ++ Translate d argv ok :: post)%list ->
        exists entry poDS v rows,
          In entry (entries scan)
          /\ GDALOpenEx W (path_string entry) [] = Some poDS
          /\ decode argv = Some v
          /\ vt_sql v
             = Some (join (Nobjnm.sql_parts poDS (Nobjnm.level_of (filename entry))
                             (Nobjnm.targetLayers o) (Nobjnm.filterField o)) " UNION ALL ")
          /\ Sql.run poDS
               (join (Nobjnm.sql_parts poDS (Nobjnm.level_of (filename entry))
                        (Nobjnm.targetLayers o) (Nobjnm.filterField o)) " UNION ALL ")
             = Some rows
          /\ forall r,
               In r rows ->
               exists L l ft s,
                 In L (Nobjnm.targetLayers o) /\ GetLayerByName poDS L = Some l
                 /\ In ft (features l)
                 /\ GetField ft (Nobjnm.filterField o) = Some s /\ s <> ""
                 /\ LAYERS r = L /\ attr_name r = Nobjnm.filterField o
                 /\ attr_value r = VText s).
Proof.
  split; [reflexivity|].
  split.
  { intros. rewrite <- depth_render_depth. now apply render_ends_with_where. }
  split.
  { intros. rewrite <- nobjnm_render_filter. now apply render_ends_with_where. }
  split.
  { intros poDS p. rewrite depth_render_plan, in_map_iff. split.
    - intros (q & <- & Hq).
      destruct (depth_plan_stmt _ _ Hq) as [[-> H] | (L & f & _ & Hf & H & ->)].
      + left. split; [apply depth_render_land | exact H].
      + right. exists L, f. split; [exact Hf|]. split; [exact H|]. apply depth_render_depth.
    - intros [[-> H] | (L & f & Hf & H & ->)].
      + exists (DepthPlan.land_stmt "LNDARE"). split; [apply depth_render_land|].
        apply in_flat_map. exists "LNDARE". split.
        * rewrite depth_all_target_layers. now left.
        * unfold DepthPlan.stmts_of. destruct (GetLayerByName poDS "LNDARE"); [|congruence].
          now left.
      + exists (DepthPlan.depth_stmt L f). split; [apply depth_render_depth|].
        destruct (depth_map_target L f Hf) as [HL Hl].
        apply in_flat_map. exists L. split; [exact HL|].
        unfold DepthPlan.stmts_of. destruct (GetLayerByName poDS L); [|congruence].
        rewrite Hl, Hf. now left. }
  split.
  { intros poDS level targetLayers filterField p.
    rewrite nobjnm_render_plan, in_map_iff. split.
    - intros (q & <- & Hq).
      destruct (nobjnm_plan_stmt _ _ _ _ _ Hq) as (L & l & HL & Hl & Hidx & ->).
      exists L, l. repeat split; auto. apply nobjnm_render_filter.
    - intros (L & l & HL & Hl & Hidx & ->).
      exists (NobjnmPlan.filter_stmt level L filterField).
      split; [apply nobjnm_render_filter|].
      apply in_flat_map. exists L. split; [exact HL|].
      unfold NobjnmPlan.stmts_of. rewrite Hl. apply Z.eqb_neq in Hidx. rewrite Hidx.
      now left. }
  split.
  { intros W o scan fs0 pre d argv ok post Hev.
    destruct (export_call W _ scan fs0 pre d argv ok post Hev)
      as (dir & name & entry & q & _ & _ & Hin & (poDS & Hopen & Hne & Hq) & Hdec).
    destruct (depth_text_rows poDS Hne) as (rows & Hrun & Hex).
    exists entry, poDS. eexists. exists rows.
    split; [exact Hin|]. split; [exact Hopen|]. split; [exact Hdec|].
    cbn [vt_sql]. split; [now rewrite Hq|]. split; [exact Hrun|].
    intros r Hr. exact (depth_plan_rows poDS rows r Hex Hr). }
  intros W o scan fs0 pre d argv ok post Hlayers Hfield Hlevel Hev.
  destruct (export_call W _ scan fs0 pre d argv ok post Hev)
    as (dir & name & entry & q & _ & _ & Hin & (poDS & Hopen & Hne & Hq) & Hdec).
  destruct (nobjnm_text_rows poDS _ _ _ (Hlevel entry Hin) Hlayers Hfield Hne)
    as (rows & Hrun & Hex).
  exists entry, poDS. eexists. exists rows.
  split; [exact Hin|]. split; [exact Hopen|]. split; [exact Hdec|].
  cbn [vt_sql]. split; [now rewrite Hq|]. split; [exact Hrun|].
  intros r Hr. exact (nobjnm_plan_rows poDS _ _ _ rows r Hex Hr).
Qed.

(** The second export of the sample depth run (the depth area of three
    features, one without DRVAL1) and the one export of the sample name
    run. *)
Lemma C2_null_and_empty_filtered_witness :
  (exists entry poDS v rows,
      In entry (entries Sample.three_cells)
      /\ GDALOpenEx Sample.world (path_string entry) Depth.papszOpenOptions = Some poDS
      /\ decode Sample.second_argv = Some v
      /\ vt_sql v = Some (join (Depth.sql_parts poDS) " UNION ALL ")
      /\ Sql.run poDS (join (Depth.sql_parts poDS) " UNION ALL ") = Some rows
      /\ forall r,
           In r rows ->
           (LAYERS r = "LNDARE" /\ attr_value r = VCastReal (VLit "-1"))
           \/ exists L f l ft,
                StdMap.find L Depth.depth_map = Some f
                /\ GetLayerByName poDS L = Some l /\ In ft (features l)
                /\ LAYERS r = L
                /\ ((column_exists l f = true
                     /\ exists s, GetField ft f = Some s /\ s <> ""
                                  /\ attr_value r = VCastReal (VText s))
                    \/ (column_exists l f = false
                        /\ attr_value r = VCastReal (VText f))))
  /\ (exists entry poDS v rows,
        In entry [Sample.cell "/in/" "C1313100.000"]
        /\ GDALOpenEx Sample.world (path_string entry) [] = Some poDS
        /\ decode Sample.nobjnm_argv = Some v
        /\ vt_sql v
           = Some (join (Nobjnm.sql_parts poDS (Nobjnm.level_of (filename entry))
                           (Nobjnm.targetLayers Sample.nobjnm_options)
                           (Nobjnm.filterField Sample.nobjnm_options)) " UNION ALL ")
        /\ Sql.run poDS
             (join (Nobjnm.sql_parts poDS (Nobjnm.level_of (filename entry))
                      (Nobjnm.targetLayers Sample.nobjnm_options)
                      (Nobjnm.filterField Sample.nobjnm_options)) " UNION ALL ")
           = Some rows
        /\ forall r,
             In r rows ->
             exists L l ft s,
               In L (Nobjnm.targetLayers Sample.nobjnm_options)
               /\ GetLayerByName poDS L = Some l /\ In ft (features l)
               /\ GetField ft (Nobjnm.filterField Sample.nobjnm_options) = Some s /\ s <> ""
               /\ LAYERS r = L
               /\ attr_name r = Nobjnm.filterField Sample.nobjnm_options
               /\ attr_value r = VText s).
Proof.
  destruct C2_null_and_empty_filtered as (_ & _ & _ & _ & _ & Hdepth & Hnobjnm).
  split.
  - apply (Hdepth Sample.world Sample.depth_options Sample.three_cells (Some [])
             (firstn 21 (events Sample.depth_run)) "/out" Sample.second_argv true
             (skipn 22 (events Sample.depth_run))).
    reflexivity.
  - apply (Hnobjnm Sample.world Sample.nobjnm_options
             {| entries := [Sample.cell "/in/" "C1313100.000"]; throws := false |} None
             (firstn 9 (events Sample.nobjnm_run)) "/out" Sample.nobjnm_argv true
             (skipn 10 (events Sample.nobjnm_run))).
    + reflexivity.
    + reflexivity.
    + intros entry [<-|[]]. discriminate.
    + reflexivity.
Defined.

(** ** C3: the constant rule of the land layer *)

(** C3.  In [depth.cpp], when the dataset has the land layer LNDARE, the
    first fragment is the land fragment: it selects the constant
    CAST(-1 AS REAL) as DEPTH and has no WHERE clause, so every feature
    of the layer yields one row, tagged LNDARE, whose DEPTH is that
    constant whatever the feature's fields hold. *)
Theorem C3_constant_rule (poDS : GDALDataset) (l : OGRLayer) :
  GetLayerByName poDS "LNDARE" = Some l ->
  Depth.land_sql "LNDARE"
  = "SELECT ST_MakeValid(ST_SimplifyPreserveTopology(geometry, 0.00025)) AS WKT, 'LNDARE' AS LAYERS, CAST(-1 AS REAL) AS DEPTH FROM "
    ++ dq ++ "LNDARE" ++ dq
  /\ (exists rest, Depth.sql_parts poDS = Depth.land_sql "LNDARE" :: rest)
  /\ render (DepthPlan.land_stmt "LNDARE") = Depth.land_sql "LNDARE"
  /\ sel_where (DepthPlan.land_stmt "LNDARE") = None
  /\ exec_select poDS (DepthPlan.land_stmt "LNDARE")
     = Some (map (fun ft =>
                    {| WKT := ST_MakeValid
                                (ST_SimplifyPreserveTopology (Geometry (geometry ft))
                                   "0.00025");
                       LEVEL := None;
                       LAYERS := "LNDARE";
                       attr_name := "DEPTH";
                       attr_value := VCastReal (VLit "-1") |})
                 (features l)).
Proof.
  intros Hl.
  split; [reflexivity|].
  split.
  { rewrite depth_render_plan. unfold DepthPlan.plan.
    rewrite depth_all_target_layers. cbn [flat_map].
    unfold DepthPlan.stmts_of at 1. rewrite Hl. cbn [String.eqb Ascii.eqb Bool.eqb].
    rewrite map_app. cbn [map app]. rewrite depth_render_land.
    eexists. reflexivity. }
  split; [apply depth_render_land|].
  split; [reflexivity|].
  unfold exec_select. cbn [DepthPlan.land_stmt sel_from]. rewrite Hl.
  cbn [sel_where].
  assert (Hall : forall fts, filter (where_holds l None) fts = fts).
  { induction fts as [|ft fts IH]; simpl; [reflexivity | now rewrite IH]. }
  rewrite Hall. reflexivity.
Qed.

(** The sample cell with a land layer only: one fragment, one row. *)
Lemma C3_constant_rule_witness :
  Depth.sql_parts Sample.land_only = [Depth.land_sql "LNDARE"]
  /\ exec_select Sample.land_only (DepthPlan.land_stmt "LNDARE")
     = Some [ {| WKT := ST_MakeValid
                          (ST_SimplifyPreserveTopology
                             (Geometry "POLYGON ((0 0,0 1,1 1,0 0))") "0.00025");
                 LEVEL := None;
                 LAYERS := "LNDARE";
                 attr_name := "DEPTH";
                 attr_value := VCastReal (VLit "-1") |} ].
Proof.
  split; [reflexivity|].
  exact (proj2 (proj2 (proj2 (proj2
           (C3_constant_rule Sample.land_only
              (Sample.layer ["OBJNAM"]
                 [Sample.feature "POLYGON ((0 0,0 1,1 1,0 0))" [("OBJNAM", Some "Isle")]])
              eq_refl))))).
Defined.

(** ** C1: the field check *)




(** ** C4: the first-write flag and append mode *)

Lemma some_export_succeeded_iff (tr : list event) :
  some_export_succeeded tr = true <-> exists d argv, In (Translate d argv true) tr.
Proof.
  unfold some_export_succeeded, translate_calls. rewrite existsb_exists. split.
  - intros ([[d argv] ok] & Hin & Hok). unfold succeeded in Hok. simpl in Hok. subst ok.
    apply in_flat_map in Hin as (e & He & Hc).
    destruct e; try contradiction. destruct Hc as [Hc|[]]. inversion Hc; subst. eauto.
  - intros (d & argv & Hin). exists (d, argv, true). split; [|reflexivity].
    apply in_flat_map. exists (Translate d argv true). split; [exact Hin | now left].
Qed.

Lemma flag_at_exit_accepted (W : World) (inv : invocation) (scan : Scan)
    (fs0 : option (Content W)) (b : bool) :
  flag_at_exit (execute W inv scan fs0) = Some b ->
  b = negb (some_export_succeeded (events (execute W inv scan fs0))).
Proof.
  intros Hflag. unfold some_export_succeeded. rewrite translate_calls_events.
  destruct (reaches_loop W inv fs0) eqn:Hr.
  - destruct (reaches_loop_accepted W inv fs0 Hr) as (dir & name & Ho & Hc).
    rewrite (execute_accepted W inv scan fs0 dir name Ho Hc) in Hflag.
    cbn [flag_at_exit] in Hflag. inversion Hflag as [Hb].
    destruct (loop_of_spec W inv dir name Ho) as (body & argv_of & Hloop & Hstep & _).
    rewrite Hloop.
    now rewrite (for_each_flag body dir name argv_of (query_of W inv) Hstep).
  - destruct (execute_short W inv scan fs0 Hr) as (_ & _ & _ & Hnone). congruence.
Qed.

(** C4.  In every run the flag is true exactly as long as no export of
    the run has succeeded: the value it has at exit is the negation of
    ``some export call succeeded'', for every scan, hence after every
    prefix of a scan; it starts true, and a failed export leaves it as it
    was.  An export call carries [-append] iff an earlier export call of
    the same run succeeded, and every export call (appending or not) is
    made on the output directory with the output name of the command
    line. *)
Theorem C4_first_write_flag (W : World) (inv : invocation) (scan : Scan)
    (fs0 : option (Content W)) :
  (forall b,
      flag_at_exit (execute W inv scan fs0) = Some b ->
      b = negb (some_export_succeeded (events (execute W inv scan fs0)))
      /\ (entries scan = [] -> b = true))
  /\ (forall pre d argv ok post,
        events (execute W inv scan fs0) = (pre ++ Translate d argv ok :: post)%list ->
        exists dir name v,
          output_of inv = Some (dir, name)
          /\ d = dir
          /\ decode argv = Some v
          /\ vt_nln v = Some name
          /\ (vt_append v = true <-> exists d' argv', In (Translate d' argv' true) pre)).
Proof.
  split.
  - intros b Hb. split; [now apply flag_at_exit_accepted|].
    intros Hnil. rewrite (flag_at_exit_accepted W inv scan fs0 b Hb).
    unfold some_export_succeeded. rewrite translate_calls_events.
    destruct (reaches_loop W inv fs0); [|reflexivity].
    destruct inv as [[|[|] [o|]]|[|[|] [o|]]]; cbn [loop_of]; try rewrite Hnil; reflexivity.
  - intros pre d argv ok post Hev.
    destruct (export_call W inv scan fs0 pre d argv ok post Hev)
      as (dir & name & entry & q & Ho & Hd & _ & _ & Hdec).
    exists dir, name. eexists. split; [exact Ho|]. split; [exact Hd|].
    split; [exact Hdec|]. split; [reflexivity|].
    cbn [vt_append]. apply some_export_succeeded_iff.
Qed.

(** The sample depth run: the first export of the run succeeded, the
    second one carries [-append], goes to the same directory under the
    same name, and the flag is false at exit. *)
Lemma C4_first_write_flag_witness :
  flag_at_exit Sample.depth_run = Some false
  /\ exists dir name v,
       output_of (DepthCmd (Parsed false (Some Sample.depth_options))) = Some (dir, name)
       /\ "/out" = dir
       /\ decode Sample.second_argv = Some v
       /\ vt_nln v = Some name
       /\ (vt_append v = true
           <-> exists d' argv',
                 In (Translate d' argv' true) (firstn 21 (events Sample.depth_run))).
Proof.
  split.
  - pose proof (proj1 (C4_first_write_flag Sample.world
                         (DepthCmd (Parsed false (Some Sample.depth_options)))
                         Sample.three_cells (Some [])) false eq_refl) as [H _].
    reflexivity.
  - apply (proj2 (C4_first_write_flag Sample.world
                    (DepthCmd (Parsed false (Some Sample.depth_options)))
                    Sample.three_cells (Some []))
             (firstn 21 (events Sample.depth_run)) "/out" Sample.second_argv true
             (skipn 22 (events Sample.depth_run))).
    reflexivity.
Defined.

(** ** C5: the destination at the start of a run *)

(** C5, as the claim states it, fails: the programs delete the
    destination but never create it.  A run over an empty input tree
    finds the destination, deletes it, exits with code 0 and leaves no
    destination; a run that only prints the usage deletes nothing; and
    when the removal throws, the exception is not caught: the run ends
    without an exit code and the destination is still there. *)
Lemma C5_counterexample :
  (exit_code (execute Sample.world (DepthCmd (Parsed false (Some Sample.depth_options)))
                Sample.no_cells (Some [["old"]])) = Some 0%Z
   /\ destination_after
        (execute Sample.world (DepthCmd (Parsed false (Some Sample.depth_options)))
           Sample.no_cells (Some [["old"]])) = None)
  /\ destination_after
       (execute Sample.world (DepthCmd (Parsed true None)) Sample.no_cells (Some [["old"]]))
     = Some [["old"]]
  /\ exit_code
       (execute Sample.stuck_world (DepthCmd (Parsed false (Some Sample.depth_options)))
          Sample.three_cells (Some [["old"]]))
     = None
  /\ destination_after
       (execute Sample.stuck_world (DepthCmd (Parsed false (Some Sample.depth_options)))
          Sample.three_cells (Some [["old"]]))
     = Some [["old"]].
Proof. repeat split; reflexivity. Qed.

(** C5, amended.  In a run whose command line is accepted, the check
    for the destination and its removal come before the [try] block and
    before any cell file is opened.  When both end without an exception,
    an existing destination is deleted whole: the trace starts with the
    registration, the removal message and the removal, and all that
    follows is what the same run does when no destination existed, with
    the same destination at exit and the same exit code; so nothing of a
    prior run survives.  The program does not create the destination
    itself: it exists at exit only if an export was called.  When the
    check or the removal throws, the exception is not caught: the run
    ends there without an exit code, no file is opened, and the
    destination is what the failed removal left of it. *)
Theorem C5_destination_reset (W : World) (inv : invocation) (scan : Scan)
    (c : Content W) (dir name : string) :
  output_of inv = Some (dir, name) ->
  (clears W dir (Some c) = true ->
   exists rest,
     events (execute W inv scan (Some c))
     = ([AllRegister; SetConfigOption "OGR_WKT_PRECISION" "8";
         Log Cout (MsgRemovedOld dir); RemoveAll dir] ++ rest)%list
     /\ events (execute W inv scan None)
        = ([AllRegister; SetConfigOption "OGR_WKT_PRECISION" "8"] ++ rest)%list
     /\ destination_after (execute W inv scan (Some c))
        = destination_after (execute W inv scan None)
     /\ exit_code (execute W inv scan (Some c)) = exit_code (execute W inv scan None)
     /\ exit_code (execute W inv scan (Some c)) <> None
     /\ (translate_calls rest = [] -> destination_after (execute W inv scan (Some c)) = None))
  /\ (clears W dir (Some c) = false ->
      exit_code (execute W inv scan (Some c)) = None
      /\ events (execute W inv scan (Some c))
         = ([AllRegister; SetConfigOption "OGR_WKT_PRECISION" "8"]
            ++ if fs_exists_throws W dir then []
               else [Log Cout (MsgRemovedOld dir); RemoveAll dir])%list
      /\ destination_after (execute W inv scan (Some c))
         = (if fs_exists_throws W dir then Some c
            else match fs_remove_all W dir c with
                 | Removed => None
                 | RemovalThrows kept => kept
                 end)).
Proof.
  intros Ho. split.
  - intros Hc.
    assert (Hn : clears W dir None = true).
    { unfold clears in *. apply andb_true_iff in Hc as [-> _]. reflexivity. }
    rewrite (execute_accepted W inv scan _ dir name Ho Hc).
    rewrite (execute_accepted W inv scan _ dir name Ho Hn).
    destruct (prepare_output_clears W dir _ Hc) as [_ ->].
    destruct (prepare_output_clears W dir _ Hn) as [_ ->].
    cbn [events destination_after exit_code].
    eexists. split; [reflexivity|]. split; [reflexivity|]. split; [reflexivity|].
    split; [reflexivity|]. split; [discriminate|].
    cbn [app]. rewrite translate_calls_app. intros H. apply app_eq_nil in H as [H _].
    destruct (loop_of_spec W inv dir name Ho) as (body & argv_of & Hloop & Hstep & _).
    rewrite Hloop in *.
    now rewrite (for_each_untouched body dir name argv_of (query_of W inv) Hstep _ _ H).
  - intros Hc. rewrite (execute_uncaught W inv scan _ dir name Ho Hc).
    cbn [exit_code events destination_after]. split; [reflexivity|].
    unfold clears in Hc. unfold prepare_output.
    destruct (fs_exists_throws W dir); [split; reflexivity|].
    destruct (fs_remove_all W dir c); [discriminate | split; reflexivity].
Qed.

(** The sample depth run starts by deleting the old destination, and what
    it leaves holds the two option vectors written by this run only; in
    the world where the removal throws the same run ends at once and the
    old destination stays. *)
Lemma C5_destination_reset_witness :
  (exists rest,
     events (execute Sample.world (DepthCmd (Parsed false (Some Sample.depth_options)))
               Sample.three_cells (Some [["old"]]))
     = ([AllRegister; SetConfigOption "OGR_WKT_PRECISION" "8";
         Log Cout (MsgRemovedOld "/out"); RemoveAll "/out"] ++ rest)%list
     /\ events (execute Sample.world (DepthCmd (Parsed false (Some Sample.depth_options)))
                  Sample.three_cells None)
        = ([AllRegister; SetConfigOption "OGR_WKT_PRECISION" "8"] ++ rest)%list
     /\ destination_after
          (execute Sample.world (DepthCmd (Parsed false (Some Sample.depth_options)))
             Sample.three_cells (Some [["old"]]))
        = destination_after
            (execute Sample.world (DepthCmd (Parsed false (Some Sample.depth_options)))
               Sample.three_cells None)
     /\ exit_code
          (execute Sample.world (DepthCmd (Parsed false (Some Sample.depth_options)))
             Sample.three_cells (Some [["old"]]))
        = exit_code
            (execute Sample.world (DepthCmd (Parsed false (Some Sample.depth_options)))
               Sample.three_cells None)
     /\ exit_code
          (execute Sample.world (DepthCmd (Parsed false (Some Sample.depth_options)))
             Sample.three_cells (Some [["old"]]))
        <> None
     /\ (translate_calls rest = [] ->
         destination_after
           (execute Sample.world (DepthCmd (Parsed false (Some Sample.depth_options)))
              Sample.three_cells (Some [["old"]]))
         = None))
  /\ (exit_code
        (execute Sample.stuck_world (DepthCmd (Parsed false (Some Sample.depth_options)))
           Sample.three_cells (Some [["old"]]))
      = None
      /\ events
           (execute Sample.stuck_world (DepthCmd (Parsed false (Some Sample.depth_options)))
              Sample.three_cells (Some [["old"]]))
         = [AllRegister; SetConfigOption "OGR_WKT_PRECISION" "8";
            Log Cout (MsgRemovedOld "/out"); RemoveAll "/out"]
      /\ destination_after
           (execute Sample.stuck_world (DepthCmd (Parsed false (Some Sample.depth_options)))
              Sample.three_cells (Some [["old"]]))
         = Some [["old"]]).
Proof.
  split.
  - apply (proj1 (C5_destination_reset Sample.world
                    (DepthCmd (Parsed false (Some Sample.depth_options)))
                    Sample.three_cells [["old"]] "/out" "depth" eq_refl)).
    reflexivity.
  - apply (proj2 (C5_destination_reset Sample.stuck_world
                    (DepthCmd (Parsed false (Some Sample.depth_options)))
                    Sample.three_cells [["old"]] "/out" "depth" eq_refl)).
    reflexivity.
Defined.

(** ** Entries that are not cell files *)

Lemma depth_non_cell_skipped (W : World) (o : Depth.Options) (st : RunState W)
    (entry : dir_entry) :
  is_cell_file entry = false -> Depth.process_entry W o st entry = (st, []).
Proof. unfold is_cell_file, Depth.process_entry. now intros ->. Qed.

Lemma nobjnm_non_cell_skipped (W : World) (o : Nobjnm.Options) (st : RunState W)
    (entry : dir_entry) :
  is_cell_file entry = false -> Nobjnm.process_entry W o st entry = (st, []).
Proof. unfold is_cell_file, Nobjnm.process_entry. now intros ->. Qed.

Lemma for_each_cells_only {W : World}
    (body : RunState W -> dir_entry -> RunState W * list event) :
  (forall st entry, is_cell_file entry = false -> body st entry = (st, [])) ->
  forall l st, for_each body l st = for_each body (filter is_cell_file l) st.
Proof.
  intros Hskip. induction l as [|entry l IH]; intros st; [reflexivity|].
  cbn [filter]. destruct (is_cell_file entry) eqn:Hc.
  - cbn [for_each]. destruct (body st entry) as [st1 ev1]. now rewrite IH.
  - cbn [for_each]. rewrite (Hskip st entry Hc), IH.
    now destruct (for_each body (filter is_cell_file l) st).
Qed.

Lemma loop_of_cells_only (W : World) (inv : invocation) (scan : Scan) :
  loop_of W inv scan = loop_of W inv (cells_only scan).
Proof.
  destruct inv as [[|[|] [o|]]|[|[|] [o|]]]; try reflexivity; cbn [loop_of cells_only entries].
  - apply for_each_cells_only. intros. now apply depth_non_cell_skipped.
  - apply for_each_cells_only. intros. now apply nobjnm_non_cell_skipped.
Qed.

(** ** The trace of the loop, file by file *)

(** The trace of the loop is made of one block per entry. *)
Lemma for_each_blocks {W : World}
    (body : RunState W -> dir_entry -> RunState W * list event)
    (outDir outName : string) (argv_of : bool -> string -> string -> list string)
    (query : dir_entry -> string -> Prop) :
  (forall st entry, step_spec body outDir outName argv_of query st entry) ->
  forall l st,
    exists blocks,
      snd (for_each body l st) = List.concat blocks
      /\ Forall2 (fun entry block =>
                    processing_lines block
                    = (if is_cell_file entry then [path_string entry] else [])
                    /\ List.length (terminals block)
                       = (if is_cell_file entry then 1%nat else 0%nat))
                 l blocks.
Proof.
  intros Hstep. induction l as [|entry l IH]; intros st.
  - exists []. split; [reflexivity | constructor].
  - cbn [for_each]. destruct (Hstep st entry) as (Hp & Ht & _).
    destruct (body st entry) as [st1 ev1]. destruct (IH st1) as (blocks & Hb & HF).
    destruct (for_each body l st1) as [st2 ev2]. cbn [snd] in *.
    exists (ev1 :: blocks). split; [cbn [List.concat]; now rewrite Hb|].
    constructor; auto.
Qed.

Lemma cell_blocks (l : list dir_entry) (blocks : list (list event)) :
  Forall2 (fun entry block =>
             processing_lines block
             = (if is_cell_file entry then [path_string entry] else [])
             /\ List.length (terminals block)
                = (if is_cell_file entry then 1%nat else 0%nat))
          l blocks ->
  Forall (fun entry => is_cell_file entry = true) l ->
  Forall2 (fun entry block =>
             processing_lines block = [path_string entry]
             /\ exists t, terminals block = [t])
          l blocks.
Proof.
  induction 1 as [|entry block l blocks [Hp Ht] HF IH]; intros Hcells; [constructor|].
  inversion Hcells as [|? ? Hc Hrest]; subst. rewrite Hc in Hp, Ht.
  constructor; [|now apply IH]. split; [exact Hp|].
  destruct (terminals block) as [|t [|t' ts]]; try discriminate. now exists t.
Qed.

(** An accepted run that clears its destination: between what comes
    before the loop and the closing line, one block per cell file of the
    scan, in scan order, each with the line that announces the file and
    with one terminal mark. *)
Lemma run_blocks (W : World) (inv : invocation) (scan : Scan) (fs0 : option (Content W)) :
  reaches_loop W inv fs0 = true ->
  exists pre blocks,
    events (execute W inv scan fs0) = (pre ++ List.concat blocks ++ [closing scan])%list
    /\ processing_lines pre = [] /\ terminals pre = []
    /\ Forall2 (fun entry block =>
                  processing_lines block = [path_string entry]
                  /\ exists t, terminals block = [t])
               (filter is_cell_file (entries scan)) blocks.
Proof.
  intros Hr. destruct (reaches_loop_accepted W inv fs0 Hr) as (dir & name & Ho & Hc).
  rewrite (execute_accepted W inv scan fs0 dir name Ho Hc). cbn [events].
  destruct (loop_of_spec W inv dir name Ho) as (body & argv_of & Hloop & Hstep & _).
  rewrite loop_of_cells_only, Hloop. cbn [cells_only entries].
  destruct (for_each_blocks body dir name argv_of (query_of W inv) Hstep
              (filter is_cell_file (entries scan))
              {| isFirstWrite := true; destination := None |}) as (blocks & -> & HF).
  exists ([AllRegister; SetConfigOption "OGR_WKT_PRECISION" "8"]
          ++ said (prepare_output (W := W) dir fs0))%list, blocks.
  split; [now rewrite <- app_assoc|].
  destruct (prepare_output_clears W dir fs0 Hc) as [_ ->].
  split; [now destruct fs0|]. split; [now destruct fs0|].
  apply cell_blocks; [exact HF|].
  apply Forall_forall. intros entry He. now apply filter_In in He.
Qed.

(** ** C7: per-file problems and the exit code *)

Lemma accepted_run_marks (W : World) (inv : invocation) (scan : Scan)
    (fs0 : option (Content W)) :
  reaches_loop W inv fs0 = true ->
  processing_lines (events (execute W inv scan fs0))
  = map path_string (filter is_cell_file (entries scan))
  /\ List.length (terminals (events (execute W inv scan fs0)))
     = List.length (filter is_cell_file (entries scan)).
Proof.
  intros Hr. destruct (reaches_loop_accepted W inv fs0 Hr) as (dir & name & Ho & Hc).
  rewrite (execute_accepted W inv scan fs0 dir name Ho Hc). cbn [events].
  destruct (loop_of_spec W inv dir name Ho) as (body & argv_of & Hloop & Hstep & _).
  rewrite !processing_lines_app, !terminals_app, !length_app, Hloop.
  rewrite (for_each_processing body dir name argv_of (query_of W inv) Hstep).
  rewrite (for_each_terminals body dir name argv_of (query_of W inv) Hstep).
  destruct (prepare_output_clears W dir fs0 Hc) as [_ ->].
  destruct fs0; destruct (throws scan); simpl; rewrite ?app_nil_r; split; auto with arith.
Qed.

Lemma exit_code_by_reception (W : World) (inv : invocation) (scan : Scan)
    (fs0 : option (Content W)) :
  exit_code (execute W inv scan fs0)
  = match reception_of inv with
    | Help => Some 0%Z
    | Rejected => Some 1%Z
    | Accepted =>
        if reaches_loop W inv fs0 then Some (if throws scan then 1%Z else 0%Z) else None
    end.
Proof.
  destruct (output_of inv) as [[dir name]|] eqn:Ho.
  - assert (Hacc : reception_of inv = Accepted) by (apply output_of_accepted; eauto).
    rewrite Hacc. unfold reaches_loop. rewrite Ho.
    destruct (clears W dir fs0) eqn:Hc.
    + now rewrite (execute_accepted W inv scan fs0 dir name Ho Hc).
    + now rewrite (execute_uncaught W inv scan fs0 dir name Ho Hc).
  - destruct inv as [[|[|] [o|]]|[|[|] [o|]]]; try discriminate; reflexivity.
Qed.

(** C7.  The exit code depends on the command line and on the
    traversal only, never on what happens to a cell file: it is 1
    exactly when the command line is rejected or the traversal throws, 0
    exactly for the help text and for a run whose scan completes.  (A
    run ends without an exit code exactly when its command line is
    accepted and the check for the destination or its removal throws,
    before the loop.)  In a run that gets to the loop, whatever the
    files do (failed open, no fragment, options refused, export failed),
    the trace of the loop is one block per cell file of the scan, in
    scan order; each block announces its file and has exactly one
    terminal mark, and the next file follows. *)
Theorem C7_per_file_problems (W : World) (inv : invocation) (scan : Scan)
    (fs0 : option (Content W)) :
  (exit_code (execute W inv scan fs0) = Some 1%Z
   <-> reception_of inv = Rejected
       \/ (reception_of inv = Accepted /\ reaches_loop W inv fs0 = true
           /\ throws scan = true))
  /\ (exit_code (execute W inv scan fs0) = Some 0%Z
      <-> reception_of inv = Help
          \/ (reception_of inv = Accepted /\ reaches_loop W inv fs0 = true
              /\ throws scan = false))
  /\ (exit_code (execute W inv scan fs0) = None
      <-> reception_of inv = Accepted /\ reaches_loop W inv fs0 = false)
  /\ (reaches_loop W inv fs0 = true ->
      (exists pre blocks,
          events (execute W inv scan fs0) = (pre ++ List.concat blocks ++ [closing scan])%list
          /\ processing_lines pre = [] /\ terminals pre = []
          /\ Forall2 (fun entry block =>
                        processing_lines block = [path_string entry]
                        /\ exists t, terminals block = [t])
                     (filter is_cell_file (entries scan)) blocks)
      /\ processing_lines (events (execute W inv scan fs0))
         = map path_string (filter is_cell_file (entries scan))
      /\ List.length (terminals (events (execute W inv scan fs0)))
         = List.length (filter is_cell_file (entries scan))).
Proof.
  rewrite exit_code_by_reception.
  split; [|split; [|split]].
  - destruct (reception_of inv); [| |destruct (reaches_loop W inv fs0); [destruct (throws scan)|]];
      split; try discriminate; auto;
      try (intros [H|(H1 & H2 & H3)]; discriminate).
  - destruct (reception_of inv); [| |destruct (reaches_loop W inv fs0); [destruct (throws scan)|]];
      split; try discriminate; auto;
      try (intros [H|(H1 & H2 & H3)]; discriminate).
  - destruct (reception_of inv); [| |destruct (reaches_loop W inv fs0); [destruct (throws scan)|]];
      split; try discriminate; auto;
      try (intros [H1 H2]; discriminate).
  - intros Hr. split; [now apply run_blocks | now apply accepted_run_marks].
Qed.

(** The sample depth run: one file does not open, one has no target
    layer, two are exported; all four are announced and the exit code
    is 0. *)
Lemma C7_per_file_problems_witness :
  exit_code Sample.depth_run = Some 0%Z
  /\ processing_lines (events Sample.depth_run)
     = ["/bad/XX.000"; "/in/US5XX01M.000"; "/in/EMPTY.000"; "/in/C1513170.000"]
  /\ terminals (events Sample.depth_run)
     = [SkippedOpenFailure; Exported; SkippedEmpty; Exported]
  /\ exists pre blocks,
       events Sample.depth_run = (pre ++ List.concat blocks ++ [closing Sample.three_cells])%list
       /\ processing_lines pre = [] /\ terminals pre = []
       /\ Forall2 (fun entry block =>
                     processing_lines block = [path_string entry]
                     /\ exists t, terminals block = [t])
                  (filter is_cell_file (entries Sample.three_cells)) blocks.
Proof.
  pose proof (C7_per_file_problems Sample.world
                (DepthCmd (Parsed false (Some Sample.depth_options)))
                Sample.three_cells (Some [])) as (_ & H0 & _ & Hmarks).
  split.
  - apply H0. right. repeat split; reflexivity.
  - split.
    + exact (proj1 (proj2 (Hmarks eq_refl))).
    + split; [reflexivity|]. exact (proj1 (Hmarks eq_refl)).
Defined.

(** ** C6: what a run returns *)

Lemma tally_total (ts : list terminal) :
  (List.length (filter is_exported ts) + List.length (filter is_skipped ts)
   + List.length (filter is_failed ts))%nat
  = List.length ts.
Proof.
  induction ts as [|t ts IH]; [reflexivity|].
  destruct t; simpl; lia.
Qed.

(** C6, as the claim states it, fails: [main] returns an [int] and the
    only variable of a run is the flag.  A run over an empty tree and a
    run over a tree whose one cell file does not open return the same
    code and leave the same flag, yet no file was skipped in the first
    and one in the second: no report of counts can be read from what a
    run returns or keeps. *)
Lemma C6_counterexample :
  ~ exists report : option Z * option bool -> nat * nat * nat,
      forall (W : World) inv scan fs0,
        reception_of inv = Accepted ->
        report (exit_code (execute W inv scan fs0), flag_at_exit (execute W inv scan fs0))
        = tally (events (execute W inv scan fs0)).
Proof.
  intros [report H].
  pose proof (H Sample.world (DepthCmd (Parsed false (Some Sample.depth_options)))
                Sample.no_cells None eq_refl) as H1.
  pose proof (H Sample.world (DepthCmd (Parsed false (Some Sample.depth_options)))
                {| entries := [Sample.cell "/bad/" "XX.000"]; throws := false |}
                None eq_refl) as H2.
  vm_compute in H1, H2. rewrite H1 in H2. discriminate.
Qed.

(** C6, amended.  [main] returns the exit code only, 0 or 1 (or the run
    is ended by an exception of the destination's removal, without a
    code), and keeps no counters.  What happened to the files shows in
    the trace alone: in a run that gets to the loop, the trace of the
    loop is one block per cell file of the scan, in scan order, and each
    block holds the line that announces its file and exactly one
    terminal mark (warning of a failed open, line of an empty plan, one
    of the two error lines, or a successful export call); so the
    numbers of exported, skipped and failed files read off the trace add
    up to the number of cell files scanned. *)
Theorem C6_exit_code_only (W : World) (inv : invocation) (scan : Scan)
    (fs0 : option (Content W)) :
  (exit_code (execute W inv scan fs0) = Some 0%Z
   \/ exit_code (execute W inv scan fs0) = Some 1%Z
   \/ exit_code (execute W inv scan fs0) = None)
  /\ (reaches_loop W inv fs0 = true ->
      (exists pre blocks,
          events (execute W inv scan fs0) = (pre ++ List.concat blocks ++ [closing scan])%list
          /\ processing_lines pre = [] /\ terminals pre = []
          /\ Forall2 (fun entry block =>
                        processing_lines block = [path_string entry]
                        /\ exists t, terminals block = [t])
                     (filter is_cell_file (entries scan)) blocks)
      /\ (fst (fst (tally (events (execute W inv scan fs0))))
          + snd (fst (tally (events (execute W inv scan fs0))))
          + snd (tally (events (execute W inv scan fs0))))%nat
         = List.length (filter is_cell_file (entries scan))).
Proof.
  split.
  - rewrite exit_code_by_reception.
    destruct (reception_of inv);
      [| |destruct (reaches_loop W inv fs0); [destruct (throws scan)|]]; auto.
  - intros Hr. split; [now apply run_blocks|].
    unfold tally. cbn [fst snd]. rewrite tally_total.
    apply (accepted_run_marks W inv scan fs0 Hr).
Qed.

(** The sample depth run: two files exported, two skipped, none failed,
    out of the four cell files of the scan. *)
Lemma C6_exit_code_only_witness :
  tally (events Sample.depth_run) = (2, 2, 0)%nat
  /\ (exists pre blocks,
         events Sample.depth_run = (pre ++ List.concat blocks ++ [closing Sample.three_cells])%list
         /\ processing_lines pre = [] /\ terminals pre = []
         /\ Forall2 (fun entry block =>
                       processing_lines block = [path_string entry]
                       /\ exists t, terminals block = [t])
                    (filter is_cell_file (entries Sample.three_cells)) blocks)
  /\ (fst (fst (tally (events Sample.depth_run)))
      + snd (fst (tally (events Sample.depth_run)))
      + snd (tally (events Sample.depth_run)))%nat
     = List.length (filter is_cell_file (entries Sample.three_cells)).
Proof.
  split; [reflexivity|].
  exact (proj2 (C6_exit_code_only Sample.world
                  (DepthCmd (Parsed false (Some Sample.depth_options)))
                  Sample.three_cells (Some []))
           eq_refl).
Defined.

(** ** C9: geometry as text, and the dimension switch *)




(** * Further properties of the two programs *)

(** ** A run sees its cell files only *)

(** X1.  Entries whose extension is not [.000] leave no trace: a run
    does, returns and leaves exactly what it does on the cell files of
    its scan alone. *)
Theorem X1_other_files_ignored (W : World) (inv : invocation) (scan : Scan)
    (fs0 : option (Content W)) :
  execute W inv scan fs0 = execute W inv (cells_only scan) fs0.
Proof.
  destruct (output_of inv) as [[dir name]|] eqn:Ho.
  - destruct (clears W dir fs0) eqn:Hc.
    + rewrite !(execute_accepted W inv _ fs0 dir name Ho Hc).
      rewrite <- loop_of_cells_only. reflexivity.
    + now rewrite !(execute_uncaught W inv _ fs0 dir name Ho Hc).
  - destruct inv as [[|[|] [o|]]|[|[|] [o|]]]; try discriminate; reflexivity.
Qed.

(** ** Opening the cell files *)

(** A reading of a trace that sees nothing in a message is empty on
    the messages of the layer loops. *)
Lemma notes_unseen {A : Type} (g : event -> list A) (tr : list event) :
  (forall s m, g (Log s m) = []) ->
  forallb is_layer_note tr = true -> flat_map g tr = [].
Proof.
  intros Hg. induction tr as [|e tr IH]; simpl; [reflexivity|].
  intros H; apply andb_prop in H as [He Htr]. rewrite (IH Htr), app_nil_r.
  destruct e; try discriminate. apply Hg.
Qed.

(** A reading of the loop's trace is put together from the readings of
    the turns, when a turn's reading does not depend on the state. *)
Lemma for_each_reading {W : World} {A : Type}
    (body : RunState W -> dir_entry -> RunState W * list event)
    (g : event -> list A) (h : dir_entry -> list A) :
  (forall st entry, flat_map g (snd (body st entry)) = h entry) ->
  forall l st, flat_map g (snd (for_each body l st)) = flat_map h l.
Proof.
  intros Hstep. induction l as [|entry l IH]; intros st; [reflexivity|].
  cbn [for_each flat_map]. specialize (Hstep st entry).
  destruct (body st entry) as [st1 ev1]. specialize (IH st1).
  destruct (for_each body l st1) as [st2 ev2]. cbn [snd] in *.
  now rewrite flat_map_app, Hstep, IH.
Qed.

Lemma depth_opens_step (W : World) (o : Depth.Options) (st : RunState W)
    (entry : dir_entry) :
  opens (snd (Depth.process_entry W o st entry))
  = if is_cell_file entry then [(path_string entry, Depth.papszOpenOptions)] else [].
Proof.
  unfold Depth.process_entry, is_cell_file.
  destruct (extension entry =? ".000"); [|reflexivity].
  destruct (GDALOpenEx W (path_string entry) Depth.papszOpenOptions) as [poDS|];
    [|reflexivity].
  rewrite depth_build_sql_parts. cbn [fst snd].
  pose proof (notes_unseen
                (fun e => match e with OpenEx f oo _ => [(f, oo)] | _ => [] end)
                _ (fun _ _ => eq_refl)
                (depth_notes_are_notes poDS Depth.all_target_layers)) as Hn.
  destruct (map render (DepthPlan.plan poDS)) as [|p ps].
  - cbn [snd]. unfold opens. rewrite !flat_map_app, Hn. reflexivity.
  - destruct (GDALVectorTranslateOptionsNew W _).
    + destruct (GDALVectorTranslate W _ _ _ _) as [[|] fs']; cbn [snd];
        unfold opens; rewrite !flat_map_app, Hn; reflexivity.
    + cbn [snd]. unfold opens. rewrite !flat_map_app, Hn. reflexivity.
Qed.

Lemma nobjnm_opens_step (W : World) (o : Nobjnm.Options) (st : RunState W)
    (entry : dir_entry) :
  opens (snd (Nobjnm.process_entry W o st entry))
  = if is_cell_file entry then [(path_string entry, [])] else [].
Proof.
  unfold Nobjnm.process_entry, is_cell_file.
  destruct (extension entry =? ".000"); [|reflexivity].
  destruct (GDALOpenEx W (path_string entry) []) as [poDS|]; [|reflexivity].
  rewrite nobjnm_build_sql_parts. cbn [fst snd].
  pose proof (notes_unseen
                (fun e => match e with OpenEx f oo _ => [(f, oo)] | _ => [] end)
                _ (fun _ _ => eq_refl)
                (nobjnm_notes_are_notes poDS (Nobjnm.filterField o) (Nobjnm.targetLayers o)))
    as Hn.
  destruct (map render (NobjnmPlan.plan poDS _ _ _)) as [|p ps].
  - cbn [snd]. unfold opens. rewrite !flat_map_app, Hn. reflexivity.
  - destruct (GDALVectorTranslateOptionsNew W (Nobjnm.translate_argv _ _ _)).
    + destruct (GDALVectorTranslate W _ _ _ _) as [[|] fs']; cbn [snd];
        unfold opens; rewrite !flat_map_app, Hn; reflexivity.
    + cbn [snd]. unfold opens. rewrite !flat_map_app, Hn. reflexivity.
Qed.

Lemma flat_map_cells {A : Type} (f : dir_entry -> A) (l : list dir_entry) :
  flat_map (fun entry => if is_cell_file entry then [f entry] else []) l
  = map f (filter is_cell_file l).
Proof.
  induction l as [|entry l IH]; [reflexivity|].
  cbn [flat_map filter]. rewrite IH. now destruct (is_cell_file entry).
Qed.

(** A run that does not get to the loop opens nothing. *)
Lemma short_run_opens (W : World) (inv : invocation) (scan : Scan)
    (fs0 : option (Content W)) :
  reaches_loop W inv fs0 = false -> opens (events (execute W inv scan fs0)) = [].
Proof.
  unfold reaches_loop. intros Hr.
  destruct (output_of inv) as [[dir name]|] eqn:Ho.
  - rewrite (execute_uncaught W inv scan fs0 dir name Ho Hr). cbn [events].
    unfold prepare_output.
    destruct (fs_exists_throws W dir); [reflexivity|].
    destruct fs0 as [c|]; [|reflexivity].
    destruct (fs_remove_all W dir c); reflexivity.
  - destruct inv as [[|[|] [o|]]|[|[|] [o|]]]; try discriminate; reflexivity.
Qed.

(** X2.  A run that gets to its loop opens each cell file of its scan
    exactly once, in scan order, and nothing else: [depth.cpp] with the
    open options SPLIT_MULTIPOINT=ON and ADD_SOUNDG_DEPTH=ON,
    [nobjnm.cpp] with none.  A failed open or a failed export is never
    tried again.  A run that stops at the command line, or that is ended
    by an exception of the check for the destination or of its removal,
    opens nothing. *)
Theorem X2_each_cell_opened_once (W : World) (inv : invocation) (scan : Scan)
    (fs0 : option (Content W)) :
  opens (events (execute W inv scan fs0))
  = if reaches_loop W inv fs0
    then map (fun entry => (path_string entry, open_options_of inv))
             (filter is_cell_file (entries scan))
    else [].
Proof.
  destruct (reaches_loop W inv fs0) eqn:Hr; [|now apply short_run_opens].
  destruct (reaches_loop_accepted W inv fs0 Hr) as (dir & name & Ho & Hc).
  rewrite (execute_accepted W inv scan fs0 dir name Ho Hc). cbn [events].
  unfold opens. rewrite !flat_map_app. fold (opens (snd (loop_of W inv scan))).
  assert (Hloop : opens (snd (loop_of W inv scan))
                  = map (fun entry => (path_string entry, open_options_of inv))
                      (filter is_cell_file (entries scan))).
  { rewrite <- flat_map_cells.
    destruct inv as [[|[|] [o|]]|[|[|] [o|]]]; try discriminate;
      cbn [loop_of open_options_of]; unfold opens; apply for_each_reading; intros.
    - apply depth_opens_step.
    - apply nobjnm_opens_step. }
  rewrite Hloop. destruct (prepare_output_clears W dir fs0 Hc) as [_ ->].
  destruct fs0; destruct (throws scan); simpl; now rewrite app_nil_r.
Qed.

(** ** The export calls *)

Lemma for_each_calls_bound {W : World}
    (body : RunState W -> dir_entry -> RunState W * list event)
    (outDir outName : string) (argv_of : bool -> string -> string -> list string)
    (query : dir_entry -> string -> Prop) :
  (forall st entry, step_spec body outDir outName argv_of query st entry) ->
  forall l st,
    (List.length (translate_calls (snd (for_each body l st))) <= List.length l)%nat.
Proof.
  intros Hstep. induction l as [|entry l IH]; intros st; [apply Nat.le_refl|].
  rewrite (for_each_cons body). cbn [snd]. rewrite translate_calls_app, length_app.
  specialize (IH (fst (body st entry))).
  destruct (Hstep st entry) as (_ & _ & [[Hc _] | (q & ok & _ & Hc & _)]);
    rewrite Hc; simpl; lia.
Qed.

Lemma translate_call_split (tr : list event) (call : string * list string * bool) :
  In call (translate_calls tr) ->
  exists pre post,
    tr = (pre ++ Translate (fst (fst call)) (snd (fst call)) (snd call) :: post)%list.
Proof.
  unfold translate_calls. intros Hin. apply in_flat_map in Hin as (e & He & Hc).
  destruct e; try contradiction. destruct Hc as [<-|[]].
  apply in_split in He as (pre & post & ->). exists pre, post. reflexivity.
Qed.

(** X3.  Every export call of a run asks for the CSV format and the
    SQLite dialect, with a query and an output name, and a cell file
    gives rise to at most one export call: there are never more export
    calls than cell files in the scan. *)
Theorem X3_exports_are_csv (W : World) (inv : invocation) (scan : Scan)
    (fs0 : option (Content W)) :
  Forall (fun call =>
            exists v q name,
              decode (snd (fst call)) = Some v
              /\ vt_format v = Some "CSV" /\ vt_dialect v = Some "SQLite"
              /\ vt_sql v = Some q /\ vt_nln v = Some name)
         (translate_calls (events (execute W inv scan fs0)))
  /\ (List.length (translate_calls (events (execute W inv scan fs0)))
      <= List.length (filter is_cell_file (entries scan)))%nat.
Proof.
  split.
  - apply Forall_forall. intros [[d argv] ok] Hin.
    apply translate_call_split in Hin as (pre & post & Hev). cbn [fst snd] in Hev.
    destruct (export_call W inv scan fs0 pre d argv ok post Hev)
      as (dir & name & entry & q & _ & _ & _ & _ & Hdec).
    eexists. exists q, name. split; [exact Hdec|]. repeat split.
  - rewrite translate_calls_events.
    destruct (reaches_loop W inv fs0) eqn:Hr; [|simpl; lia].
    destruct (reaches_loop_accepted W inv fs0 Hr) as (dir & name & Ho & _).
    rewrite loop_of_cells_only.
    destruct (loop_of_spec W inv dir name Ho) as (body & argv_of & Hloop & Hstep & _).
    rewrite Hloop. cbn [cells_only entries].
    apply (for_each_calls_bound body dir name argv_of (query_of W inv) Hstep).
Qed.

(** ** Runs without cell files *)

(** X4.  When the scan has no cell file (an empty tree, or only files
    of other extensions), an accepted run whose check for the
    destination and removal end without an exception registers the
    drivers, deletes an existing destination, prints its closing line
    and does nothing else: no file is opened, no export is called, no
    destination exists at exit, the flag is still true, and the exit
    code is 0 (1 when the traversal throws). *)
Theorem X4_no_cell_files (W : World) (inv : invocation) (scan : Scan)
    (fs0 : option (Content W)) (dir name : string) :
  output_of inv = Some (dir, name) ->
  clears W dir fs0 = true ->
  filter is_cell_file (entries scan) = [] ->
  execute W inv scan fs0
  = {| exit_code := Some (if throws scan then 1%Z else 0%Z);
       events := ([AllRegister; SetConfigOption "OGR_WKT_PRECISION" "8"]
                  ++ match fs0 with
                     | Some _ => [Log Cout (MsgRemovedOld dir); RemoveAll dir]
                     | None => []
                     end
                  ++ [closing scan])%list;
       destination_after := None;
       flag_at_exit := Some true |}.
Proof.
  intros Ho Hc Hnone.
  rewrite (execute_accepted W inv scan fs0 dir name Ho Hc), loop_of_cells_only.
  assert (Hloop : loop_of W inv (cells_only scan)
                  = ({| isFirstWrite := true; destination := None |}, [])).
  { destruct inv as [[|[|] [o|]]|[|[|] [o|]]]; try discriminate;
      cbn [loop_of cells_only entries]; now rewrite Hnone. }
  rewrite Hloop. destruct (prepare_output_clears W dir fs0 Hc) as [_ ->]. reflexivity.
Qed.

(** A tree with a text file only, the destination existing. *)
Lemma X4_no_cell_files_witness :
  execute Sample.world (DepthCmd (Parsed false (Some Sample.depth_options)))
    {| entries := [ {| path_string := "/in/README.txt"; filename := "README.txt";
                       extension := ".txt" |} ];
       throws := false |} (Some [["old"]])
  = {| exit_code := Some 0%Z;
       events := [AllRegister; SetConfigOption "OGR_WKT_PRECISION" "8";
                  Log Cout (MsgRemovedOld "/out"); RemoveAll "/out"; Log Cout MsgAllDone];
       destination_after := None;
       flag_at_exit := Some true |}.
Proof.
  exact (X4_no_cell_files Sample.world (DepthCmd (Parsed false (Some Sample.depth_options)))
           {| entries := [ {| path_string := "/in/README.txt"; filename := "README.txt";
                              extension := ".txt" |} ];
              throws := false |} (Some [["old"]]) "/out" "depth" eq_refl eq_refl eq_refl).
Defined.

(** ** How many fragments a layer gets *)






(** ** The level of a cell file *)

(** X8.  For a cell file the default level is never used: when the
    extension is a suffix of the file name, as it is for a path, a file
    name with the extension [.000] has at least four characters, so the
    level is its third character. *)
Theorem X8_level_default_unreached (entry : dir_entry) :
  is_cell_file entry = true ->
  ends_with (filename entry) (extension entry) ->
  (4 <= String.length (filename entry))%nat
  /\ String.get 2 (filename entry) = Some (Nobjnm.level_of (filename entry)).
Proof.
  unfold is_cell_file. intros Hext [p Hname]. apply String.eqb_eq in Hext.
  rewrite Hext in Hname.
  assert (Hlen : (4 <= String.length (filename entry))%nat).
  { rewrite Hname, string_length_app. simpl. lia. }
  split; [exact Hlen|].
  unfold Nobjnm.level_of.
  destruct (filename entry) as [|a [|b [|c rest]]]; simpl in Hlen; try lia. reflexivity.
Qed.

(** The cell of the sample runs. *)
Lemma X8_level_default_unreached_witness :
  (4 <= String.length "US5XX01M.000")%nat
  /\ String.get 2 "US5XX01M.000" = Some (Nobjnm.level_of "US5XX01M.000").
Proof.
  apply (X8_level_default_unreached (Sample.cell "/in/" "US5XX01M.000")).
  - reflexivity.
  - exists "US5XX01M". reflexivity.
Defined.

(** ** The ordered map *)

Lemma std_map_insert_ascending (k v : string) (m : StdMap.t) :
  StdMap.ascending (StdMap.keys m) = true ->
  StdMap.ascending (StdMap.keys (StdMap.insert k v m)) = true.
Proof.
  induction m as [|[k1 v1] r IH]; [reflexivity|].
  intros Hm. cbn [StdMap.insert].
  destruct (String.compare k k1) eqn:Hc.
  - exact Hm.
  - cbn [StdMap.keys map fst StdMap.ascending]. now rewrite Hc.
  - assert (Hc' : String.compare k1 k = Lt).
    { rewrite String.compare_antisym, Hc. reflexivity. }
    assert (Hr : StdMap.ascending (StdMap.keys r) = true).
    { destruct r as [|[k2 v2] r']; [reflexivity|].
      cbn [StdMap.keys map fst StdMap.ascending] in Hm.
      destruct (String.compare k1 k2); try discriminate. exact Hm. }
    specialize (IH Hr).
    destruct r as [|[k2 v2] r'].
    + cbn [StdMap.insert StdMap.keys map fst StdMap.ascending]. now rewrite Hc'.
    + cbn [StdMap.keys map fst StdMap.ascending] in Hm.
      destruct (String.compare k1 k2) eqn:H12; try discriminate.
      cbn [StdMap.insert] in *.
      destruct (String.compare k k2) eqn:Hk2.
      * cbn [StdMap.keys map fst StdMap.ascending]. now rewrite H12.
      * cbn [StdMap.keys map fst StdMap.ascending]. rewrite Hc', Hk2. exact Hm.
      * cbn [StdMap.keys map fst] in *. cbn [StdMap.ascending].
        destruct (map fst (StdMap.insert k v r')) eqn:Hins; now rewrite H12.
Qed.

Lemma std_map_find_insert_same (k v : string) (m : StdMap.t) :
  StdMap.find k (StdMap.insert k v m) <> None.
Proof.
  induction m as [|[k1 v1] r IH]; cbn [StdMap.insert StdMap.find].
  - now rewrite String.eqb_refl.
  - destruct (String.compare k k1) eqn:Hc; cbn [StdMap.find].
    + apply String.compare_eq_iff in Hc. subst k1. now rewrite String.eqb_refl.
    + now rewrite String.eqb_refl.
    + destruct (k =? k1); [discriminate | exact IH].
Qed.

Lemma std_map_find_insert_other (k0 k v : string) (m : StdMap.t) :
  k0 <> k -> StdMap.find k0 (StdMap.insert k v m) = StdMap.find k0 m.
Proof.
  intros Hne. apply String.eqb_neq in Hne.
  induction m as [|[k1 v1] r IH]; cbn [StdMap.insert StdMap.find].
  - now rewrite Hne.
  - destruct (String.compare k k1); cbn [StdMap.find].
    + reflexivity.
    + now rewrite Hne.
    + now rewrite IH.
Qed.

Lemma std_map_insert_incl (k v : string) (m : StdMap.t) :
  incl (StdMap.insert k v m) ((k, v) :: m).
Proof.
  induction m as [|[k1 v1] r IH]; cbn [StdMap.insert].
  - apply incl_refl.
  - destruct (String.compare k k1).
    + apply incl_tl, incl_refl.
    + apply incl_refl.
    + intros kv [<-|Hin]; [right; now left|].
      destruct (IH kv Hin) as [<-|Hr]; [now left | right; now right].
Qed.

Lemma std_map_find_in (k v : string) (m : StdMap.t) :
  StdMap.find k m = Some v -> In (k, v) m.
Proof.
  induction m as [|[k1 v1] r IH]; cbn [StdMap.find]; [discriminate|].
  destruct (k =? k1) eqn:Hk.
  - apply String.eqb_eq in Hk. intros H; inversion H; subst. now left.
  - intros H. right. now apply IH.
Qed.

Lemma std_map_fold (l : list (string * string)) (m : StdMap.t) :
  (StdMap.ascending (StdMap.keys m) = true ->
   StdMap.ascending
     (StdMap.keys (fold_left (fun m kv => StdMap.insert (fst kv) (snd kv) m) l m)) = true)
  /\ incl (fold_left (fun m kv => StdMap.insert (fst kv) (snd kv) m) l m) (l ++ m)
  /\ (forall k,
        In k (map fst l) \/ StdMap.find k m <> None ->
        StdMap.find k (fold_left (fun m kv => StdMap.insert (fst kv) (snd kv) m) l m)
        <> None).
Proof.
  revert m; induction l as [|[k v] l IH]; intros m; cbn [fold_left fst snd].
  - split; [auto|]. split; [apply incl_refl|]. intros k [[]|H]; exact H.
  - destruct (IH (StdMap.insert k v m)) as (Hasc & Hincl & Hfind).
    split; [|split].
    + intros Hm. apply Hasc. now apply std_map_insert_ascending.
    + intros kv Hin. apply Hincl in Hin. apply in_app_or in Hin as [Hin|Hin].
      * right. apply in_or_app. now left.
      * apply std_map_insert_incl in Hin as [<-|Hin]; [now left|].
        right. apply in_or_app. now right.
    + intros k0 H. apply Hfind.
      destruct (string_dec k0 k) as [->|Hne].
      * right. apply std_map_find_insert_same.
      * destruct H as [[Heq|Hin]|Hm].
        -- simpl in Heq. congruence.
        -- now left.
        -- right. now rewrite std_map_find_insert_other.
Qed.

(** X9.  The map built from an initializer list, whatever the order
    and repetitions of its pairs: its keys are in strictly ascending
    lexicographic order, every pair it holds is a pair of the list, and a
    key can be found exactly when the list has a pair for it, with a
    value the list gives for that key. *)
Theorem X9_std_map_of_list (l : list (string * string)) :
  StdMap.ascending (StdMap.keys (StdMap.of_list l)) = true
  /\ incl (StdMap.of_list l) l
  /\ (forall k,
        In k (map fst l)
        <-> exists v, StdMap.find k (StdMap.of_list l) = Some v /\ In (k, v) l).
Proof.
  unfold StdMap.of_list. destruct (std_map_fold l []) as (Hasc & Hincl & Hfind).
  rewrite app_nil_r in Hincl.
  split; [now apply Hasc|]. split; [exact Hincl|].
  intros k. split.
  - intros Hin. specialize (Hfind k (or_introl Hin)).
    destruct (StdMap.find k _) as [v|] eqn:Hv; [|contradiction].
    exists v. split; [reflexivity|]. apply Hincl. now apply std_map_find_in.
  - intros (v & _ & Hin). apply in_map_iff. now exists (k, v).
Qed.

(** The pairs of [depth_map] written in another order, one of them
    twice: the same keys in the same order, and the first value kept. *)
Lemma X9_std_map_of_list_witness :
  StdMap.keys (StdMap.of_list [("WRECKS", "VALSOU"); ("DEPARE", "DRVAL1");
                               ("SOUNDG", "DEPTH"); ("DEPARE", "DRVAL2")])
  = ["DEPARE"; "SOUNDG"; "WRECKS"]
  /\ exists v,
       StdMap.find "DEPARE"
         (StdMap.of_list [("WRECKS", "VALSOU"); ("DEPARE", "DRVAL1");
                          ("SOUNDG", "DEPTH"); ("DEPARE", "DRVAL2")]) = Some v
       /\ In ("DEPARE", v) [("WRECKS", "VALSOU"); ("DEPARE", "DRVAL1");
                            ("SOUNDG", "DEPTH"); ("DEPARE", "DRVAL2")].
Proof.
  split; [reflexivity|].
  apply (proj2 (proj2 (X9_std_map_of_list
                         [("WRECKS", "VALSOU"); ("DEPARE", "DRVAL1");
                          ("SOUNDG", "DEPTH"); ("DEPARE", "DRVAL2")])) "DEPARE").
  simpl. right. left. reflexivity.
Defined.

(** ** Handles: what a run holds and releases *)
Import Lifetime.

Lemma erase_app (a b : list action) : erase (a ++ b) = (erase a ++ erase b)%list.
Proof. apply flat_map_app. Qed.

Lemma erase_did (tr : list event) : erase (map Did tr) = tr.
Proof. induction tr as [|e tr IH]; simpl; [reflexivity | now rewrite IH]. Qed.

(** Forgetting the releases gives back the loop body of [depth.cpp]. *)
Lemma depth_erase (W : World) (o : Depth.Options) (st : RunState W) (entry : dir_entry) :
  fst (depth_process_entry W o st entry) = fst (Depth.process_entry W o st entry)
  /\ erase (snd (depth_process_entry W o st entry)) = snd (Depth.process_entry W o st entry).
Proof.
  unfold depth_process_entry, Depth.process_entry.
  destruct (extension entry =? ".000"); [|split; reflexivity].
  destruct (GDALOpenEx W (path_string entry) Depth.papszOpenOptions) as [poDS|];
    [|split; reflexivity].
  destruct (snd (Depth.build_sql_parts poDS)) as [|p ps].
  - split; [reflexivity|]. cbn [snd].
    rewrite !erase_app, erase_did. reflexivity.
  - destruct (GDALVectorTranslateOptionsNew W _).
    + destruct (GDALVectorTranslate W _ _ _ _) as [[|] fs']; (split; [reflexivity|]);
        cbn [snd]; rewrite !erase_app, erase_did; reflexivity.
    + split; [reflexivity|]. cbn [snd]. rewrite !erase_app, erase_did. reflexivity.
Qed.

(** Forgetting the releases gives back the loop body of [nobjnm.cpp]. *)
Lemma nobjnm_erase (W : World) (o : Nobjnm.Options) (st : RunState W) (entry : dir_entry) :
  fst (nobjnm_process_entry W o st entry) = fst (Nobjnm.process_entry W o st entry)
  /\ erase (snd (nobjnm_process_entry W o st entry))
     = snd (Nobjnm.process_entry W o st entry).
Proof.
  unfold nobjnm_process_entry, Nobjnm.process_entry.
  destruct (extension entry =? ".000"); [|split; reflexivity].
  destruct (GDALOpenEx W (path_string entry) []) as [poDS|]; [|split; reflexivity].
  destruct (snd (Nobjnm.build_sql_parts poDS _ _ _)) as [|p ps].
  - split; [reflexivity|]. cbn [snd].
    rewrite !erase_app, erase_did. reflexivity.
  - destruct (GDALVectorTranslateOptionsNew W (Nobjnm.translate_argv _ _ _)).
    + destruct (GDALVectorTranslate W _ _ _ _) as [[|] fs']; (split; [reflexivity|]);
        cbn [snd]; rewrite !erase_app, erase_did; reflexivity.
    + split; [reflexivity|]. cbn [snd]. rewrite !erase_app, erase_did. reflexivity.
Qed.

Lemma for_each_entry_cons {W : World}
    (body : RunState W -> dir_entry -> RunState W * list action)
    (entry : dir_entry) (l : list dir_entry) (st : RunState W) :
  for_each_entry body (entry :: l) st
  = (fst (for_each_entry body l (fst (body st entry))),
     (snd (body st entry) ++ snd (for_each_entry body l (fst (body st entry))))%list).
Proof.
  simpl. destruct (body st entry) as [st1 a1]. simpl.
  now destruct (for_each_entry body l st1).
Qed.

(** The loop with releases and the loop without go through the same
    states and the same events. *)
Lemma for_each_erase {W : World}
    (full : RunState W -> dir_entry -> RunState W * list action)
    (body : RunState W -> dir_entry -> RunState W * list event) :
  (forall st entry,
      fst (full st entry) = fst (body st entry)
      /\ erase (snd (full st entry)) = snd (body st entry)) ->
  forall l st,
    fst (for_each_entry full l st) = fst (for_each body l st)
    /\ erase (snd (for_each_entry full l st)) = snd (for_each body l st).
Proof.
  intros Hstep. induction l as [|entry l IH]; intros st; [split; reflexivity|].
  rewrite for_each_entry_cons, (for_each_cons body). cbn [fst snd].
  destruct (Hstep st entry) as [Hst Hev]. rewrite Hst.
  destruct (IH (fst (body st entry))) as [IHst IHev].
  split; [exact IHst|]. now rewrite erase_app, Hev, IHev.
Qed.

Lemma use_all_app (h : held) (a b : list action) :
  use_all h (a ++ b)
  = match use_all h a with
    | Some h' => use_all h' b
    | None => None
    end.
Proof.
  revert h; induction a as [|x a IH]; intros h; simpl; [reflexivity|].
  destruct (use h x); [apply IH | reflexivity].
Qed.

Lemma use_all_notes (h : held) (notes : list event) :
  forallb is_layer_note notes = true -> use_all h (map Did notes) = Some h.
Proof.
  induction notes as [|e notes IH]; simpl; [reflexivity|].
  intros H; apply andb_prop in H as [He Hn].
  destruct e as [s m| | | | | |]; try discriminate. simpl. now apply IH.
Qed.

Lemma use_all_said (h : held) (s : stream) (m : message) (tr : list action) :
  use_all h (Did (Log s m) :: tr) = use_all h tr.
Proof. reflexivity. Qed.

Lemma argv_eqb_refl (a : list string) : argv_eqb a a = true.
Proof.
  induction a as [|x a IH]; simpl; [reflexivity|].
  now rewrite String.eqb_refl, IH.
Qed.

Ltac settle_handles :=
  cbn [app use_all use dataset_open options_live destination_open free_one existsb orb
         gdal_dataset_deleter];
  repeat (first [rewrite String.eqb_refl | rewrite argv_eqb_refl];
          cbn [app use_all use dataset_open options_live destination_open free_one existsb
                 orb gdal_dataset_deleter]).

(** From the announcement of a file to the end of the layer loop, the
    dataset of the file is opened and nothing else changes. *)
Lemma use_all_opened (live : list (list string)) (f : string) (oo : list string)
    (notes : list event) (tail : list action) :
  forallb is_layer_note notes = true ->
  use_all {| dataset_open := None; options_live := live; destination_open := None |}
    (([Did (Log Cout (MsgProcessing f)); Did (OpenEx f oo true)] ++ map Did notes) ++ tail)
  = use_all {| dataset_open := Some f; options_live := live; destination_open := None |}
      tail.
Proof.
  intros Hnotes. rewrite !use_all_app. cbn [use_all use dataset_open options_live
                                             destination_open].
  now rewrite (use_all_notes _ notes Hnotes).
Qed.

(** The ways an iteration ends once its dataset is open. *)
Lemma use_all_no_fragment (live : list (list string)) (f : string) (m : message) :
  use_all {| dataset_open := Some f; options_live := live; destination_open := None |}
    ([Did (Log Cout m)] ++ gdal_dataset_deleter (Some f))
  = Some {| dataset_open := None; options_live := live; destination_open := None |}.
Proof.
  cbn [app gdal_dataset_deleter use_all use dataset_open options_live destination_open].
  now rewrite String.eqb_refl.
Qed.

Lemma use_all_export (live : list (list string)) (f d : string) (opts : list string)
    (ok : bool) (said : list event) :
  forallb (fun e => match e with Log _ _ => true | _ => false end) said = true ->
  use_all {| dataset_open := Some f; options_live := live; destination_open := None |}
    ([Did (OptionsNew opts true); Did (Translate d opts ok)]
     ++ (if ok then [DestinationClosed d] else map Did said)
     ++ [OptionsFreed opts] ++ gdal_dataset_deleter (Some f))
  = Some {| dataset_open := None; options_live := live; destination_open := None |}.
Proof.
  intros Hsaid.
  cbn [app use_all use dataset_open options_live destination_open existsb].
  rewrite argv_eqb_refl. cbn [orb].
  assert (Hlogs : forall h, use_all h (map Did said) = Some h).
  { clear - Hsaid. induction said as [|e said IH]; intros h; [reflexivity|].
    simpl in Hsaid. apply andb_prop in Hsaid as [He Hs].
    destruct e; try discriminate. simpl. now apply IH. }
  destruct ok.
  - settle_handles. reflexivity.
  - rewrite use_all_app, Hlogs. settle_handles. reflexivity.
Qed.

Lemma use_all_options_refused (live : list (list string)) (f : string) (opts : list string)
    (m : message) :
  use_all {| dataset_open := Some f; options_live := live; destination_open := None |}
    ([Did (OptionsNew opts false); Did (Log Cerr m)] ++ gdal_dataset_deleter (Some f))
  = Some {| dataset_open := None; options_live := live; destination_open := None |}.
Proof.
  cbn [app gdal_dataset_deleter use_all use dataset_open options_live destination_open].
  now rewrite String.eqb_refl.
Qed.

Lemma depth_entry_held (W : World) (o : Depth.Options) (st : RunState W)
    (entry : dir_entry) (live : list (list string)) :
  use_all {| dataset_open := None; options_live := live; destination_open := None |}
    (snd (depth_process_entry W o st entry))
  = Some {| dataset_open := None; options_live := live; destination_open := None |}.
Proof.
  unfold depth_process_entry.
  destruct (extension entry =? ".000"); [|reflexivity].
  destruct (GDALOpenEx W (path_string entry) Depth.papszOpenOptions) as [poDS|];
    [|reflexivity].
  rewrite depth_build_sql_parts. cbn [fst snd].
  pose proof (depth_notes_are_notes poDS Depth.all_target_layers) as Hnotes.
  destruct (map render (DepthPlan.plan poDS)) as [|p ps].
  - cbn [snd]. rewrite (use_all_opened _ _ _ _ _ Hnotes). apply use_all_no_fragment.
  - destruct (GDALVectorTranslateOptionsNew W _).
    + destruct (GDALVectorTranslate W _ _ _ _) as [[|] fs']; cbn [snd];
        rewrite (use_all_opened _ _ _ _ _ Hnotes).
      * exact (use_all_export live _ _ _ true [] eq_refl).
      * exact (use_all_export live _ _ _ false [Log Cerr (ErrProcessing (path_string entry))]
               eq_refl).
    + cbn [snd]. rewrite (use_all_opened _ _ _ _ _ Hnotes).
      cbn [app]. rewrite use_all_said.
      apply (use_all_options_refused live (path_string entry)).
Qed.

(** X10.  [depth.cpp] releases every handle it takes.  Over any scan,
    from any state: a dataset is closed by [gdal_dataset_deleter] before
    the next file is opened, also when the iteration leaves through
    [continue]; an export is called only on the open dataset, with live
    options made from its vector; the destination handle of a successful
    export is closed and the options are freed before the dataset is
    closed; and nothing is held at the end.  The releases aside, the
    loop is the loop of [Depth.process_entry]. *)
Theorem X10_depth_releases_handles (W : World) (o : Depth.Options) (l : list dir_entry)
    (st : RunState W) :
  use_all nothing_held (snd (for_each_entry (depth_process_entry W o) l st))
  = Some nothing_held
  /\ erase (snd (for_each_entry (depth_process_entry W o) l st))
     = snd (for_each (Depth.process_entry W o) l st)
  /\ fst (for_each_entry (depth_process_entry W o) l st)
     = fst (for_each (Depth.process_entry W o) l st).
Proof.
  split.
  - unfold nothing_held. generalize (@nil (list string)) as live.
    revert st; induction l as [|entry l IH]; intros st live; [reflexivity|].
    rewrite for_each_entry_cons. cbn [snd].
    now rewrite use_all_app, depth_entry_held.
  - destruct (for_each_erase (depth_process_entry W o) (Depth.process_entry W o)
                (depth_erase W o) l st) as [Hst Hev].
    split; assumption.
Qed.

(** What one turn of the loop of [nobjnm.cpp] leaves held, and frees. *)
Lemma nobjnm_entry_held (W : World) (o : Nobjnm.Options) (st : RunState W)
    (entry : dir_entry) (live : list (list string)) :
  use_all {| dataset_open := None; options_live := live; destination_open := None |}
    (snd (nobjnm_process_entry W o st entry))
  = Some {| dataset_open := None;
            options_live := (repeat [] (null_options_made
                                          (snd (nobjnm_process_entry W o st entry)))
                             ++ live)%list;
            destination_open := None |}
  /\ null_options_made (snd (nobjnm_process_entry W o st entry))
     = (if GDALVectorTranslateOptionsNew W []
        then export_attempts (snd (nobjnm_process_entry W o st entry))
        else 0%nat)
  /\ Forall (fun argv => argv <> []) (freed (snd (nobjnm_process_entry W o st entry))).
Proof.
  unfold nobjnm_process_entry.
  destruct (extension entry =? ".000");
    [|repeat split; [now destruct (GDALVectorTranslateOptionsNew W []) | constructor]].
  destruct (GDALOpenEx W (path_string entry) []) as [poDS|];
    [|repeat split; [now destruct (GDALVectorTranslateOptionsNew W []) | constructor]].
  rewrite nobjnm_build_sql_parts. cbn [fst snd].
  pose proof (nobjnm_notes_are_notes poDS (Nobjnm.filterField o) (Nobjnm.targetLayers o))
    as Hnotes.
  set (notes := flat_map (NobjnmPlan.notes poDS (Nobjnm.filterField o))
                  (Nobjnm.targetLayers o)) in *.
  assert (Hmade : forall p, (forall e, is_layer_note e = true -> p (Did e) = false) ->
                            filter p (map Did notes) = []).
  { intros p Hp. clear - Hnotes Hp. induction notes as [|e notes IH]; [reflexivity|].
    simpl in Hnotes. apply andb_prop in Hnotes as [He Hn].
    cbn [map filter]. rewrite (Hp e He). now apply IH. }
  assert (Hfreed : freed (map Did notes) = []).
  { clear. induction notes as [|e notes IH]; [reflexivity|]. exact IH. }
  assert (Hq : forall b q n, Nobjnm.translate_argv b q n <> []) by (intros [|]; discriminate).
  unfold null_options_made, export_attempts.
  destruct (map render (NobjnmPlan.plan poDS _ _ _)) as [|p ps].
  - cbn [snd]. rewrite (use_all_opened _ _ _ _ _ Hnotes), use_all_no_fragment.
    unfold freed at 1. rewrite !filter_app, !flat_map_app, !length_app.
    fold (freed (map Did notes)). rewrite Hfreed.
    rewrite !Hmade
      by (intros [[|] m| | | | | |] He; try discriminate; destruct m; try discriminate;
          reflexivity).
    cbn. repeat split; [now destruct (GDALVectorTranslateOptionsNew W []) | constructor].
  - remember (Nobjnm.translate_argv (isFirstWrite st) (join (p :: ps) " UNION ALL ")
                (Nobjnm.outputName o)) as opts eqn:Eopts.
    assert (Hopts : opts <> []) by (subst opts; apply Hq).
    destruct opts as [|x opts']; [contradiction|]. clear Eopts Hopts.
    destruct (GDALVectorTranslateOptionsNew W []) eqn:Hnull;
      destruct (GDALVectorTranslateOptionsNew W (x :: opts'));
      try (destruct (GDALVectorTranslate W _ _ _ _) as [[|] fs']);
      cbn [snd]; rewrite <- app_assoc;
      rewrite (use_all_opened _ _ _ _ _ Hnotes);
      unfold freed at 1; rewrite !filter_app, !flat_map_app, !length_app;
      fold (freed (map Did notes)); rewrite Hfreed;
      rewrite !Hmade
      by (intros [[|] m| | | | | |] He; try discriminate; destruct m; try discriminate;
          reflexivity);
      settle_handles; cbn;
      repeat split; try reflexivity; repeat constructor; discriminate.
Qed.

Lemma null_options_made_app (a b : list action) :
  null_options_made (a ++ b) = (null_options_made a + null_options_made b)%nat.
Proof. unfold null_options_made. now rewrite filter_app, length_app. Qed.

Lemma export_attempts_app (a b : list action) :
  export_attempts (a ++ b) = (export_attempts a + export_attempts b)%nat.
Proof. unfold export_attempts. now rewrite filter_app, length_app. Qed.

Lemma nobjnm_loop_held (W : World) (o : Nobjnm.Options) (l : list dir_entry)
    (st : RunState W) (live : list (list string)) :
  use_all {| dataset_open := None; options_live := live; destination_open := None |}
    (snd (for_each_entry (nobjnm_process_entry W o) l st))
  = Some {| dataset_open := None;
            options_live :=
              (repeat [] (null_options_made
                            (snd (for_each_entry (nobjnm_process_entry W o) l st)))
               ++ live)%list;
            destination_open := None |}
  /\ null_options_made (snd (for_each_entry (nobjnm_process_entry W o) l st))
     = (if GDALVectorTranslateOptionsNew W []
        then export_attempts (snd (for_each_entry (nobjnm_process_entry W o) l st))
        else 0%nat)
  /\ Forall (fun argv => argv <> [])
            (freed (snd (for_each_entry (nobjnm_process_entry W o) l st))).
Proof.
  revert st live; induction l as [|entry l IH]; intros st live.
  - repeat split; [now destruct (GDALVectorTranslateOptionsNew W []) | constructor].
  - rewrite for_each_entry_cons. cbn [snd].
    destruct (nobjnm_entry_held W o st entry live) as (Hheld & Hmade & Hfreed).
    destruct (IH (fst (nobjnm_process_entry W o st entry))
                 (repeat [] (null_options_made (snd (nobjnm_process_entry W o st entry)))
                  ++ live)%list) as (IHheld & IHmade & IHfreed).
    split; [|split].
    + rewrite use_all_app, Hheld, IHheld, null_options_made_app.
      rewrite (Nat.add_comm (null_options_made (snd (nobjnm_process_entry W o st entry)))).
      now rewrite repeat_app, <- app_assoc.
    + rewrite null_options_made_app, export_attempts_app, Hmade, IHmade.
      now destruct (GDALVectorTranslateOptionsNew W []).
    + unfold freed in *. rewrite flat_map_app. apply Forall_app. split; assumption.
Qed.

(** X11.  [nobjnm.cpp] makes its options twice for every export it
    attempts, first from a null vector, then from [opts], and frees the
    second object only.  Over any scan the handles are used in order
    (datasets closed by [gdal_dataset_deleter] before the next file,
    exports on an open dataset with live options, destination handles
    closed), but the objects made from the null vector are never freed:
    they are all still held at the end, one per export attempt when the
    library answers a non-null object for a null vector.  The releases
    aside, the loop is the loop of [Nobjnm.process_entry]. *)
Theorem X11_nobjnm_first_options_never_freed (W : World) (o : Nobjnm.Options)
    (l : list dir_entry) (st : RunState W) :
  use_all nothing_held (snd (for_each_entry (nobjnm_process_entry W o) l st))
  = Some (with_null_options
            (null_options_made (snd (for_each_entry (nobjnm_process_entry W o) l st)))
            nothing_held)
  /\ null_options_made (snd (for_each_entry (nobjnm_process_entry W o) l st))
     = (if GDALVectorTranslateOptionsNew W []
        then export_attempts (snd (for_each_entry (nobjnm_process_entry W o) l st))
        else 0%nat)
  /\ Forall (fun argv => argv <> [])
            (freed (snd (for_each_entry (nobjnm_process_entry W o) l st)))
  /\ erase (snd (for_each_entry (nobjnm_process_entry W o) l st))
     = snd (for_each (Nobjnm.process_entry W o) l st)
  /\ fst (for_each_entry (nobjnm_process_entry W o) l st)
     = fst (for_each (Nobjnm.process_entry W o) l st).
Proof.
  destruct (nobjnm_loop_held W o l st []) as (Hheld & Hmade & Hfreed).
  destruct (for_each_erase (nobjnm_process_entry W o) (Nobjnm.process_entry W o)
              (nobjnm_erase W o) l st) as [Hst Hev].
  repeat split; assumption.
Qed.

(** The sample cell of named objects: one export, one options object
    left; the same cell under [depth.cpp] would leave none. *)
Example nobjnm_sample_leak :
  use_all nothing_held
    (snd (for_each_entry (nobjnm_process_entry Sample.world Sample.nobjnm_options)
            [Sample.cell "/in/" "C1313100.000"; Sample.cell "/bad/" "XX.000"]
            {| isFirstWrite := true; destination := None |}))
  = Some {| dataset_open := None; options_live := [[]]; destination_open := None |}.
Proof. reflexivity. Qed.

(** ** [zip_single_file] *)

(** X12.  [zip_single_file] answers true exactly when the source opens,
    is read whole and miniz accepts it.  Nothing checks what [tellg]
    gives before the buffer is made: when no buffer of that size can be
    made (as for a directory, where [tellg] gives -1) the exception
    leaves the function, which then returns nothing, prints nothing and
    does not call miniz; that is the only way it fails to return.  miniz
    is called at most once and only after a complete read, with the
    archive path and entry name given, the whole content of the source
    and its length, a comment of size 0 and the default compression; a
    source that cannot be opened or read leaves the archive untouched.
    A run that returns false prints one error line, a success none. *)
Theorem X12_zip_single_file (D : Zip.Disk) (source zip name : string) :
  (fst (Zip.zip_single_file D source zip name) = Some true
   <-> exists buffer,
         Zip.ifstream_open D source = Zip.Readable buffer
         /\ Zip.mz_zip_add_mem_to_archive_file_in_place D zip name buffer
              (String.length buffer) "File comment" 0 Zip.MZ_DEFAULT_COMPRESSION = true)
  /\ (fst (Zip.zip_single_file D source zip name) = None
      <-> Zip.ifstream_open D source = Zip.NoBuffer)
  /\ (fst (Zip.zip_single_file D source zip name) = None ->
      snd (Zip.zip_single_file D source zip name) = [])
  /\ Zip.archive_calls (snd (Zip.zip_single_file D source zip name))
     = match Zip.ifstream_open D source with
       | Zip.Readable buffer => [(zip, name, buffer)]
       | _ => []
       end
  /\ List.length (Zip.error_lines (snd (Zip.zip_single_file D source zip name)))
     = match fst (Zip.zip_single_file D source zip name) with
       | Some false => 1%nat
       | _ => 0%nat
       end.
Proof.
  unfold Zip.zip_single_file.
  destruct (Zip.ifstream_open D source) as [| | |buffer].
  - cbn [fst snd]. repeat split; try discriminate; try reflexivity.
    intros (b & Hb & _). discriminate.
  - cbn [fst snd]. repeat split; try discriminate; try reflexivity.
    intros (b & Hb & _). discriminate.
  - cbn [fst snd]. repeat split; try discriminate; try reflexivity.
    intros (b & Hb & _). discriminate.
  - destruct (Zip.mz_zip_add_mem_to_archive_file_in_place D zip name buffer _ _ _ _)
      eqn:Hmz; cbn [fst snd].
    + repeat split; try discriminate; try reflexivity.
      intros _. exists buffer. now split.
    + repeat split; try discriminate; try reflexivity.
      intros (b & Hb & Hs). inversion Hb; subst. congruence.
Qed.

(** The sample disk: the output file is packed; a missing file is not,
    and miniz is not called for it; for the output directory itself the
    function does not return. *)
Lemma X12_zip_single_file_witness :
  fst (Zip.zip_single_file Zip.sample_disk "/out/nobjnm.csv" "/out/nobjnm.zip" "nobjnm.csv")
  = Some true
  /\ Zip.zip_single_file Zip.sample_disk "/out/depth.csv" "/out/depth.zip" "depth.csv"
     = (Some false, [Zip.Say Cerr (Zip.ErrOpenSource "/out/depth.csv")])
  /\ snd (Zip.zip_single_file Zip.sample_disk "/out" "/out.zip" "out") = [].
Proof.
  split; [|split; [reflexivity|]].
  - apply (proj2 (proj1 (X12_zip_single_file Zip.sample_disk
                           "/out/nobjnm.csv" "/out/nobjnm.zip" "nobjnm.csv"))).
    exists "WKT,LEVEL,LAYERS,NOBJNM". split; reflexivity.
  - apply (proj1 (proj2 (proj2 (X12_zip_single_file Zip.sample_disk
                                  "/out" "/out.zip" "out")))).
    reflexivity.
Defined.

(** ** What a run removes *)

Lemma depth_removals_step (W : World) (o : Depth.Options) (st : RunState W)
    (entry : dir_entry) :
  removals (snd (Depth.process_entry W o st entry)) = [].
Proof.
  unfold Depth.process_entry.
  destruct (extension entry =? ".000"); [|reflexivity].
  destruct (GDALOpenEx W (path_string entry) Depth.papszOpenOptions) as [poDS|];
    [|reflexivity].
  rewrite depth_build_sql_parts. cbn [fst snd].
  pose proof (notes_unseen
                (fun e => match e with RemoveAll dir => [dir] | _ => [] end)
                _ (fun _ _ => eq_refl)
                (depth_notes_are_notes poDS Depth.all_target_layers)) as Hn.
  destruct (map render (DepthPlan.plan poDS)) as [|p ps].
  - cbn [snd]. unfold removals. rewrite !flat_map_app, Hn. reflexivity.
  - destruct (GDALVectorTranslateOptionsNew W _).
    + destruct (GDALVectorTranslate W _ _ _ _) as [[|] fs']; cbn [snd];
        unfold removals; rewrite !flat_map_app, Hn; reflexivity.
    + cbn [snd]. unfold removals. rewrite !flat_map_app, Hn. reflexivity.
Qed.

Lemma nobjnm_removals_step (W : World) (o : Nobjnm.Options) (st : RunState W)
    (entry : dir_entry) :
  removals (snd (Nobjnm.process_entry W o st entry)) = [].
Proof.
  unfold Nobjnm.process_entry.
  destruct (extension entry =? ".000"); [|reflexivity].
  destruct (GDALOpenEx W (path_string entry) []) as [poDS|]; [|reflexivity].
  rewrite nobjnm_build_sql_parts. cbn [fst snd].
  pose proof (notes_unseen
                (fun e => match e with RemoveAll dir => [dir] | _ => [] end)
                _ (fun _ _ => eq_refl)
                (nobjnm_notes_are_notes poDS (Nobjnm.filterField o) (Nobjnm.targetLayers o)))
    as Hn.
  destruct (map render (NobjnmPlan.plan poDS _ _ _)) as [|p ps].
  - cbn [snd]. unfold removals. rewrite !flat_map_app, Hn. reflexivity.
  - destruct (GDALVectorTranslateOptionsNew W (Nobjnm.translate_argv _ _ _)).
    + destruct (GDALVectorTranslate W _ _ _ _) as [[|] fs']; cbn [snd];
        unfold removals; rewrite !flat_map_app, Hn; reflexivity.
    + cbn [snd]. unfold removals. rewrite !flat_map_app, Hn. reflexivity.
Qed.

(** X13.  The only thing a run ever removes is its output directory:
    it calls the removal once, when its command line is accepted and the
    check finds the destination (whether or not the removal then
    succeeds), and never otherwise: not while the files are processed,
    not when the destination is absent or the check itself throws, not
    in a run that prints the usage or rejects its arguments. *)
Theorem X13_only_the_destination_is_removed (W : World) (inv : invocation) (scan : Scan)
    (fs0 : option (Content W)) :
  removals (events (execute W inv scan fs0))
  = match output_of inv, fs0 with
    | Some (dir, _), Some _ => if fs_exists_throws W dir then [] else [dir]
    | _, _ => []
    end.
Proof.
  destruct (output_of inv) as [[dir name]|] eqn:Ho.
  - destruct (clears W dir fs0) eqn:Hc.
    + rewrite (execute_accepted W inv scan fs0 dir name Ho Hc). cbn [events].
      unfold removals. rewrite !flat_map_app. fold (removals (snd (loop_of W inv scan))).
      assert (Hloop : removals (snd (loop_of W inv scan)) = []).
      { transitivity (flat_map (fun _ : dir_entry => @nil string) (entries scan)).
        - destruct inv as [[|[|] [o|]]|[|[|] [o|]]]; try discriminate;
            cbn [loop_of]; unfold removals; apply for_each_reading; intros.
          + apply depth_removals_step.
          + apply nobjnm_removals_step.
        - induction (entries scan) as [|e l IH]; [reflexivity | exact IH]. }
      rewrite Hloop. destruct (prepare_output_clears W dir fs0 Hc) as [_ ->].
      unfold clears in Hc. apply andb_true_iff in Hc as [Hex _].
      apply negb_true_iff in Hex. rewrite Hex.
      destruct fs0; destruct (throws scan); reflexivity.
    + rewrite (execute_uncaught W inv scan fs0 dir name Ho Hc). cbn [events].
      unfold clears in Hc. unfold prepare_output.
      destruct (fs_exists_throws W dir); [now destruct fs0|].
      destruct fs0 as [c|]; [|discriminate].
      destruct (fs_remove_all W dir c); [discriminate | reflexivity].
  - destruct inv as [[|[|] [o|]]|[|[|] [o|]]]; try discriminate; reflexivity.
Qed.

(** ** The rows of the name query *)



(** A level that is the quote character itself closes its own literal:
    the text of the fragment is then not one the reading accepts. *)
Example quote_level_not_read :
  Nobjnm.level_of "ab'c.000" = single_quote
  /\ parse_query (Nobjnm.filter_sql (Nobjnm.level_of "ab'c.000") "SEAARE" "NOBJNM") = None.
Proof. split; reflexivity. Qed.


